(** * DeepReg: image-similarity losses and the HDF5 paired data loader

    A shallow embedding of [deepreg/loss/image.py] and
    [src/data/loader_h5.py].

    Python exceptions are values of [exn]; a computation that may raise
    returns a [result].  HDF5 files are finite maps from keys to datasets and
    the file system maps file names to files.  Tensors carry their shape and
    their elements in row-major order; the scalar operations of the tensor
    framework (addition, division, [exp], ...) are the fields of the class
    [FloatOps], so that every statement proved about a loss holds for whatever
    arithmetic the framework implements, and can be run on rationals. *)

From Stdlib Require Import ZArith QArith Qabs String Ascii OrdersEx Lia.
From stdpp Require Import base option list sorting strings gmap.

Local Open Scope Z_scope.
Local Open Scope string_scope.
Local Open Scope list_scope.
Local Open Scope nat_scope.

(** ** Python runtime: exceptions, results, strings, slices *)

Inductive exn : Type :=
  | AssertionError
  | KeyError
  | IndexError
  | ValueError
  | TypeError
  | AttributeError
  | OSError
  | InvalidArgumentError.

Inductive result (A : Type) : Type :=
  | Ok (a : A)
  | Raise (e : exn).
Arguments Ok {A} a.
Arguments Raise {A} e.

#[global] Instance exn_eq_dec : EqDecision exn.
Proof. solve_decision. Defined.

#[global] Instance result_ret : MRet result := fun _ a => Ok a.
#[global] Instance result_bind : MBind result := fun _ _ f m =>
  match m with
  | Ok a => f a
  | Raise e => Raise e
  end.
#[global] Instance result_fmap : FMap result := fun _ _ f m =>
  match m with
  | Ok a => Ok (f a)
  | Raise e => Raise e
  end.

(** [assert P] *)
Definition assert (P : Prop) `{Decision P} : result unit :=
  if decide P then Ok tt else Raise AssertionError.

(** [o] when it is there, exception [e] otherwise. *)
Definition or_raise {A} (e : exn) (o : option A) : result A :=
  match o with
  | Some a => Ok a
  | None => Raise e
  end.

Definition is_ok {A} (r : result A) : Prop :=
  match r with
  | Ok _ => True
  | Raise _ => False
  end.

(** The order of Python on [str]: lexicographic on code points. *)
Definition str_le (a b : string) : Prop := String_as_OT.compare a b <> Gt.

#[global] Instance str_le_dec a b : Decision (str_le a b).
Proof. unfold str_le. solve_decision. Defined.

(** [sorted(l)] on strings. *)
Definition sorted (l : list string) : list string := merge_sort str_le l.

(** [s.split(sep)[0]]: the part of [s] before the first occurrence of [sep]
    (all of [s] when there is none). *)
Fixpoint split_head (sep s : string) : string :=
  match s with
  | EmptyString => EmptyString
  | String c s' =>
      if String.prefix sep s then EmptyString else String c (split_head sep s')
  end.

(** [l[start:stop]] with the conventions of Python for negative and
    out-of-range bounds. *)
Definition slice_bound (n i : Z) : Z :=
  if (i <? 0)%Z then Z.max 0 (i + n) else Z.min i n.

Definition py_slice {A} (l : list A) (start stop : Z) : list A :=
  let n := Z.of_nat (length l) in
  let a := slice_bound n start in
  let b := slice_bound n stop in
  take (Z.to_nat (b - a)) (drop (Z.to_nat a) l).

(** A [dict]: keys in insertion order. *)
Section dict.
Context {V : Type}.

Definition dict : Type := list (string * V).

Definition dict_keys (d : dict) : list string := d.*1.

Fixpoint dict_get (d : dict) (k : string) : option V :=
  match d with
  | [] => None
  | (k', v) :: d' => if decide (k' = k) then Some v else dict_get d' k
  end.

(** [d[k] = v] *)
Fixpoint dict_set (d : dict) (k : string) (v : V) : dict :=
  match d with
  | [] => [(k, v)]
  | (k', v') :: d' =>
      if decide (k' = k) then (k, v) :: d' else (k', v') :: dict_set d' k v
  end.
End dict.
Arguments dict V : clear implicits.

(** ** [src/data/loader_h5.py] *)

Module LoaderH5.

Definition SKIPPED_KEYS : list string := ["num_important"; "num_labels"].

(** An HDF5 dataset: its shape and its elements. *)
Record Dataset : Type := mkDataset {
  ds_shape : list nat;
  ds_value : list Z
}.

#[global] Instance Dataset_eq_dec : EqDecision Dataset.
Proof. solve_decision. Defined.

Abbreviation H5File := (gmap string Dataset).
Abbreviation FileSystem := (gmap string (gmap string Dataset)).

(** [h5py.File(filename, "r")] *)
Definition h5py_File (fs : FileSystem) (filename : string) : result H5File :=
  or_raise OSError (fs !! filename).

(** [hf.keys()] *)
Definition h5_keys (hf : H5File) : list string := (map_to_list hf).*1.

Definition get_sorted_keys (fs : FileSystem) (filename : string)
  : result (list string) :=
  hf ← h5py_File fs filename;
  Ok (sorted (h5_keys hf)).

(** The loop of [get_image_label_key_dict] over the label keys. *)
Fixpoint key_dict_loop (image_keys label_keys : list string)
    (key_dict : dict (list string)) : result (dict (list string)) :=
  match label_keys with
  | [] => Ok key_dict
  | label_key :: label_keys' =>
      let image_key := split_head "_bin" label_key in
      if decide (image_key ∉ SKIPPED_KEYS) then
        _ ← assert (image_key ∈ image_keys);
        let key_dict :=
          if decide (image_key ∉ dict_keys key_dict)
          then dict_set key_dict image_key []
          else key_dict in
        labels ← or_raise KeyError (dict_get key_dict image_key);
        key_dict_loop image_keys label_keys'
          (dict_set key_dict image_key (labels ++ [label_key]))
      else key_dict_loop image_keys label_keys' key_dict
  end.

Definition get_image_label_key_dict (fs : FileSystem)
    (image_filename label_filename : string) : result (dict (list string)) :=
  image_keys ← get_sorted_keys fs image_filename;
  label_keys ← get_sorted_keys fs label_filename;
  key_dict ← key_dict_loop image_keys label_keys [];
  _ ← assert (sorted (dict_keys key_dict) = image_keys);
  Ok key_dict.

(** [hf.get(k).shape]; [hf.get] answers [None] for a missing key, which has
    no [shape]. *)
Definition h5_shape (hf : H5File) (k : string) : result (list nat) :=
  ds_shape <$> or_raise AttributeError (hf !! k).

Fixpoint shape_loop (hf : H5File) (sh : list nat) (keys : list string)
  : result unit :=
  match keys with
  | [] => Ok tt
  | k :: keys' =>
      shk ← h5_shape hf k;
      _ ← assert (sh = shk);
      shape_loop hf sh keys'
  end.

Definition get_image_shape (fs : FileSystem) (filename : string)
  : result (list nat) :=
  hf ← h5py_File fs filename;
  let keys := sorted (filter (λ k, k ∉ SKIPPED_KEYS) (h5_keys hf)) in
  k0 ← or_raise IndexError (keys !! 0);
  sh ← h5_shape hf k0;
  _ ← assert (length sh = 3);
  _ ← shape_loop hf sh keys;
  Ok sh.

Record H5DataLoader : Type := mkH5DataLoader {
  key_dict : dict (list string);
  keys : list string;
  moving_image_filename : string;
  fixed_image_filename : string;
  moving_label_filename : string;
  fixed_label_filename : string;
  moving_image_shape : list nat;
  fixed_image_shape : list nat
}.

(** The first sanity check of [__init__]:
    [for k in moving_key_dict: assert moving_key_dict[k] == fixed_key_dict[k]] *)
Fixpoint same_dict_loop (ks : list string)
    (moving_key_dict fixed_key_dict : dict (list string)) : result unit :=
  match ks with
  | [] => Ok tt
  | k :: ks' =>
      m ← or_raise KeyError (dict_get moving_key_dict k);
      f ← or_raise KeyError (dict_get fixed_key_dict k);
      _ ← assert (m = f);
      same_dict_loop ks' moving_key_dict fixed_key_dict
  end.

(** One element of the generator:
    [(moving_image, fixed_image, moving_label), fixed_label, indices]. *)
Record Item (F32 : Type) : Type := mkItem {
  moving_image : Dataset;
  fixed_image : Dataset;
  moving_label : Dataset;
  fixed_label : Dataset;
  indices : list F32
}.
Arguments mkItem {F32}.
Arguments moving_image {F32}.
Arguments fixed_image {F32}.
Arguments moving_label {F32}.
Arguments fixed_label {F32}.
Arguments indices {F32}.

Section loader.
(** [random.Random(seed).shuffle(keys)]: the list after the in-place
    shuffle, a function of the seed and of the list. *)
Variable random_shuffle : Z → list string → list string.

(** The state of the module-level generator of [random] and
    [random.randrange(n)] for [0 < n]. *)
Variable rng : Type.
Variable randrange : nat → rng → nat * rng.

(** [np.float32(i)] for an index. *)
Variable F32 : Type.
Variable float32 : nat → F32.

(** [H5DataLoader.__init__].  The initializer of [BasicDataLoader], which is
    not among the sources, is taken to raise nothing and to set none of the
    fields below. *)
Definition H5DataLoader___init__ (fs : FileSystem)
    (moving_image_filename fixed_image_filename
     moving_label_filename fixed_label_filename : string)
    (seed : Z) (shuffle : bool) (index_start index_end : Z)
  : result H5DataLoader :=
  moving_key_dict ←
    get_image_label_key_dict fs moving_image_filename moving_label_filename;
  fixed_key_dict ←
    get_image_label_key_dict fs fixed_image_filename fixed_label_filename;
  _ ← same_dict_loop (dict_keys moving_key_dict)
        moving_key_dict fixed_key_dict;
  moving_image_shape ← get_image_shape fs moving_image_filename;
  fixed_image_shape ← get_image_shape fs fixed_image_filename;
  moving_label_shape ← get_image_shape fs moving_label_filename;
  fixed_label_shape ← get_image_shape fs fixed_label_filename;
  _ ← assert (moving_image_shape = moving_label_shape);
  _ ← assert (fixed_image_shape = fixed_label_shape);
  let keys := sorted (dict_keys moving_key_dict) in
  _ ← assert ((index_start >= 0)%Z ∧ (index_end <= Z.of_nat (length keys))%Z);
  let keys := if shuffle then random_shuffle seed keys else keys in
  let keys := py_slice keys index_start index_end in
  Ok (mkH5DataLoader moving_key_dict keys
        moving_image_filename fixed_image_filename
        moving_label_filename fixed_label_filename
        moving_image_shape fixed_image_shape).

(** [hf.get(k)[()]] *)
Definition h5_read (hf : H5File) (k : string) : result Dataset :=
  or_raise TypeError (hf !! k).

(** The body of [get_generator] from position [image_index] on: the items
    yielded, the exception that ended the iteration if there was one, and
    the state of the random generator afterwards. *)
Fixpoint generator_loop (self : H5DataLoader)
    (hf_moving_image hf_moving_label hf_fixed_image hf_fixed_label : H5File)
    (image_index : nat) (image_keys : list string) (g : rng)
  : list (Item F32) * option exn * rng :=
  match image_keys with
  | [] => ([], None, g)
  | image_key :: image_keys' =>
      match or_raise KeyError (dict_get (key_dict self) image_key) with
      | Raise e => ([], Some e, g)
      | Ok label_keys =>
          let sorted_label_keys := sorted label_keys in
          if decide (length sorted_label_keys = 0) then ([], Some ValueError, g)
          else
            let '(label_index, g) := randrange (length sorted_label_keys) g in
            match
              label_key ← or_raise IndexError (sorted_label_keys !! label_index);
              moving_image ← h5_read hf_moving_image image_key;
              moving_label ← h5_read hf_moving_label label_key;
              fixed_image ← h5_read hf_fixed_image image_key;
              fixed_label ← h5_read hf_fixed_label label_key;
              Ok (mkItem moving_image fixed_image moving_label fixed_label
                    [float32 image_index; float32 label_index])
            with
            | Raise e => ([], Some e, g)
            | Ok item =>
                let '(items, e, g) :=
                  generator_loop self hf_moving_image hf_moving_label
                    hf_fixed_image hf_fixed_label (S image_index) image_keys' g in
                (item :: items, e, g)
            end
      end
  end.

(** [H5DataLoader.get_generator], run to its end. *)
Definition get_generator (fs : FileSystem) (self : H5DataLoader) (g : rng)
  : list (Item F32) * option exn * rng :=
  match
    hf_moving_image ← h5py_File fs (moving_image_filename self);
    hf_moving_label ← h5py_File fs (moving_label_filename self);
    hf_fixed_image ← h5py_File fs (fixed_image_filename self);
    hf_fixed_label ← h5py_File fs (fixed_label_filename self);
    Ok (hf_moving_image, hf_moving_label, hf_fixed_image, hf_fixed_label)
  with
  | Raise e => ([], Some e, g)
  | Ok (hf_moving_image, hf_moving_label, hf_fixed_image, hf_fixed_label) =>
      generator_loop self hf_moving_image hf_moving_label
        hf_fixed_image hf_fixed_label 0 (keys self) g
  end.
End loader.

End LoaderH5.

(** ** The tensor framework *)

(** The scalar arithmetic of the framework on a floating-point type. *)
Class FloatOps (F : Type) : Type := {
  fadd : F → F → F;
  fsub : F → F → F;
  fmul : F → F → F;
  fdiv : F → F → F;
  fneg : F → F;
  fabs : F → F;
  (** [x <= y] *)
  fleb : F → F → bool;
  (** the value of a literal *)
  of_Q : Q → F;
  (** neither NaN nor infinite *)
  is_finite : F → bool
}.

(** [exp] and [log]. *)
Class Transcendental (F : Type) : Type := {
  fexp : F → F;
  flog : F → F
}.

Module tf.

Record Tensor (F : Type) : Type := mkTensor {
  shape : list nat;
  data : list F
}.
Arguments mkTensor {F} shape data.
Arguments shape {F} _.
Arguments data {F} _.

(** The number of elements of a shape. *)
Definition numel (sh : list nat) : nat := foldr Nat.mul 1 sh.

(** Row-major order: the index of the element at flat position [k], and the
    flat position of an index. *)
Fixpoint unravel (sh : list nat) (k : nat) : list nat :=
  match sh with
  | [] => []
  | _ :: sh' => k / numel sh' :: unravel sh' (k mod numel sh')
  end.

Fixpoint ravel (sh idx : list nat) : nat :=
  match sh, idx with
  | _ :: sh', i :: idx' => i * numel sh' + ravel sh' idx'
  | _, _ => 0
  end.

(** All indices of a shape, in row-major order. *)
Definition indices (sh : list nat) : list (list nat) :=
  map (unravel sh) (seq 0 (numel sh)).

(** The shapes of broadcasting, dimensions aligned at the right. *)
Fixpoint broadcast_rev (a b : list nat) : option (list nat) :=
  match a, b with
  | [], _ => Some b
  | _, [] => Some a
  | x :: a', y :: b' =>
      if decide (x = y) then cons x <$> broadcast_rev a' b'
      else if decide (x = 1) then cons y <$> broadcast_rev a' b'
      else if decide (y = 1) then cons x <$> broadcast_rev a' b'
      else None
  end.

Definition broadcast_shape (a b : list nat) : option (list nat) :=
  reverse <$> broadcast_rev (reverse a) (reverse b).

(** The index into an operand of shape [sh] for the index [idx] of the
    broadcast result. *)
Definition broadcast_index (sh idx : list nat) : list nat :=
  zip_with (λ d i, if decide (d = 1) then 0 else i) sh
    (drop (length idx - length sh) idx).

(** The position of [j] in [l]. *)
Fixpoint position (j : nat) (l : list nat) : nat :=
  match l with
  | [] => 0
  | x :: l' => if decide (x = j) then 0 else S (position j l')
  end.

(** An axis given as for Python, negative ones counting from the end. *)
Definition normalize_axis (rank : nat) (axis : Z) : result nat :=
  if decide (0 ≤ axis < Z.of_nat rank)%Z then Ok (Z.to_nat axis)
  else if decide (- Z.of_nat rank ≤ axis < 0)%Z
       then Ok (Z.to_nat (axis + Z.of_nat rank))
       else Raise InvalidArgumentError.

Fixpoint normalize_axes (rank : nat) (axes : list Z) : result (list nat) :=
  match axes with
  | [] => Ok []
  | a :: axes' =>
      a ← normalize_axis rank a;
      axes' ← normalize_axes rank axes';
      Ok (a :: axes')
  end.

(** The shape with the dimensions at [axes] set to 1, the shape with all
    others set to 1, and the shape without the dimensions at [axes]. *)
Definition kept_shape (axes : list nat) (sh : list nat) : list nat :=
  imap (λ j d, if decide (j ∈ axes) then 1 else d) sh.

Definition reduced_shape (axes : list nat) (sh : list nat) : list nat :=
  imap (λ j d, if decide (j ∈ axes) then d else 1) sh.

Definition squeezed_shape (axes : list nat) (sh : list nat) : list nat :=
  (filter (λ p, p.1 ∉ axes) (imap pair sh)).*2.

Section ops.
Context {F : Type} `{FloatOps F}.

Definition of_nat (n : nat) : F := of_Q (inject_Z (Z.of_nat n)).
Definition of_Z (n : Z) : F := of_Q (inject_Z n).

Definition fmin (x y : F) : F := if fleb x y then x else y.
Definition fmax (x y : F) : F := if fleb x y then y else x.

(** The sum of a list, from the left. *)
Definition fsum (l : list F) : F :=
  match l with
  | [] => of_Q 0
  | x :: l' => foldl fadd x l'
  end.

(** The element at an index. *)
Definition get (t : Tensor F) (idx : list nat) : F :=
  nth (ravel (shape t) idx) (data t) (of_Q 0).

(** The tensor of a shape with a given element at every index. *)
Definition init (sh : list nat) (f : list nat → F) : Tensor F :=
  mkTensor sh (map f (indices sh)).

(** A scalar, as Python numbers are when they meet a tensor. *)
Definition constant (x : F) : Tensor F := mkTensor [] [x].

Definition map_elements (f : F → F) (t : Tensor F) : Tensor F :=
  mkTensor (shape t) (map f (data t)).

(** An elementwise binary operation, with broadcasting. *)
Definition broadcast2 (op : F → F → F) (a b : Tensor F) : result (Tensor F) :=
  sh ← or_raise InvalidArgumentError (broadcast_shape (shape a) (shape b));
  Ok (init sh (λ idx, op (get a (broadcast_index (shape a) idx))
                         (get b (broadcast_index (shape b) idx)))).

Definition add := broadcast2 fadd.
Definition subtract := broadcast2 fsub.
Definition multiply := broadcast2 fmul.
Definition divide := broadcast2 fdiv.
Definition negative := map_elements fneg.
Definition abs := map_elements fabs.
Definition math_square := map_elements (λ x, fmul x x).
Definition math_squared_difference :=
  broadcast2 (λ x y, fmul (fsub x y) (fsub x y)).

(** [tf.clip_by_value(t, lo, hi)] *)
Definition clip_by_value (t : Tensor F) (lo hi : F) : Tensor F :=
  map_elements (λ x, fmax (fmin x hi) lo) t.

(** [tf.reshape(t, sh)] *)
Definition reshape (t : Tensor F) (sh : list nat) : result (Tensor F) :=
  if decide (numel sh = numel (shape t)) then Ok (mkTensor sh (data t))
  else Raise InvalidArgumentError.

(** [tf.expand_dims(t, axis)] for an axis that is not negative. *)
Definition expand_dims (t : Tensor F) (axis : nat) : result (Tensor F) :=
  if decide (axis ≤ length (shape t))
  then Ok (mkTensor (take axis (shape t) ++ 1 :: drop axis (shape t)) (data t))
  else Raise InvalidArgumentError.

(** [tf.keras.layers.Flatten()(t)]: all axes but the first become one; a
    tensor of rank one gets a second axis of size one. *)
Definition Flatten (t : Tensor F) : result (Tensor F) :=
  match shape t with
  | [] => Raise ValueError
  | batch :: sh => Ok (mkTensor [batch; numel sh] (data t))
  end.

(** A reduction over the axes [axes]: [finish] gets the sum and the number
    of the elements reduced. *)
Definition reduce (finish : F → nat → F) (t : Tensor F)
    (axes : list nat) (keepdims : bool) : Tensor F :=
  let osh := kept_shape axes (shape t) in
  let rsh := reduced_shape axes (shape t) in
  let kept :=
    init osh (λ o, finish (fsum (map (λ r, get t (zip_with Nat.add o r))
                                     (indices rsh)))
                          (numel rsh)) in
  if keepdims then kept
  else mkTensor (squeezed_shape axes (shape t)) (data kept).

(** [tf.reduce_sum(t, axis, keepdims)] and [tf.reduce_mean(t, axis,
    keepdims)]; the axes are [None] for all of them or a list. *)
Definition reduce_over (finish : F → nat → F) (t : Tensor F)
    (axis : option (list Z)) (keepdims : bool) : result (Tensor F) :=
  match axis with
  | None => Ok (reduce finish t (seq 0 (length (shape t))) keepdims)
  | Some axes =>
      axes ← normalize_axes (length (shape t)) axes;
      Ok (reduce finish t axes keepdims)
  end.

Definition reduce_sum := reduce_over (λ s _, s).
Definition reduce_mean := reduce_over (λ s n, fdiv s (of_nat n)).

(** [tf.math.reduce_variance(t, axis)]: the mean of the squared deviations
    from the mean. *)
Definition math_reduce_variance (t : Tensor F) (axis : option (list Z))
  : result (Tensor F) :=
  means ← reduce_mean t axis true;
  diff ← subtract t means;
  reduce_mean (math_square diff) axis false.

(** [tf.transpose(t, perm)]: axis [p] of the result is axis [perm[p]] of
    [t]. *)
Definition transpose (t : Tensor F) (perm : list nat) : result (Tensor F) :=
  if decide (perm ≡ₚ seq 0 (length (shape t))) then
    Ok (init (map (λ j, nth j (shape t) 0) perm)
          (λ idx, get t (map (λ j, nth (position j perm) idx 0)
                           (seq 0 (length perm)))))
  else Raise InvalidArgumentError.

(** [tf.matmul(a, b)] on batches of matrices, rank three. *)
Definition matmul (a b : Tensor F) : result (Tensor F) :=
  match shape a, shape b with
  | [ba; m; k], [bb; k'; n] =>
      if decide (ba = bb ∧ k = k') then
        Ok (init [ba; m; n]
              (λ idx, match idx with
                      | [i; r; c] =>
                          fsum (map (λ j, fmul (get a [i; r; j]) (get b [i; j; c]))
                                  (seq 0 k))
                      | _ => of_Q 0
                      end))
      else Raise InvalidArgumentError
  | _, _ => Raise InvalidArgumentError
  end.

(** [t[..., start:stop]], a slice of the last axis; [stop] is [None] for
    the end of the axis. *)
Definition slice_last (t : Tensor F) (start : Z) (stop : option Z)
  : result (Tensor F) :=
  match reverse (shape t) with
  | [] => Raise InvalidArgumentError
  | d :: rsh =>
      let sh := reverse rsh in
      let a := slice_bound (Z.of_nat d) start in
      let b := from_option (slice_bound (Z.of_nat d)) (Z.of_nat d) stop in
      Ok (init (sh ++ [Z.to_nat (b - a)])
            (λ idx, get t (take (length sh) idx ++
                           [Z.to_nat a + nth (length sh) idx 0])))
  end.

(** [tf.linspace(start, stop, num)]: no element for [num = 0], and an
    error for a negative [num] only. *)
Definition linspace (start stop : F) (num : Z) : result (Tensor F) :=
  if decide (num < 0)%Z then Raise InvalidArgumentError
  else if decide (num = 0)%Z then Ok (mkTensor [0] [])
  else if decide (num = 1)%Z then Ok (mkTensor [1] [start])
  else
    let n := Z.to_nat num in
    let delta := fdiv (fsub stop start) (of_nat (n - 1)) in
    Ok (mkTensor [n]
          (start :: map (λ k, fadd start (fmul delta (of_nat k))) (seq 1 (n - 2))
           ++ [stop])).

(** [tf.ones(shape)] *)
Definition ones (sh : list Z) : result (Tensor F) :=
  if decide (Forall (λ d, 0 ≤ d)%Z sh)
  then Ok (init (Z.to_nat <$> sh) (λ _, of_Q 1))
  else Raise InvalidArgumentError.

(** [tf.debugging.check_numerics(t, message)] *)
Definition debugging_check_numerics (t : Tensor F) : result (Tensor F) :=
  if forallb is_finite (data t) then Ok t else Raise InvalidArgumentError.
End ops.

Section transcendental.
Context {F : Type} `{Transcendental F}.
Definition math_exp : Tensor F → Tensor F := map_elements fexp.
Definition math_log : Tensor F → Tensor F := map_elements flog.
End transcendental.

End tf.

(** ** [deepreg/loss/image.py] *)

Module Image.

(** The kernel functions of [deepreg.loss.util]; the losses store one and
    never call it. *)
Inductive kernel_fn : Type :=
  | gaussian_kernel1d
  | rectangular_kernel1d
  | triangular_kernel1d.

(** The values the attributes of a loss object hold. *)
Inductive pyval (F : Type) : Type :=
  | VStr (s : string)
  | VInt (n : Z)
  | VInts (l : list Z)
  | VTensor (t : tf.Tensor F)
  | VKernelFn (k : kernel_fn)
  | VKernelFnDict (d : dict kernel_fn)
  | VMethod (qualname : string).
Arguments VStr {F} s.
Arguments VInt {F} n.
Arguments VInts {F} l.
Arguments VTensor {F} t.
Arguments VKernelFn {F} k.
Arguments VKernelFnDict {F} d.
Arguments VMethod {F} qualname.

(** The attributes of an instance, and those of a class. *)
Abbreviation obj F := (gmap string (pyval F)).

(** [self.name]: the attribute of the instance, else that of its class. *)
Definition getattr {F} (class self : obj F) (name : string) : result (pyval F) :=
  match self !! name with
  | Some v => Ok v
  | None => or_raise AttributeError (class !! name)
  end.

(** [self.name = v] *)
Definition setattr {F} (self : obj F) (name : string) (v : pyval F) : obj F :=
  <[name := v]> self.

Definition as_int {F} (v : pyval F) : result Z :=
  match v with VInt n => Ok n | _ => Raise TypeError end.
Definition as_ints {F} (v : pyval F) : result (list Z) :=
  match v with VInts l => Ok l | _ => Raise TypeError end.
Definition as_str {F} (v : pyval F) : result string :=
  match v with VStr s => Ok s | _ => Raise TypeError end.
Definition as_tensor {F} (v : pyval F) : result (tf.Tensor F) :=
  match v with VTensor t => Ok t | _ => Raise TypeError end.
Definition as_kernel_fn_dict {F} (v : pyval F) : result (dict kernel_fn) :=
  match v with VKernelFnDict d => Ok d | _ => Raise AttributeError end.

(** The parameters of [GlobalMutualInformation]. *)
Record GlobalMutualInformation (F : Type) : Type := mkGlobalMutualInformation {
  num_bins : Z;
  sigma_ratio : F
}.
Arguments mkGlobalMutualInformation {F} num_bins sigma_ratio.
Arguments num_bins {F} _.
Arguments sigma_ratio {F} _.

Section image.
Context {F : Type} `{FloatOps F}.

Definition EPS : F := of_Q (1 # 100000).

(** [SumSquaredDifference.call] *)
Definition SumSquaredDifference_call (y_true y_pred : tf.Tensor F)
  : result (tf.Tensor F) :=
  loss ← tf.math_squared_difference y_true y_pred;
  loss ← tf.Flatten loss;
  tf.reduce_mean loss (Some [1%Z]) false.

(** The adjustment both [GlobalMutualInformation.call] and
    [LocalNormalizedCrossCorrelation.call] start with: a channel axis for
    inputs of rank four. *)
Definition adjust (y_true y_pred : tf.Tensor F)
  : result (tf.Tensor F * tf.Tensor F) :=
  if decide (length (tf.shape y_true) = 4) then
    y_true ← tf.expand_dims y_true 4;
    y_pred ← tf.expand_dims y_pred 4;
    Ok (y_true, y_pred)
  else Ok (y_true, y_pred).

Definition GlobalMutualInformation___init__ (num_bins : Z) (sigma_ratio : F)
  : GlobalMutualInformation F :=
  mkGlobalMutualInformation num_bins sigma_ratio.

(** [GlobalNormalizedCrossCorrelation.call] *)
Definition GlobalNormalizedCrossCorrelation_call (y_true y_pred : tf.Tensor F)
  : result (tf.Tensor F) :=
  let axis := Some (Z.of_nat <$> seq 1 (length (tf.shape y_true) - 1)) in
  mu_pred ← tf.reduce_mean y_pred axis true;
  mu_true ← tf.reduce_mean y_true axis true;
  var_pred ← tf.math_reduce_variance y_pred axis;
  var_true ← tf.math_reduce_variance y_true axis;
  d_pred ← tf.subtract y_pred mu_pred;
  d_true ← tf.subtract y_true mu_true;
  product ← tf.multiply d_pred d_true;
  mean ← tf.reduce_mean product axis false;
  let numerator := tf.abs mean in
  squared ← tf.multiply numerator numerator;
  num ← tf.add squared (tf.constant EPS);
  variances ← tf.multiply var_pred var_true;
  denom ← tf.add variances (tf.constant EPS);
  tf.divide num denom.

(** Modelled from the spec: [NegativeLossMixin] of [deepreg/loss/util.py],
    which is not among the sources.  The spec has it as "the sign-flip
    wrapper pattern (loss = -metric)": its [call] negates what the [call] of
    the next class gives, and it has no other method. *)
Definition NegativeLossMixin_call
    (super_call : tf.Tensor F → tf.Tensor F → result (tf.Tensor F))
    (y_true y_pred : tf.Tensor F) : result (tf.Tensor F) :=
  loss ← super_call y_true y_pred;
  Ok (tf.negative loss).

Definition GlobalNormalizedCrossCorrelationLoss_call
  : tf.Tensor F → tf.Tensor F → result (tf.Tensor F) :=
  NegativeLossMixin_call GlobalNormalizedCrossCorrelation_call.

Section lncc.
(** [tf.keras.losses.Loss]: the attributes of the class, and the
    attributes of an instance after [Loss.__init__(reduction, name)]. *)
Variable Loss_class : obj F.
Variable Loss___init__ : string → string → obj F.

(** [tf.nn.conv3d(input, filters, strides, padding)] *)
Variable nn_conv3d :
  tf.Tensor F → tf.Tensor F → list Z → string → result (tf.Tensor F).

Definition kernel_fn_dict : dict kernel_fn :=
  [("gaussian", gaussian_kernel1d);
   ("rectangular", rectangular_kernel1d);
   ("triangular", triangular_kernel1d)].

(** The attributes of the class [LocalNormalizedCrossCorrelation]: its
    own, then those of [Loss]. *)
Definition LocalNormalizedCrossCorrelation_class : obj F :=
  {[ "kernel_fn_dict" := VKernelFnDict kernel_fn_dict;
     "__init__" := VMethod "LocalNormalizedCrossCorrelation.__init__";
     "call" := VMethod "LocalNormalizedCrossCorrelation.call";
     "get_config" := VMethod "LocalNormalizedCrossCorrelation.get_config" ]}
  ∪ Loss_class.

Definition LocalNormalizedCrossCorrelation___init__
    (kernel_size : Z) (kernel_type : string) (reduction name : string)
  : result (obj F) :=
  let class := LocalNormalizedCrossCorrelation_class in
  let self := Loss___init__ reduction name in
  d ← getattr class self "kernel_fn_dict" ≫= as_kernel_fn_dict;
  if decide (kernel_type ∉ dict_keys d) then Raise ValueError
  else
    d ← getattr class self "kernel_fn_dict" ≫= as_kernel_fn_dict;
    fn ← or_raise KeyError (dict_get d kernel_type);
    let self := setattr self "kernel_fn" (VKernelFn fn) in
    let self := setattr self "kernel_type" (VStr kernel_type) in
    k1 ← getattr class self "kernel_size" ≫= as_int;
    k2 ← getattr class self "kernel_size" ≫= as_int;
    k3 ← getattr class self "kernel_size" ≫= as_int;
    filters ← tf.ones [k1; k2; k3; 1; 1]%Z;
    let self := setattr self "filters" (VTensor filters) in
    let self := setattr self "strides" (VInts [1; 1; 1; 1; 1]%Z) in
    let self := setattr self "padding" (VStr "SAME") in
    let self := setattr self "kernel_vol" (VInt (kernel_size ^ 3)) in
    Ok self.

(** [LocalNormalizedCrossCorrelation.call] *)
Definition LocalNormalizedCrossCorrelation_call (self : obj F)
    (y_true y_pred : tf.Tensor F) : result (tf.Tensor F) :=
  let class := LocalNormalizedCrossCorrelation_class in
  let conv3d (x : tf.Tensor F) : result (tf.Tensor F) :=
    filters ← getattr class self "filters" ≫= as_tensor;
    strides ← getattr class self "strides" ≫= as_ints;
    padding ← getattr class self "padding" ≫= as_str;
    nn_conv3d x filters strides padding in
  let kernel_vol : result (tf.Tensor F) :=
    n ← getattr class self "kernel_vol" ≫= as_int;
    Ok (tf.constant (tf.of_Z n)) in
  '(y_true, y_pred) ← adjust y_true y_pred;
  _ ← assert (length (tf.shape y_true) = length (tf.shape y_pred) ∧
              length (tf.shape y_pred) = 5);
  t2 ← tf.multiply y_true y_true;
  p2 ← tf.multiply y_pred y_pred;
  tp ← tf.multiply y_true y_pred;
  t_sum ← conv3d y_true;
  p_sum ← conv3d y_pred;
  t2_sum ← conv3d t2;
  p2_sum ← conv3d p2;
  tp_sum ← conv3d tp;
  t_avg ← kernel_vol ≫= tf.divide t_sum;
  p_avg ← kernel_vol ≫= tf.divide p_sum;
  cross ← tf.multiply p_avg t_sum ≫= tf.subtract tp_sum;
  t_var ← tf.multiply t_avg t_sum ≫= tf.subtract t2_sum;
  p_var ← tf.multiply p_avg p_sum ≫= tf.subtract p2_sum;
  num ← tf.multiply cross cross ≫= λ x, tf.add x (tf.constant EPS);
  denom ← tf.multiply t_var p_var ≫= λ x, tf.add x (tf.constant EPS);
  ncc ← tf.divide num denom;
  ncc ← tf.debugging_check_numerics ncc;
  tf.reduce_mean ncc (Some [1; 2; 3; 4]%Z) false.

(** The class [LocalNormalizedCrossCorrelationLoss] takes [__init__]
    from [LocalNormalizedCrossCorrelation] and [call] from the mixin. *)
Definition LocalNormalizedCrossCorrelationLoss___init__ :=
  LocalNormalizedCrossCorrelation___init__.

Definition LocalNormalizedCrossCorrelationLoss_call (self : obj F)
  : tf.Tensor F → tf.Tensor F → result (tf.Tensor F) :=
  NegativeLossMixin_call (LocalNormalizedCrossCorrelation_call self).
End lncc.

Section lncc_debug.
(** [tf.keras.layers.Layer]: the attributes of the class, and the
    attributes of an instance after [Layer.__init__(name=name)]. *)
Variable Layer_class : obj F.
Variable Layer___init__ : string → obj F.

(** [tf.nn.conv3d(input, filters, strides, padding)] *)
Variable nn_conv3d :
  tf.Tensor F → tf.Tensor F → list Z → string → result (tf.Tensor F).

(** The attributes of the class [LocalNormalizedCrossCorrelationDEBUG1]:
    its own, the dictionary of kernel functions being one with the entries
    of [kernel_fn_dict], then those of [Layer]. *)
Definition LocalNormalizedCrossCorrelationDEBUG1_class : obj F :=
  {[ "kernel_fn_dict" := VKernelFnDict kernel_fn_dict;
     "__init__" := VMethod "LocalNormalizedCrossCorrelationDEBUG1.__init__";
     "call" := VMethod "LocalNormalizedCrossCorrelationDEBUG1.call";
     "get_config" := VMethod "LocalNormalizedCrossCorrelationDEBUG1.get_config" ]}
  ∪ Layer_class.

Definition LocalNormalizedCrossCorrelationDEBUG1___init__
    (kernel_size : Z) (kernel_type : string) (name : string)
  : result (obj F) :=
  let class := LocalNormalizedCrossCorrelationDEBUG1_class in
  let self := Layer___init__ name in
  d ← getattr class self "kernel_fn_dict" ≫= as_kernel_fn_dict;
  if decide (kernel_type ∉ dict_keys d) then Raise ValueError
  else
    d ← getattr class self "kernel_fn_dict" ≫= as_kernel_fn_dict;
    fn ← or_raise KeyError (dict_get d kernel_type);
    let self := setattr self "kernel_fn" (VKernelFn fn) in
    let self := setattr self "kernel_type" (VStr kernel_type) in
    k1 ← getattr class self "kernel_size" ≫= as_int;
    k2 ← getattr class self "kernel_size" ≫= as_int;
    k3 ← getattr class self "kernel_size" ≫= as_int;
    filters ← tf.ones [k1; k2; k3; 1; 1]%Z;
    let self := setattr self "filters" (VTensor filters) in
    let self := setattr self "strides" (VInts [1; 1; 1; 1; 1]%Z) in
    let self := setattr self "padding" (VStr "SAME") in
    let self := setattr self "kernel_vol" (VInt (kernel_size ^ 3)) in
    Ok self.

(** [LocalNormalizedCrossCorrelationDEBUG1.call]: the numerator, after the
    denominator has been checked. *)
Definition LocalNormalizedCrossCorrelationDEBUG1_call (self : obj F)
    (y_true y_pred : tf.Tensor F) : result (tf.Tensor F) :=
  let class := LocalNormalizedCrossCorrelationDEBUG1_class in
  let conv3d (x : tf.Tensor F) : result (tf.Tensor F) :=
    filters ← getattr class self "filters" ≫= as_tensor;
    strides ← getattr class self "strides" ≫= as_ints;
    padding ← getattr class self "padding" ≫= as_str;
    nn_conv3d x filters strides padding in
  let kernel_vol : result (tf.Tensor F) :=
    n ← getattr class self "kernel_vol" ≫= as_int;
    Ok (tf.constant (tf.of_Z n)) in
  '(y_true, y_pred) ← adjust y_true y_pred;
  _ ← assert (length (tf.shape y_true) = length (tf.shape y_pred) ∧
              length (tf.shape y_pred) = 5);
  t2 ← tf.multiply y_true y_true;
  p2 ← tf.multiply y_pred y_pred;
  tp ← tf.multiply y_true y_pred;
  t_sum ← conv3d y_true;
  p_sum ← conv3d y_pred;
  t2_sum ← conv3d t2;
  p2_sum ← conv3d p2;
  tp_sum ← conv3d tp;
  t_avg ← kernel_vol ≫= tf.divide t_sum;
  p_avg ← kernel_vol ≫= tf.divide p_sum;
  cross ← tf.multiply p_avg t_sum ≫= tf.subtract tp_sum;
  t_var ← tf.multiply t_avg t_sum ≫= tf.subtract t2_sum;
  p_var ← tf.multiply p_avg p_sum ≫= tf.subtract p2_sum;
  num ← tf.multiply cross cross ≫= λ x, tf.add x (tf.constant EPS);
  denom ← tf.multiply t_var p_var ≫= λ x, tf.add x (tf.constant EPS);
  denom ← tf.debugging_check_numerics denom;
  Ok num.

(** The attributes of the class [LocalNormalizedCrossCorrelationDEBUG2]. *)
Definition LocalNormalizedCrossCorrelationDEBUG2_class : obj F :=
  {[ "kernel_fn_dict" := VKernelFnDict kernel_fn_dict;
     "__init__" := VMethod "LocalNormalizedCrossCorrelationDEBUG2.__init__";
     "call" := VMethod "LocalNormalizedCrossCorrelationDEBUG2.call";
     "get_config" := VMethod "LocalNormalizedCrossCorrelationDEBUG2.get_config" ]}
  ∪ Layer_class.

Definition LocalNormalizedCrossCorrelationDEBUG2___init__
    (kernel_size : Z) (kernel_type : string) (name : string)
  : result (obj F) :=
  let class := LocalNormalizedCrossCorrelationDEBUG2_class in
  let self := Layer___init__ name in
  d ← getattr class self "kernel_fn_dict" ≫= as_kernel_fn_dict;
  if decide (kernel_type ∉ dict_keys d) then Raise ValueError
  else
    d ← getattr class self "kernel_fn_dict" ≫= as_kernel_fn_dict;
    fn ← or_raise KeyError (dict_get d kernel_type);
    let self := setattr self "kernel_fn" (VKernelFn fn) in
    let self := setattr self "kernel_type" (VStr kernel_type) in
    k1 ← getattr class self "kernel_size" ≫= as_int;
    k2 ← getattr class self "kernel_size" ≫= as_int;
    k3 ← getattr class self "kernel_size" ≫= as_int;
    filters ← tf.ones [k1; k2; k3; 1; 1]%Z;
    let self := setattr self "filters" (VTensor filters) in
    let self := setattr self "strides" (VInts [1; 1; 1; 1; 1]%Z) in
    let self := setattr self "padding" (VStr "SAME") in
    let self := setattr self "kernel_vol" (VInt (kernel_size ^ 3)) in
    Ok self.

(** [LocalNormalizedCrossCorrelationDEBUG2.call]: the denominator, after
    the numerator has been checked. *)
Definition LocalNormalizedCrossCorrelationDEBUG2_call (self : obj F)
    (y_true y_pred : tf.Tensor F) : result (tf.Tensor F) :=
  let class := LocalNormalizedCrossCorrelationDEBUG2_class in
  let conv3d (x : tf.Tensor F) : result (tf.Tensor F) :=
    filters ← getattr class self "filters" ≫= as_tensor;
    strides ← getattr class self "strides" ≫= as_ints;
    padding ← getattr class self "padding" ≫= as_str;
    nn_conv3d x filters strides padding in
  let kernel_vol : result (tf.Tensor F) :=
    n ← getattr class self "kernel_vol" ≫= as_int;
    Ok (tf.constant (tf.of_Z n)) in
  '(y_true, y_pred) ← adjust y_true y_pred;
  _ ← assert (length (tf.shape y_true) = length (tf.shape y_pred) ∧
              length (tf.shape y_pred) = 5);
  t2 ← tf.multiply y_true y_true;
  p2 ← tf.multiply y_pred y_pred;
  tp ← tf.multiply y_true y_pred;
  t_sum ← conv3d y_true;
  p_sum ← conv3d y_pred;
  t2_sum ← conv3d t2;
  p2_sum ← conv3d p2;
  tp_sum ← conv3d tp;
  t_avg ← kernel_vol ≫= tf.divide t_sum;
  p_avg ← kernel_vol ≫= tf.divide p_sum;
  cross ← tf.multiply p_avg t_sum ≫= tf.subtract tp_sum;
  t_var ← tf.multiply t_avg t_sum ≫= tf.subtract t2_sum;
  p_var ← tf.multiply p_avg p_sum ≫= tf.subtract p2_sum;
  num ← tf.multiply cross cross ≫= λ x, tf.add x (tf.constant EPS);
  denom ← tf.multiply t_var p_var ≫= λ x, tf.add x (tf.constant EPS);
  num ← tf.debugging_check_numerics num;
  Ok denom.
End lncc_debug.

Section gmi.
Context `{Transcendental F}.

(** [GlobalMutualInformation.call] *)
Definition GlobalMutualInformation_call (self : GlobalMutualInformation F)
    (y_true y_pred : tf.Tensor F) : result (tf.Tensor F) :=
  '(y_true, y_pred) ← adjust y_true y_pred;
  _ ← assert (length (tf.shape y_true) = length (tf.shape y_pred) ∧
              length (tf.shape y_pred) = 5);
  let y_true := tf.clip_by_value y_true (of_Q 0) (of_Q 1) in
  let y_pred := tf.clip_by_value y_pred (of_Q 0) (of_Q 1) in
  bin_centers ← tf.linspace (of_Q 0) (of_Q 1) (num_bins self);
  bin_centers ← tf.reshape bin_centers (1 :: 1 :: tf.shape bin_centers);
  upper ← tf.slice_last bin_centers 1 None;
  lower ← tf.slice_last bin_centers 0 (Some (-1)%Z);
  widths ← tf.subtract upper lower;
  sigma ← tf.reduce_mean widths None false
            ≫= λ m, tf.multiply m (tf.constant (sigma_ratio self));
  preterm ← tf.multiply (tf.constant (of_Q 2)) (tf.math_square sigma)
              ≫= tf.divide (tf.constant (of_Q 1));
  match tf.shape y_true with
  | [batch; w; h; z; c] =>
      y_true ← tf.reshape y_true [batch; w * h * z * c; 1];
      y_pred ← tf.reshape y_pred [batch; w * h * z * c; 1];
      let nb_voxels := tf.of_nat (w * h * z * c) in
      ia ← tf.subtract y_true bin_centers
             ≫= λ d, tf.multiply (tf.negative preterm) (tf.math_square d);
      let ia := tf.math_exp ia in
      ia ← tf.reduce_sum ia (Some [-1]%Z) true ≫= tf.divide ia;
      ia ← tf.transpose ia [0; 2; 1];
      pa ← tf.reduce_mean ia (Some [-1]%Z) true;
      ib ← tf.subtract y_pred bin_centers
             ≫= λ d, tf.multiply (tf.negative preterm) (tf.math_square d);
      let ib := tf.math_exp ib in
      ib ← tf.reduce_sum ib (Some [-1]%Z) true ≫= tf.divide ib;
      pb ← tf.reduce_mean ib (Some [1]%Z) true;
      papb ← tf.matmul pa pb;
      pab ← tf.matmul ia ib;
      pab ← tf.divide pab (tf.constant nb_voxels);
      num ← tf.add pab (tf.constant EPS);
      denom ← tf.add papb (tf.constant EPS);
      div ← tf.divide num denom;
      arg ← tf.add div (tf.constant EPS);
      product ← tf.multiply pab (tf.math_log arg);
      tf.reduce_sum product (Some [1; 2]%Z) false
  | _ => Raise ValueError
  end.

Definition GlobalMutualInformationLoss_call (self : GlobalMutualInformation F)
  : tf.Tensor F → tf.Tensor F → result (tf.Tensor F) :=
  NegativeLossMixin_call (GlobalMutualInformation_call self).
End gmi.
End image.

End Image.

(** * Specifications *)

(** ** The data loader *)

Module LoaderH5Spec.
Import LoaderH5.

(** The part of a label key that names its case. *)
Abbreviation strip := (split_head "_bin").

(** What the key check of [get_image_label_key_dict] demands of a pair of
    files: a label key whose stripped form is not skipped names a case of the
    image file, and every case of the image file is named by such a label
    key. *)
Definition pair_matches (img lbl : H5File) : Prop :=
  (∀ l, l ∈ h5_keys lbl → (strip l ∉ SKIPPED_KEYS) →
        strip l ∈ h5_keys img) ∧
  (∀ k, k ∈ h5_keys img →
        ∃ l, l ∈ h5_keys lbl ∧ (strip l ∉ SKIPPED_KEYS) ∧ strip l = k).

(** The same with the skipping decided on the label key itself. *)
Definition pair_matches_unstripped (img lbl : H5File) : Prop :=
  (∀ l, l ∈ h5_keys lbl → (l ∉ SKIPPED_KEYS) →
        strip l ∈ h5_keys img) ∧
  (∀ k, k ∈ h5_keys img ↔
        ∃ l, l ∈ h5_keys lbl ∧ (l ∉ SKIPPED_KEYS) ∧ strip l = k).

(** Every case of a key dictionary has labels, all of them satisfy [P] and
    all of them carry the name of the case. *)
Definition labels_ok (P : string → Prop) (d : dict (list string)) : Prop :=
  ∀ k v, dict_get d k = Some v →
         v ≠ [] ∧ Forall P v ∧ Forall (λ l, strip l = k) v.

Definition label_allowed (image_keys : list string) (l : string) : Prop :=
  (strip l ∉ SKIPPED_KEYS) → strip l ∈ image_keys.

(** One shape of three dimensions for every image and label of the four
    files. *)
Definition common_shape (hmi hfi hml hfl : H5File) : Prop :=
  ∃ sh, length sh = 3 ∧
        ∀ k d, k ∉ SKIPPED_KEYS →
               hmi !! k = Some d ∨ hfi !! k = Some d ∨
               hml !! k = Some d ∨ hfl !! k = Some d →
               ds_shape d = sh.

(** The checks of [__init__] that come before the index range is looked
    at: the two key dictionaries, their comparison and the four shapes. *)
Definition sanity_checks (fs : FileSystem) (mi fi ml fl : string)
  : result (dict (list string) * list nat * list nat) :=
  moving_key_dict ← get_image_label_key_dict fs mi ml;
  fixed_key_dict ← get_image_label_key_dict fs fi fl;
  _ ← same_dict_loop (dict_keys moving_key_dict)
        moving_key_dict fixed_key_dict;
  moving_image_shape ← get_image_shape fs mi;
  fixed_image_shape ← get_image_shape fs fi;
  moving_label_shape ← get_image_shape fs ml;
  fixed_label_shape ← get_image_shape fs fl;
  _ ← assert (moving_image_shape = moving_label_shape);
  _ ← assert (fixed_image_shape = fixed_label_shape);
  Ok (moving_key_dict, moving_image_shape, fixed_image_shape).

(** What the generator needs of a key: labels, and datasets under the key
    and under each of its labels. *)
Definition key_ready (self : H5DataLoader) (hmi hfi hml hfl : H5File)
    (k : string) : Prop :=
  ∃ v, dict_get (key_dict self) k = Some v ∧ v ≠ [] ∧
       is_Some (hmi !! k) ∧ is_Some (hfi !! k) ∧
       ∀ l, l ∈ v → is_Some (hml !! l) ∧ is_Some (hfl !! l).

Section loader_spec.
Variable random_shuffle : Z → list string → list string.
Variable rng : Type.
Variable randrange : nat → rng → nat * rng.
Variable F32 : Type.
Variable float32 : nat → F32.

Definition take_keys (d : dict (list string))
    (seed : Z) (shuffle : bool) (index_start index_end : Z) : list string :=
  let keys := sorted (dict_keys d) in
  py_slice (if shuffle then random_shuffle seed keys else keys)
    index_start index_end.

(** What [get_generator] yields, from position [image_index] on, for the
    keys [image_keys]: one item per key and in their order; for each, the
    label index is what [randrange] draws in the range of the sorted label
    keys of the case, the two images are read under the case key, the two
    labels under the label key drawn, and the indices are the position and
    the label index. *)
Inductive yields (self : H5DataLoader) (hmi hfi hml hfl : H5File)
  : nat → list string → rng → list (Item F32) → rng → Prop :=
  | yields_nil image_index g :
      yields self hmi hfi hml hfl image_index [] g [] g
  | yields_cons image_index image_key image_keys g label_keys
      label_index g1 label_key d_mi d_fi d_ml d_fl items g' :
      dict_get (key_dict self) image_key = Some label_keys →
      randrange (length (sorted label_keys)) g = (label_index, g1) →
      label_index < length (sorted label_keys) →
      sorted label_keys !! label_index = Some label_key →
      hmi !! image_key = Some d_mi →
      hfi !! image_key = Some d_fi →
      hml !! label_key = Some d_ml →
      hfl !! label_key = Some d_fl →
      yields self hmi hfi hml hfl (S image_index) image_keys g1 items g' →
      yields self hmi hfi hml hfl image_index (image_key :: image_keys) g
        (mkItem d_mi d_fi d_ml d_fl
           [float32 image_index; float32 label_index] :: items) g'.

End loader_spec.

(** A file has a dataset that is not a bookkeeping entry. *)
Definition has_volume (hf : H5File) : Prop :=
  ∃ k, k ∈ h5_keys hf ∧ k ∉ SKIPPED_KEYS.

(** [sh] has three dimensions and is the shape of every dataset of the file
    that is not a bookkeeping entry. *)
Definition uniform_shape (hf : H5File) (sh : list nat) : Prop :=
  length sh = 3 ∧
  ∀ k d, hf !! k = Some d → k ∉ SKIPPED_KEYS → ds_shape d = sh.

(** The label keys of a label file that name the case [k], in ascending
    order. *)
Definition labels_of (lbl : H5File) (k : string) : list string :=
  filter (λ l, strip l = k) (sorted (h5_keys lbl)).

End LoaderH5Spec.

(** ** Tensors *)

Module TensorSpec.
Import tf.

(** An index within a shape. *)
Definition in_range (idx sh : list nat) : Prop := Forall2 lt idx sh.

Section tensor_spec.
Context {F : Type} `{FloatOps F}.
Implicit Types (t : Tensor F) (G : nat → F).

(** A tensor holds as many elements as its shape has. *)
Definition wf t : Prop := length (data t) = numel (shape t).

(** The elements of batch item [i]: those at the indices [i :: idx], all
    axes but the first in row-major order. *)
Definition item t (i : nat) : list F :=
  map (λ idx, get t (i :: idx)) (indices (tail (shape t))).

(** The tensor of shape [(b,)] with [G i] at [i], and the one of shape
    [(b, 1, ..., 1)]. *)
Definition vec (b : nat) G : Tensor F := mkTensor [b] (G <$> seq 0 b).

Definition col (b n : nat) G : Tensor F :=
  mkTensor (b :: replicate n 1) (G <$> seq 0 b).

Definition mean (l : list F) : F := fdiv (fsum l) (of_nat (length l)).

Definition variance (l : list F) : F :=
  mean (map (λ x, fmul (fsub x (mean l)) (fsub x (mean l))) l).

Definition covariance (p t : list F) : F :=
  mean (zip_with (λ x y, fmul (fsub x (mean p)) (fsub y (mean t))) p t).

End tensor_spec.

End TensorSpec.

(** ** The losses *)

Module ImageSpec.
Import tf TensorSpec.

Section image_spec.
Context {F : Type} `{FloatOps F}.

Definition squared_difference (x y : F) : F := fmul (fsub x y) (fsub x y).

(** The sum of the squared differences of two lists of elements, and their
    mean. *)
Definition ssd_sum (t p : list F) : F :=
  fsum (zip_with squared_difference t p).

Definition ssd_mean (t p : list F) : F :=
  mean (zip_with squared_difference t p).

(** The squared normalized cross-correlation of two lists of elements,
    with the stabilization constant written out. *)
Definition gncc (t p : list F) : F :=
  fdiv (fadd (fmul (fabs (covariance p t)) (fabs (covariance p t)))
             (of_Q (1 # 100000)))
       (fadd (fmul (variance p) (variance t)) (of_Q (1 # 100000))).

(** [tf.clip_by_value(t, 0, 1)] *)
Definition clip (t : Tensor F) : Tensor F :=
  clip_by_value t (of_Q 0) (of_Q 1).

(** What the rank adjustment and the rank assertion at the start of the
    [call] of the mutual information and of the local cross-correlations
    make of two inputs: the exception they raise, if any. *)
Definition rank_error (y_true y_pred : Tensor F) : option exn :=
  let rt := length (shape y_true) in
  let rp := length (shape y_pred) in
  if decide (rt = 4) then
    if decide (rp < 4) then Some InvalidArgumentError
    else if decide (rp = 4) then None else Some AssertionError
  else if decide (rt = 5 ∧ rp = 5) then None else Some AssertionError.

(** A tensor with a channel axis of size one added as its last axis. *)
Definition with_channel (t : Tensor F) : Tensor F :=
  mkTensor (shape t ++ [1]) (data t).

End image_spec.

End ImageSpec.

(** * Concrete inputs *)

Module Examples.
Import LoaderH5 tf Image.

Definition shuffle_reverse (seed : Z) (l : list string) : list string :=
  reverse l.

Definition draw_mod (n : nat) (g : nat) : nat * nat := (g mod n, S g).

Definition float32_Q (i : nat) : Q := inject_Z (Z.of_nat i).

Definition volume (sh : list nat) (v : list Z) : Dataset := mkDataset sh v.

Definition moving_images : H5File :=
  {[ "case000000" := volume [1; 1; 2] [10; 11]%Z;
     "case000001" := volume [1; 1; 2] [12; 13]%Z ]}.

Definition moving_labels : H5File :=
  {[ "case000000_bin000" := volume [1; 1; 2] [0; 1]%Z;
     "case000000_bin001" := volume [1; 1; 2] [1; 0]%Z;
     "case000001_bin000" := volume [1; 1; 2] [1; 1]%Z;
     "num_important" := volume [] [1]%Z;
     "num_labels" := volume [2] [2; 1]%Z ]}.

Definition fixed_images : H5File :=
  {[ "case000000" := volume [1; 2; 2] [20; 21; 22; 23]%Z;
     "case000001" := volume [1; 2; 2] [24; 25; 26; 27]%Z ]}.

Definition fixed_labels : H5File :=
  {[ "case000000_bin000" := volume [1; 2; 2] [0; 1; 0; 1]%Z;
     "case000000_bin001" := volume [1; 2; 2] [1; 0; 1; 0]%Z;
     "case000001_bin000" := volume [1; 2; 2] [1; 1; 0; 0]%Z;
     "num_important" := volume [] [1]%Z;
     "num_labels" := volume [2] [2; 1]%Z ]}.

(** Moving and fixed volumes of different shapes. *)
Definition fs_paired : FileSystem :=
  {[ "moving_images.h5" := moving_images;
     "moving_labels.h5" := moving_labels;
     "fixed_images.h5" := fixed_images;
     "fixed_labels.h5" := fixed_labels ]}.

(** A label file with a label whose case name is a bookkeeping key. *)
Definition images_one : H5File :=
  {[ "case000000" := volume [1; 1; 2] [10; 11]%Z ]}.

Definition labels_bookkeeping_bin : H5File :=
  {[ "case000000_bin000" := volume [1; 1; 2] [0; 1]%Z;
     "num_labels_bin000" := volume [1; 1; 2] [1; 1]%Z ]}.

Definition fs_bookkeeping_bin : FileSystem :=
  {[ "images.h5" := images_one;
     "labels.h5" := labels_bookkeeping_bin ]}.

#[export] Instance Q_FloatOps : FloatOps Q := {|
  fadd := Qplus;
  fsub := Qminus;
  fmul := Qmult;
  fdiv := Qdiv;
  fneg := Qopp;
  fabs := Qabs;
  fleb := Qle_bool;
  of_Q := λ q, q;
  is_finite := λ _, true
|}.

(** Truncated series stand for [exp] and [log]. *)
#[export] Instance Q_Transcendental : Transcendental Q := {|
  fexp := λ x, (1 + x + x * x / 2 + x * x * x / 6)%Q;
  flog := λ x, ((x - 1) - (x - 1) * (x - 1) / 2)%Q
|}.

(** [tf.keras.losses.Loss] as Keras documents it. *)
Definition keras_Loss_class : obj Q :=
  {[ "__init__" := VMethod "Loss.__init__";
     "__call__" := VMethod "Loss.__call__";
     "call" := VMethod "Loss.call";
     "from_config" := VMethod "Loss.from_config";
     "get_config" := VMethod "Loss.get_config" ]}.

Definition keras_Loss___init__ (reduction name : string) : obj Q :=
  {[ "reduction" := VStr reduction; "name" := VStr name ]}.

(** One batch item with two elements. *)
Definition row_true : Tensor Q := mkTensor [1; 2] [3; 1]%Q.

Definition row_pred : Tensor Q := mkTensor [1; 2] [1; 1]%Q.

(** Two batch items, volumes of shape (1, 2). *)
Definition pair_true : Tensor Q := mkTensor [2; 1; 2] [1; 2; 3; 5]%Q.

Definition pair_pred : Tensor Q := mkTensor [2; 1; 2] [0; 1; 1; 4]%Q.

(** One volume of shape (1, 1, 2) with intensities outside of [0, 1]. *)
Definition volume_true : Tensor Q := mkTensor [1; 1; 1; 2] [-1; 1 # 2]%Q.

Definition volume_pred : Tensor Q := mkTensor [1; 1; 1; 2] [2; 1 # 4]%Q.

(** [tf.keras.layers.Layer] as Keras documents it. *)
Definition keras_Layer_class : obj Q :=
  {[ "__init__" := VMethod "Layer.__init__";
     "__call__" := VMethod "Layer.__call__";
     "build" := VMethod "Layer.build";
     "call" := VMethod "Layer.call";
     "get_config" := VMethod "Layer.get_config" ]}.

Definition keras_Layer___init__ (name : string) : obj Q :=
  {[ "name" := VStr name ]}.

(** A convolution whose window is one voxel with weight one: the input. *)
Definition conv3d_one_voxel (input filters : Tensor Q) (strides : list Z)
    (padding : string) : result (Tensor Q) :=
  Ok input.

(** An instance with the attributes [call] reads, and its kernel type. *)
Definition lncc_instance (kernel_type : string) : obj Q :=
  {[ "kernel_type" := VStr kernel_type;
     "filters" := VTensor (mkTensor [1; 1; 1; 1; 1] [1%Q]);
     "strides" := VInts [1; 1; 1; 1; 1]%Z;
     "padding" := VStr "SAME";
     "kernel_vol" := VInt 1 ]}.

(** A volume of rank three, and [volume_pred] with its two last axes
    exchanged. *)
Definition slab_pred : Tensor Q := mkTensor [1; 1; 2] [2; 1 # 4]%Q.

Definition volume_pred_swapped : Tensor Q :=
  mkTensor [1; 1; 2; 1] [2; 1 # 4]%Q.

End Examples.

(** * Properties *)

(** ** Strings and sorting *)

#[global] Instance str_le_total : Total str_le.
Proof.
  intros a b. unfold str_le.
  destruct (String_as_OT.compare_spec a b) as [?|?|Hlt]; [left; done..|].
  right. intros Hgt.
  destruct (String_as_OT.compare_spec b a) as [?|?|Hlt']; try done.
  eapply (irreflexivity String_as_OT.lt a). by etrans.
Qed.

#[global] Instance str_le_trans : Transitive str_le.
Proof.
  intros a b c. unfold str_le. intros Hab Hbc Hac.
  destruct (String_as_OT.compare_spec a c) as [?|?|Hca]; try done.
  destruct (String_as_OT.compare_spec a b) as [->|Hlt|?]; [| |done].
  - destruct (String_as_OT.compare_spec b c) as [->|Hlt|?]; [| |done].
    + by eapply (irreflexivity String_as_OT.lt c).
    + eapply (irreflexivity String_as_OT.lt b). by etrans.
  - destruct (String_as_OT.compare_spec b c) as [->|Hlt'|?]; [| |done].
    + eapply (irreflexivity String_as_OT.lt a). by etrans.
    + eapply (irreflexivity String_as_OT.lt a). etrans; [done|]. by etrans.
Qed.

#[global] Instance str_le_antisym : AntiSymm (=) str_le.
Proof.
  intros a b. unfold str_le. intros Hab Hba.
  destruct (String_as_OT.compare_spec a b) as [?|Hlt|?]; [done| |done].
  destruct (String_as_OT.compare_spec b a) as [?|Hlt'|?]; [done| |done].
  exfalso. eapply (irreflexivity String_as_OT.lt a). by etrans.
Qed.

Lemma sorted_Permutation l : sorted l ≡ₚ l.
Proof. apply merge_sort_Permutation. Qed.

Lemma sorted_StronglySorted l : StronglySorted str_le (sorted l).
Proof. apply StronglySorted_merge_sort; apply _. Qed.

Lemma elem_of_sorted x l : x ∈ sorted l ↔ x ∈ l.
Proof. by rewrite sorted_Permutation. Qed.

Lemma elem_of_sorted_1 x l : x ∈ sorted l → x ∈ l.
Proof. apply elem_of_sorted. Qed.

Lemma elem_of_sorted_2 x l : x ∈ l → x ∈ sorted l.
Proof. apply elem_of_sorted. Qed.

Lemma length_sorted l : length (sorted l) = length l.
Proof. by rewrite sorted_Permutation. Qed.

Lemma NoDup_sorted l : NoDup (sorted l) ↔ NoDup l.
Proof. by rewrite sorted_Permutation. Qed.

Lemma sorted_perm_eq l1 l2 : l1 ≡ₚ l2 → sorted l1 = sorted l2.
Proof.
  intros Hp. apply (StronglySorted_unique str_le);
    [apply sorted_StronglySorted..|].
  by rewrite !sorted_Permutation.
Qed.

Lemma sorted_idemp l : sorted (sorted l) = sorted l.
Proof. apply sorted_perm_eq, sorted_Permutation. Qed.

(** Two duplicate-free lists have the same sorted form exactly when they
    have the same elements. *)
Lemma sorted_eq_iff l1 l2 :
  NoDup l1 → NoDup l2 → sorted l1 = sorted l2 ↔ (∀ x, x ∈ l1 ↔ x ∈ l2).
Proof.
  intros H1 H2. split.
  - intros Heq x. by rewrite <-(elem_of_sorted x l1), Heq, elem_of_sorted.
  - intros Hel. by apply sorted_perm_eq, NoDup_Permutation.
Qed.

(** ** Dictionaries *)

Section dict_facts.
Context {V : Type}.
Implicit Types (d : dict V) (k : string) (v : V).

Lemma dict_get_Some_keys d k v : dict_get d k = Some v → k ∈ dict_keys d.
Proof.
  induction d as [|[k' v'] d IH]; simpl; [done|].
  case_decide; subst; [intros _; left|intros ?; right; auto].
Qed.

Lemma dict_get_keys d k : k ∈ dict_keys d ↔ is_Some (dict_get d k).
Proof.
  split; [|intros [v ?]; by eapply dict_get_Some_keys].
  induction d as [|[k' v'] d IH]; simpl; [by intros ?%elem_of_nil|].
  intros [->|?]%elem_of_cons; case_decide; eauto; done.
Qed.

Lemma dict_get_set_eq d k v : dict_get (dict_set d k v) k = Some v.
Proof.
  induction d as [|[k' v'] d IH]; simpl.
  - by rewrite decide_True.
  - destruct (decide (k' = k)); simpl.
    + by rewrite decide_True.
    + by rewrite decide_False.
Qed.

Lemma dict_get_set_ne d k k' v :
  k ≠ k' → dict_get (dict_set d k v) k' = dict_get d k'.
Proof.
  intros Hne. induction d as [|[k0 v0] d IH]; simpl.
  - by rewrite decide_False.
  - destruct (decide (k0 = k)) as [->|]; simpl.
    + by rewrite !decide_False.
    + by rewrite IH.
Qed.

Lemma elem_of_dict_keys_set d k k' v :
  k' ∈ dict_keys (dict_set d k v) ↔ k' = k ∨ k' ∈ dict_keys d.
Proof.
  rewrite !dict_get_keys. destruct (decide (k = k')) as [->|Hne].
  - rewrite dict_get_set_eq. split; [by left|eauto].
  - rewrite dict_get_set_ne by done. split; [by right|by intros [->|?]].
Qed.

Lemma NoDup_dict_keys_set d k v :
  NoDup (dict_keys d) → NoDup (dict_keys (dict_set d k v)).
Proof.
  induction d as [|[k' v'] d IH]; simpl.
  - intros _. apply NoDup_singleton.
  - intros [Hni Hnd]%NoDup_cons. case_decide; subst; simpl.
    + by apply NoDup_cons.
    + apply NoDup_cons. split; [|auto].
      rewrite elem_of_dict_keys_set. by intros [->|?].
Qed.
End dict_facts.

(** ** Results *)

Lemma result_bind_Ok {A B} (a : A) (f : A → result B) : Ok a ≫= f = f a.
Proof. done. Qed.

Lemma bind_Ok {A B} (m : result A) (f : A → result B) b :
  m ≫= f = Ok b ↔ ∃ a, m = Ok a ∧ f a = Ok b.
Proof.
  destruct m as [a|e]; simpl.
  - split; [eauto|]. by intros (? & [= <-] & ?).
  - split; [done|]. by intros (? & ? & ?).
Qed.

Lemma assert_Ok (P : Prop) `{Decision P} u : assert P = Ok u ↔ P.
Proof. unfold assert. destruct (decide P), u; naive_solver. Qed.

Lemma or_raise_Ok {A} e (o : option A) a : or_raise e o = Ok a ↔ o = Some a.
Proof. destruct o; simpl; naive_solver. Qed.

(** ** The data loader *)

Module LoaderH5Facts.
Import LoaderH5 LoaderH5Spec Examples.

Lemma elem_of_h5_keys (hf : H5File) k : k ∈ h5_keys hf ↔ is_Some (hf !! k).
Proof.
  unfold h5_keys. rewrite list_elem_of_fmap. split.
  - intros [[k' d] [-> H%elem_of_map_to_list]]. eauto.
  - intros [d H]. exists (k, d). split; [done|]. by apply elem_of_map_to_list.
Qed.

Lemma NoDup_h5_keys (hf : H5File) : NoDup (h5_keys hf).
Proof. apply NoDup_fst_map_to_list. Qed.

Lemma key_dict_loop_ok image_keys label_keys : ∀ d,
  Forall (label_allowed image_keys) label_keys →
  NoDup (dict_keys d) →
  ∃ d', key_dict_loop image_keys label_keys d = Ok d' ∧
        NoDup (dict_keys d') ∧
        (∀ k, k ∈ dict_keys d' ↔
              k ∈ dict_keys d ∨
              ∃ l, l ∈ label_keys ∧ (strip l ∉ SKIPPED_KEYS) ∧ strip l = k) ∧
        (∀ P, labels_ok P d → Forall P label_keys → labels_ok P d').
Proof.
  induction label_keys as [|l ls IH]; intros d Hall Hnd; simpl.
  - exists d. split_and!; [done|done| |done].
    intros k. split; [by left|]. intros [?|(l & Hl & _)]; [done|].
    by apply elem_of_nil in Hl.
  - apply Forall_cons in Hall as [Hl Hall].
    destruct (decide (strip l ∉ SKIPPED_KEYS)) as [Hskip|Hskip].
    + unfold assert.
      destruct (decide (strip l ∈ image_keys)) as [_|[]]; [|by apply Hl]. simpl.
      set (d1 := if decide (strip l ∉ dict_keys d)
                 then dict_set d (strip l) [] else d).
      assert (NoDup (dict_keys d1)) as Hnd1.
      { unfold d1. destruct (decide _); [by apply NoDup_dict_keys_set|done]. }
      assert (∃ labels, dict_get d1 (strip l) = Some labels ∧
                (∀ P, labels_ok P d → Forall P labels)) as (labels & Hget & Hlab).
      { unfold d1. destruct (decide _) as [Hni|Hin].
        - exists []. rewrite dict_get_set_eq. split; [done|]. by constructor.
        - apply dec_stable, dict_get_keys in Hin as [v Hv].
          exists v. split; [done|]. intros P HP. by apply (HP _ _ Hv). }
      rewrite Hget. simpl.
      destruct (IH (dict_set d1 (strip l) (labels ++ [l])) Hall)
        as (d' & Hrun & Hnd' & Hkeys & Hlabs); [by apply NoDup_dict_keys_set|].
      exists d'. split_and!; [done..| |].
      * intros k. rewrite Hkeys, elem_of_dict_keys_set.
        assert (k ∈ dict_keys d1 ↔ k = strip l ∨ k ∈ dict_keys d) as ->.
        { unfold d1. destruct (decide _) as [|Hin].
          - apply elem_of_dict_keys_set.
          - apply dec_stable in Hin. split; [by right|by intros [->|?]]. }
        split.
        -- intros [[->|[->|?]]|(l' & ? & ? & ?)]; eauto.
           ++ right. exists l. split_and!; [by left|done..].
           ++ right. exists l. split_and!; [by left|done..].
           ++ right. exists l'. split_and!; [by right|done..].
        -- intros [?|(l' & [->|?]%elem_of_cons & ? & <-)]; eauto 10.
      * intros P HP [HPl HPls]%Forall_cons. apply Hlabs; [|done].
        intros k v. destruct (decide (strip l = k)) as [<-|Hne].
        -- rewrite dict_get_set_eq. intros [= <-]. split_and!.
           ++ by destruct labels.
           ++ apply Forall_app. split; [by apply Hlab|by constructor].
           ++ apply Forall_app. split; [|by constructor].
              revert Hget. unfold d1. destruct (decide _).
              ** rewrite dict_get_set_eq. intros [= <-]. constructor.
              ** intros Hv. by apply (HP _ _ Hv).
        -- rewrite dict_get_set_ne by done. unfold d1.
           destruct (decide _); [|by apply HP].
           rewrite dict_get_set_ne by done. by apply HP.
    + destruct (IH d Hall Hnd) as (d' & Hrun & Hnd' & Hkeys & Hlabs).
      exists d'. split_and!; [done..| |].
      * intros k. rewrite Hkeys. split.
        -- intros [?|(l' & ? & ? & ?)]; [by left|].
           right. exists l'. split_and!; [by right|done..].
        -- intros [?|(l' & [->|?]%elem_of_cons & ? & ?)]; [by left|done|].
           right. by exists l'.
      * intros P HP [_ ?]%Forall_cons. by apply Hlabs.
Qed.

Lemma key_dict_loop_fail image_keys label_keys : ∀ d,
  ¬ Forall (label_allowed image_keys) label_keys →
  key_dict_loop image_keys label_keys d = Raise AssertionError.
Proof.
  induction label_keys as [|l ls IH]; intros d Hall; simpl.
  - destruct Hall. constructor.
  - destruct (decide (strip l ∉ SKIPPED_KEYS)) as [Hskip|Hskip].
    + unfold assert. destruct (decide (strip l ∈ image_keys)) as [Hin|Hin];
        [|done]. simpl.
      set (d1 := if decide (strip l ∉ dict_keys d)
                 then dict_set d (strip l) [] else d).
      assert (is_Some (dict_get d1 (strip l))) as [labels ->].
      { unfold d1. destruct (decide _) as [|Hin'].
        - rewrite dict_get_set_eq. eauto.
        - by apply dec_stable, dict_get_keys in Hin'. }
      simpl. apply IH. intros Hls. apply Hall. constructor; [|done].
      by intros _.
    + apply IH. intros Hls. apply Hall. constructor; [|done].
      by intros ?.
Qed.

(** The key dictionary of a pair of files: it is built exactly when the pair
    matches, and the only failure is an assertion error. *)
Lemma get_image_label_key_dict_spec fs image_filename label_filename img lbl :
  fs !! image_filename = Some img →
  fs !! label_filename = Some lbl →
  (pair_matches img lbl ∧
   ∃ d, get_image_label_key_dict fs image_filename label_filename = Ok d ∧
        NoDup (dict_keys d) ∧
        (∀ k, k ∈ dict_keys d ↔ k ∈ h5_keys img) ∧
        labels_ok (λ l, l ∈ h5_keys lbl) d) ∨
  (¬ pair_matches img lbl ∧
   get_image_label_key_dict fs image_filename label_filename
   = Raise AssertionError).
Proof.
  intros Himg Hlbl.
  unfold get_image_label_key_dict, get_sorted_keys, h5py_File.
  rewrite Himg, Hlbl. simpl.
  destruct (decide (Forall (label_allowed (sorted (h5_keys img)))
                      (sorted (h5_keys lbl)))) as [Hall|Hall].
  - destruct (key_dict_loop_ok _ _ [] Hall) as (d & -> & Hnd & Hkeys & Hlabs);
      [constructor|]. simpl.
    assert (∀ k, k ∈ dict_keys d ↔
              ∃ l, l ∈ h5_keys lbl ∧ (strip l ∉ SKIPPED_KEYS) ∧ strip l = k)
      as Hkeys'.
    { intros k. rewrite Hkeys. split.
      - intros [[]%elem_of_nil|(l & Hl & ?)]. exists l.
        split; [by apply elem_of_sorted_1|done].
      - intros (l & Hl & ?). right. exists l.
        split; [by apply elem_of_sorted_2|done]. }
    assert (∀ l, l ∈ h5_keys lbl → (strip l ∉ SKIPPED_KEYS) →
                 strip l ∈ h5_keys img) as Hsub.
    { intros l Hl Hs. rewrite Forall_forall in Hall.
      apply elem_of_sorted_1, (Hall l); [|done]. by apply elem_of_sorted_2. }
    unfold assert.
    destruct (decide (sorted (dict_keys d) = sorted (h5_keys img)))
      as [Heq|Hne]; simpl.
    + pose proof (proj1 (sorted_eq_iff _ _ Hnd (NoDup_h5_keys img)) Heq) as Hel.
      left. split.
      * split; [done|]. intros k Hk. by apply Hkeys', Hel.
      * exists d. split_and!; [done..|].
        apply Hlabs; [by intros ???|].
        apply Forall_forall. by intros l ?%elem_of_sorted_1.
    + right. split; [|done]. intros [_ Hsup]. apply Hne.
      apply sorted_eq_iff; [done|apply NoDup_h5_keys|].
      intros k. rewrite Hkeys'. split; [|by apply Hsup].
      intros (l & ? & ? & <-). by apply Hsub.
  - rewrite key_dict_loop_fail by done. simpl.
    right. split; [|done]. intros [Hsub _]. apply Hall.
    apply Forall_forall. intros l ?%elem_of_sorted_1 Hs.
    apply elem_of_sorted_2. by apply Hsub.
Qed.

Lemma shape_loop_Ok (hf : H5File) sh ks :
  shape_loop hf sh ks = Ok tt →
  ∀ k d, k ∈ ks → hf !! k = Some d → ds_shape d = sh.
Proof.
  induction ks as [|k0 ks IH]; simpl; [by intros _ ?? ?%elem_of_nil|].
  intros (shk & Hshk & (_ & ->%assert_Ok & Hrest)%bind_Ok)%bind_Ok k d.
  intros [->|Hin]%elem_of_cons Hd; [|by eapply IH].
  unfold h5_shape in Hshk. rewrite Hd in Hshk. simpl in Hshk. congruence.
Qed.

(** The shape [get_image_shape] returns has three dimensions and is the shape
    of every dataset of the file whose key is not skipped. *)
Lemma get_image_shape_Ok fs filename (hf : H5File) sh :
  fs !! filename = Some hf →
  get_image_shape fs filename = Ok sh →
  length sh = 3 ∧
  ∀ k d, hf !! k = Some d → k ∉ SKIPPED_KEYS → ds_shape d = sh.
Proof.
  intros Hhf. unfold get_image_shape, h5py_File. rewrite Hhf. simpl.
  intros (k0 & _ & (sh0 & _ & (_ & Hlen%assert_Ok &
            ([] & Hloop & Hsh)%bind_Ok)%bind_Ok)%bind_Ok)%bind_Ok.
  injection Hsh as <-.
  split; [done|]. intros k d Hd Hk.
  eapply (shape_loop_Ok _ _ _ Hloop); [|done].
  apply elem_of_sorted_2, list_elem_of_filter. split; [done|].
  apply elem_of_h5_keys. eauto.
Qed.
Lemma get_image_label_key_dict_Ok fs image_filename label_filename d :
  get_image_label_key_dict fs image_filename label_filename = Ok d →
  ∃ img lbl : H5File,
    fs !! image_filename = Some img ∧ fs !! label_filename = Some lbl ∧
    pair_matches img lbl ∧ NoDup (dict_keys d) ∧
    (∀ k, k ∈ dict_keys d ↔ k ∈ h5_keys img) ∧
    labels_ok (λ l, l ∈ h5_keys lbl) d.
Proof.
  intros Hd.
  destruct (fs !! image_filename) as [img|] eqn:Himg; cycle 1.
  { unfold get_image_label_key_dict, get_sorted_keys, h5py_File in Hd.
    by rewrite Himg in Hd. }
  destruct (fs !! label_filename) as [lbl|] eqn:Hlbl; cycle 1.
  { unfold get_image_label_key_dict, get_sorted_keys, h5py_File in Hd.
    by rewrite Himg, Hlbl in Hd. }
  exists img, lbl.
  destruct (get_image_label_key_dict_spec _ _ _ _ _ Himg Hlbl)
    as [(? & d' & Hd' & ?)|[_ Hd']]; rewrite Hd' in Hd; [|done].
  injection Hd as ->. done.
Qed.

(** The cases of a key dictionary are the keys of the image file. *)
Lemma dict_keys_cases fs image_filename label_filename d (img : H5File) :
  get_image_label_key_dict fs image_filename label_filename = Ok d →
  fs !! image_filename = Some img →
  dict_keys d ≡ₚ h5_keys img.
Proof.
  intros (img' & lbl & Himg & _ & _ & Hnd & Hkeys & _)%get_image_label_key_dict_Ok.
  intros ?. simplify_eq.
  apply NoDup_Permutation; [done|apply NoDup_h5_keys|done].
Qed.

(** Between bounds that are not negative a slice is the half-open range of
    positions from [start] to [stop]. *)
Lemma py_slice_half_open {A} (l : list A) start stop :
  (0 ≤ start)%Z → (0 ≤ stop ≤ Z.of_nat (length l))%Z →
  py_slice l start stop
  = take (Z.to_nat (stop - start)) (drop (Z.to_nat start) l).
Proof.
  intros Hs He. unfold py_slice, slice_bound.
  rewrite !(proj2 (Z.ltb_ge _ _)) by lia.
  rewrite (Z.min_l stop) by lia.
  destruct (decide (start ≤ Z.of_nat (length l))%Z).
  - by rewrite Z.min_l by lia.
  - rewrite Z.min_r by lia.
    replace (Z.to_nat (stop - Z.of_nat (length l))) with 0 by lia.
    replace (Z.to_nat (stop - start)) with 0 by lia. done.
Qed.

Lemma elem_of_py_slice {A} (l : list A) start stop x :
  x ∈ py_slice l start stop → x ∈ l.
Proof. unfold py_slice. intros ?%subseteq_take. by eapply subseteq_drop. Qed.

Lemma same_dict_loop_Ok ks (md fd : dict (list string)) :
  same_dict_loop ks md fd = Ok tt →
  ∀ k, k ∈ ks → ∃ v, dict_get md k = Some v ∧ dict_get fd k = Some v.
Proof.
  induction ks as [|k0 ks IH]; simpl; [by intros _ ? ?%elem_of_nil|].
  intros (m & Hm%or_raise_Ok & (f & Hf%or_raise_Ok &
            (_ & ->%assert_Ok & Hrest)%bind_Ok)%bind_Ok)%bind_Ok k.
  intros [->|?]%elem_of_cons; [eauto|by apply IH].
Qed.

Section loader_facts.
Variable random_shuffle : Z → list string → list string.
Hypothesis random_shuffle_Permutation :
  ∀ seed l, random_shuffle seed l ≡ₚ l.

Variable rng : Type.
Variable randrange : nat → rng → nat * rng.
Hypothesis randrange_lt : ∀ n g, 0 < n → (randrange n g).1 < n.

Variable F32 : Type.
Variable float32 : nat → F32.

Lemma init_unfold fs mi fi ml fl seed shuffle index_start index_end :
  H5DataLoader___init__ random_shuffle fs mi fi ml fl
    seed shuffle index_start index_end =
  (c ← sanity_checks fs mi fi ml fl;
   _ ← assert ((index_start >= 0)%Z ∧
               (index_end <= Z.of_nat (length (sorted (dict_keys c.1.1))))%Z);
   Ok (mkH5DataLoader c.1.1
         (take_keys random_shuffle c.1.1 seed shuffle index_start index_end)
         mi fi ml fl c.1.2 c.2)).
Proof.
  unfold H5DataLoader___init__, sanity_checks.
  destruct (get_image_label_key_dict fs mi ml) as [md|]; simpl; [|done].
  destruct (get_image_label_key_dict fs fi fl) as [fd|]; simpl; [|done].
  destruct (same_dict_loop _ md fd); simpl; [|done].
  destruct (get_image_shape fs mi); simpl; [|done].
  destruct (get_image_shape fs fi); simpl; [|done].
  destruct (get_image_shape fs ml); simpl; [|done].
  destruct (get_image_shape fs fl); simpl; [|done].
  repeat (destruct (assert (_ = _)); simpl; try done).
Qed.

Lemma init_Ok fs mi fi ml fl seed shuffle index_start index_end L :
  H5DataLoader___init__ random_shuffle fs mi fi ml fl
    seed shuffle index_start index_end = Ok L ↔
  ∃ d shm shf,
    sanity_checks fs mi fi ml fl = Ok (d, shm, shf) ∧
    (0 ≤ index_start)%Z ∧
    (index_end ≤ Z.of_nat (length (dict_keys d)))%Z ∧
    L = mkH5DataLoader d
          (take_keys random_shuffle d seed shuffle index_start index_end)
          mi fi ml fl shm shf.
Proof.
  rewrite init_unfold, bind_Ok. split.
  - intros ([[d shm] shf] & Hc & (_ & [??]%assert_Ok & [= <-])%bind_Ok).
    simpl in *. rewrite length_sorted in *.
    exists d, shm, shf. split_and!; [done|lia|lia|done].
  - intros (d & shm & shf & Hc & ? & ? & ->).
    exists (d, shm, shf). split; [done|]. simpl.
    unfold assert. rewrite length_sorted, decide_True by lia. done.
Qed.

Lemma sanity_checks_Ok fs mi fi ml fl d shm shf :
  sanity_checks fs mi fi ml fl = Ok (d, shm, shf) ↔
  get_image_label_key_dict fs mi ml = Ok d ∧
  (∃ fd, get_image_label_key_dict fs fi fl = Ok fd ∧
         same_dict_loop (dict_keys d) d fd = Ok tt) ∧
  get_image_shape fs mi = Ok shm ∧ get_image_shape fs ml = Ok shm ∧
  get_image_shape fs fi = Ok shf ∧ get_image_shape fs fl = Ok shf.
Proof.
  unfold sanity_checks. split.
  - intros (md & Hmd & (fd & Hfd & ([] & Hsame & (s1 & H1 & (s2 & H2 &
      (s3 & H3 & (s4 & H4 & (_ & <-%assert_Ok & (_ & <-%assert_Ok & Heq
      )%bind_Ok)%bind_Ok)%bind_Ok)%bind_Ok)%bind_Ok)%bind_Ok)%bind_Ok
      )%bind_Ok)%bind_Ok.
    injection Heq as <- <- <-. eauto 10.
  - intros (-> & (fd & -> & Hs) & -> & Hml & -> & Hfl). simpl.
    rewrite Hs. simpl. rewrite Hml, Hfl. simpl.
    unfold assert. rewrite !decide_True by done. done.
Qed.

(** A file that was read exists. *)
Lemma get_image_shape_exists fs filename sh :
  get_image_shape fs filename = Ok sh → is_Some (fs !! filename).
Proof.
  unfold get_image_shape, h5py_File.
  destruct (fs !! filename); [eauto|done].
Qed.
(** C2, as amended.  Whatever the other arguments, constructing the loader
    on four existing files succeeds only when the moving pair and the fixed
    pair of image and label files both match: every label key whose stripped
    form (the part before the first [_bin]) is not a bookkeeping key has that
    stripped form among the keys of the image file, and every key of the
    image file is the stripped form of such a label key, so that every case
    has a label.  When one of the two pairs does not match, the construction
    raises an assertion error. *)
Theorem init_key_check fs mi fi ml fl (hmi hfi hml hfl : H5File)
    seed shuffle index_start index_end :
  fs !! mi = Some hmi → fs !! fi = Some hfi →
  fs !! ml = Some hml → fs !! fl = Some hfl →
  (is_ok (H5DataLoader___init__ random_shuffle fs mi fi ml fl
            seed shuffle index_start index_end) →
   pair_matches hmi hml ∧ pair_matches hfi hfl) ∧
  (¬ (pair_matches hmi hml ∧ pair_matches hfi hfl) →
   H5DataLoader___init__ random_shuffle fs mi fi ml fl
     seed shuffle index_start index_end
   = Raise AssertionError).
Proof.
  intros Hmi Hfi Hml Hfl. rewrite init_unfold. unfold sanity_checks.
  destruct (get_image_label_key_dict_spec _ _ _ _ _ Hmi Hml)
    as [(Hm & md & -> & _)|[Hm ->]]; simpl; [|by split; [|intros _]].
  destruct (get_image_label_key_dict_spec _ _ _ _ _ Hfi Hfl)
    as [(Hf & fd & -> & _)|[Hf ->]]; simpl; [|split; [done|]; tauto].
  split; [done|]. intros []. done.
Qed.

(** C3.  With [shuffle=True] the keys of a loader that was constructed are
    the half-open slice [index_start:index_end] of the sorted case keys
    permuted by the seed: the slice Python takes, which for an [index_end]
    that is not negative holds the positions from [index_start] up to, and
    not including, [index_end].  Two loaders built from the same files with
    the same seed, shuffle flag and indices carry the same keys.  A
    construction that succeeds has [0 <= index_start] and [index_end] at most
    the number of cases, and on files that are valid (the construction
    succeeds on the empty range [0:0]) an index pair outside that range makes
    the construction raise an assertion error. *)
Theorem init_keys fs mi fi ml fl (hmi : H5File) seed index_start index_end :
  fs !! mi = Some hmi →
  let cases := sorted (h5_keys hmi) in
  let construct fs mi fi ml fl shuffle index_start index_end :=
    H5DataLoader___init__ random_shuffle fs mi fi ml fl
      seed shuffle index_start index_end in
  (∀ L, construct fs mi fi ml fl true index_start index_end = Ok L →
        keys L = py_slice (random_shuffle seed cases) index_start index_end ∧
        ((0 ≤ index_end)%Z →
         keys L = take (Z.to_nat (index_end - index_start))
                    (drop (Z.to_nat index_start)
                       (random_shuffle seed cases)))) ∧
  (∀ shuffle fs' mi' fi' ml' fl' L L',
        fs' !! mi' = Some hmi →
        construct fs mi fi ml fl shuffle index_start index_end = Ok L →
        construct fs' mi' fi' ml' fl' shuffle index_start index_end = Ok L' →
        keys L = keys L') ∧
  (∀ shuffle,
        is_ok (construct fs mi fi ml fl shuffle index_start index_end) →
        (0 ≤ index_start)%Z ∧ (index_end ≤ Z.of_nat (length cases))%Z) ∧
  (∀ shuffle,
        is_ok (construct fs mi fi ml fl shuffle 0%Z 0%Z) →
        ¬ ((0 ≤ index_start)%Z ∧ (index_end ≤ Z.of_nat (length cases))%Z) →
        construct fs mi fi ml fl shuffle index_start index_end
        = Raise AssertionError).
Proof.
  intros Hmi. cbv zeta.
  assert (∀ fs' mi' fi' ml' fl' shuffle s e L,
            fs' !! mi' = Some hmi →
            H5DataLoader___init__ random_shuffle fs' mi' fi' ml' fl'
              seed shuffle s e = Ok L →
            keys L = py_slice (if shuffle
                               then random_shuffle seed (sorted (h5_keys hmi))
                               else sorted (h5_keys hmi)) s e ∧
            (0 ≤ s)%Z ∧ (e ≤ Z.of_nat (length (sorted (h5_keys hmi))))%Z)
    as Hkeys.
  { intros fs' mi' fi' ml' fl' shuffle s e L Hmi'.
    intros (d & shm & shf & (Hd & _)%sanity_checks_Ok & ? & ? & ->)%init_Ok.
    pose proof (dict_keys_cases _ _ _ _ _ Hd Hmi') as Hp.
    pose proof (Permutation_length Hp) as Hlen.
    simpl. unfold take_keys. rewrite (sorted_perm_eq _ _ Hp).
    rewrite length_sorted. split; [done|lia]. }
  split_and!.
  - intros L HL.
    destruct (Hkeys _ _ _ _ _ _ _ _ _ Hmi HL) as (HkL & ? & ?).
    split; [done|]. intros ?. rewrite HkL.
    apply py_slice_half_open; [done|].
    rewrite random_shuffle_Permutation. lia.
  - intros shuffle fs' mi' fi' ml' fl' L L' Hmi' HL HL'.
    destruct (Hkeys _ _ _ _ _ _ _ _ _ Hmi HL) as [-> _].
    destruct (Hkeys _ _ _ _ _ _ _ _ _ Hmi' HL') as [-> _]. done.
  - intros shuffle Hok.
    destruct (H5DataLoader___init__ _ _ _ _ _ _ _ shuffle _ _)
      as [L|] eqn:HL; [|done].
    by apply (Hkeys _ _ _ _ _ _ _ _ _ Hmi HL).
  - intros shuffle Hok Hout.
    destruct (H5DataLoader___init__ _ _ _ _ _ _ _ shuffle 0 0)
      as [L|] eqn:HL; [|done].
    apply init_Ok in HL as (d & shm & shf & Hc & _).
    rewrite init_unfold, Hc. simpl.
    apply sanity_checks_Ok in Hc as (Hd & _).
    pose proof (dict_keys_cases _ _ _ _ _ Hd Hmi) as Hp.
    pose proof (Permutation_length Hp) as Hlen.
    unfold assert. rewrite length_sorted.
    rewrite decide_False; [done|]. intros []. apply Hout.
    rewrite length_sorted. lia.
Qed.

(** C4, as amended.  After a successful construction the stored moving
    shape has three dimensions and is the shape of every dataset of the
    moving image file and of the moving label file whose key is not a
    bookkeeping key, and likewise the stored fixed shape for the fixed image
    file and the fixed label file. *)
Theorem init_shapes fs mi fi ml fl (hmi hfi hml hfl : H5File)
    seed shuffle index_start index_end L :
  fs !! mi = Some hmi → fs !! fi = Some hfi →
  fs !! ml = Some hml → fs !! fl = Some hfl →
  H5DataLoader___init__ random_shuffle fs mi fi ml fl
    seed shuffle index_start index_end = Ok L →
  length (moving_image_shape L) = 3 ∧
  length (fixed_image_shape L) = 3 ∧
  (∀ k d, k ∉ SKIPPED_KEYS → hmi !! k = Some d ∨ hml !! k = Some d →
          ds_shape d = moving_image_shape L) ∧
  (∀ k d, k ∉ SKIPPED_KEYS → hfi !! k = Some d ∨ hfl !! k = Some d →
          ds_shape d = fixed_image_shape L).
Proof.
  intros Hmi Hfi Hml Hfl.
  intros (d & shm & shf & Hc & _ & _ & ->)%init_Ok. simpl.
  apply sanity_checks_Ok in Hc as (_ & _ & Hsmi & Hsml & Hsfi & Hsfl).
  destruct (get_image_shape_Ok _ _ _ _ Hmi Hsmi) as [? Hmi_all].
  destruct (get_image_shape_Ok _ _ _ _ Hml Hsml) as [_ Hml_all].
  destruct (get_image_shape_Ok _ _ _ _ Hfi Hsfi) as [? Hfi_all].
  destruct (get_image_shape_Ok _ _ _ _ Hfl Hsfl) as [_ Hfl_all].
  split_and!; [done|done|..]; intros k dd Hk [?|?]; eauto.
Qed.

Lemma yields_length self hmi hfi hml hfl i ks g items g' :
  yields rng randrange F32 float32 self hmi hfi hml hfl i ks g items g' →
  length items = length ks.
Proof. induction 1; simpl; congruence. Qed.

Lemma generator_loop_yields self hmi hfi hml hfl ks : ∀ i g,
  Forall (key_ready self hmi hfi hml hfl) ks →
  ∃ items g',
    generator_loop rng randrange F32 float32 self hmi hml hfi hfl i ks g
    = (items, None, g') ∧
    yields rng randrange F32 float32 self hmi hfi hml hfl i ks g items g'.
Proof.
  induction ks as [|k ks IH]; intros i g Hall; simpl.
  - eexists _, _. split; [done|constructor].
  - apply Forall_cons in Hall
      as [(v & Hv & Hne & [dmi Hmi] & [dfi Hfi] & Hlab) Hall].
    rewrite Hv. simpl.
    assert (0 < length (sorted v)) as Hpos.
    { rewrite length_sorted. destruct v; [done|simpl; lia]. }
    rewrite decide_False by lia.
    pose proof (randrange_lt (length (sorted v)) g Hpos) as Hlt.
    destruct (randrange (length (sorted v)) g) as [li g1] eqn:Hdraw.
    simpl in Hlt.
    destruct (lookup_lt_is_Some_2 _ _ Hlt) as [lk Hlk].
    assert (lk ∈ v) as Hin.
    { apply elem_of_sorted_1. by eapply list_elem_of_lookup_2. }
    destruct (Hlab lk Hin) as [[dml Hml] [dfl Hfl]].
    rewrite Hlk. simpl. unfold h5_read.
    rewrite Hmi, Hml, Hfi, Hfl. simpl.
    destruct (IH (S i) g1 Hall) as (items & g' & -> & Hy).
    eexists _, _. split; [done|]. by econstructor.
Qed.

(** A loader that was constructed has all of its keys ready. *)
Lemma init_keys_ready fs mi fi ml fl (hmi hfi hml hfl : H5File)
    seed shuffle index_start index_end L :
  fs !! mi = Some hmi → fs !! fi = Some hfi →
  fs !! ml = Some hml → fs !! fl = Some hfl →
  H5DataLoader___init__ random_shuffle fs mi fi ml fl
    seed shuffle index_start index_end = Ok L →
  Forall (key_ready L hmi hfi hml hfl) (keys L).
Proof.
  intros Hmi Hfi Hml Hfl.
  intros (d & shm & shf & Hc & _ & _ & ->)%init_Ok. simpl.
  apply sanity_checks_Ok in Hc as (Hd & (fd & Hfd & Hsame) & _).
  apply get_image_label_key_dict_Ok in Hd
    as (? & ? & ? & ? & _ & _ & Hdk & Hdl).
  apply get_image_label_key_dict_Ok in Hfd
    as (? & ? & ? & ? & _ & _ & Hfk & Hfl').
  simplify_eq.
  apply Forall_forall. intros k Hk. unfold key_ready. simpl.
  assert (k ∈ dict_keys d) as Hkd.
  { apply elem_of_py_slice in Hk. unfold take_keys in Hk.
    apply elem_of_sorted_1. destruct shuffle; [|done].
    by rewrite random_shuffle_Permutation in Hk. }
  destruct (same_dict_loop_Ok _ _ _ Hsame k Hkd) as (v & Hv & Hv').
  exists v. destruct (Hdl _ _ Hv) as (? & Hvl & _).
  destruct (Hfl' _ _ Hv') as (_ & Hvl' & _).
  rewrite Forall_forall in Hvl. rewrite Forall_forall in Hvl'.
  split_and!; [done|done|by apply elem_of_h5_keys, Hdk| |].
  - apply elem_of_h5_keys, Hfk. by eapply dict_get_Some_keys.
  - intros l Hl. split; apply elem_of_h5_keys; auto.
Qed.

(** C9.  On a loader that was constructed, the generator ends without an
    exception and yields exactly one item per key of [keys], in the order of
    [keys]: for the key at position [image_index], the label index is the
    number [randrange] draws below the number of the sorted label keys of
    the case, both labels are read under the label key at that index, both
    images under the case key, and the indices are
    [[image_index, label_index]]. *)
Theorem get_generator_yields fs mi fi ml fl (hmi hfi hml hfl : H5File)
    seed shuffle index_start index_end L g :
  fs !! mi = Some hmi → fs !! fi = Some hfi →
  fs !! ml = Some hml → fs !! fl = Some hfl →
  H5DataLoader___init__ random_shuffle fs mi fi ml fl
    seed shuffle index_start index_end = Ok L →
  ∃ items g',
    get_generator rng randrange F32 float32 fs L g = (items, None, g') ∧
    length items = length (keys L) ∧
    yields rng randrange F32 float32 L hmi hfi hml hfl 0 (keys L) g items g'.
Proof.
  intros Hmi Hfi Hml Hfl HL.
  pose proof (init_keys_ready _ _ _ _ _ _ _ _ _ _ _ _ _ _
                Hmi Hfi Hml Hfl HL) as Hready.
  destruct (generator_loop_yields _ _ _ _ _ _ 0 g Hready)
    as (items & g' & Hrun & Hy).
  exists items, g'. split_and!; [|by eapply yields_length|done].
  apply init_Ok in HL as (d & shm & shf & _ & _ & _ & ->).
  unfold get_generator, h5py_File. simpl.
  rewrite Hmi, Hml, Hfi, Hfl. simpl. done.
Qed.
End loader_facts.

(** *** Concrete files *)

Lemma shuffle_reverse_Permutation seed l : shuffle_reverse seed l ≡ₚ l.
Proof. apply reverse_Permutation. Qed.

Lemma draw_mod_lt n g : 0 < n → (draw_mod n g).1 < n.
Proof. intros ?. simpl. apply Nat.mod_upper_bound. lia. Qed.

Lemma init_key_check_witness :
  fs_paired !! "moving_images.h5" = Some moving_images ∧
  fs_paired !! "fixed_images.h5" = Some fixed_images ∧
  fs_paired !! "moving_labels.h5" = Some moving_labels ∧
  fs_paired !! "fixed_labels.h5" = Some fixed_labels ∧
  (is_ok (H5DataLoader___init__ shuffle_reverse fs_paired
            "moving_images.h5" "fixed_images.h5"
            "moving_labels.h5" "fixed_labels.h5" 7 true 0 2) →
   pair_matches moving_images moving_labels ∧
   pair_matches fixed_images fixed_labels) ∧
  (¬ (pair_matches moving_images moving_labels ∧
      pair_matches fixed_images fixed_labels) →
   H5DataLoader___init__ shuffle_reverse fs_paired
     "moving_images.h5" "fixed_images.h5"
     "moving_labels.h5" "fixed_labels.h5" 7 true 0 2
   = Raise AssertionError).
Proof.
  do 4 (split; [reflexivity|]).
  apply (init_key_check shuffle_reverse fs_paired); reflexivity.
Defined.

(** C2, as stated, fails: the loader is constructed on a label file that
    holds the key [num_labels_bin000], which is not a bookkeeping key and
    whose stripped form [num_labels] is no key of the image file. *)
Lemma init_key_check_unstripped_fails :
  is_ok (H5DataLoader___init__ shuffle_reverse fs_bookkeeping_bin
           "images.h5" "images.h5" "labels.h5" "labels.h5" 0 false 0 1) ∧
  ¬ pair_matches_unstripped images_one labels_bookkeeping_bin.
Proof.
  split; [by vm_compute|]. intros [Hsub _].
  specialize (Hsub "num_labels_bin000").
  rewrite !elem_of_h5_keys in Hsub.
  destruct Hsub as [d Hd]; [by eexists|compute_done|].
  vm_compute in Hd. done.
Qed.

Lemma init_keys_witness :
  fs_paired !! "moving_images.h5" = Some moving_images ∧
  ∃ L, H5DataLoader___init__ shuffle_reverse fs_paired
         "moving_images.h5" "fixed_images.h5"
         "moving_labels.h5" "fixed_labels.h5" 7 true 0 1 = Ok L ∧
       keys L = py_slice (shuffle_reverse 7 (sorted (h5_keys moving_images)))
                  0 1 ∧
       keys L = ["case000001"].
Proof.
  split; [reflexivity|]. eexists. split; [vm_compute; reflexivity|].
  split; [|vm_compute; reflexivity].
  apply (proj1 (init_keys shuffle_reverse shuffle_reverse_Permutation
                  fs_paired "moving_images.h5" "fixed_images.h5"
                  "moving_labels.h5" "fixed_labels.h5"
                  moving_images 7 0 1 eq_refl)); [reflexivity|done].
Defined.

Lemma init_shapes_witness :
  ∃ L, H5DataLoader___init__ shuffle_reverse fs_paired
         "moving_images.h5" "fixed_images.h5"
         "moving_labels.h5" "fixed_labels.h5" 7 true 0 2 = Ok L ∧
       length (moving_image_shape L) = 3 ∧
       length (fixed_image_shape L) = 3 ∧
       (∀ k d, k ∉ SKIPPED_KEYS →
               moving_images !! k = Some d ∨ moving_labels !! k = Some d →
               ds_shape d = moving_image_shape L) ∧
       (∀ k d, k ∉ SKIPPED_KEYS →
               fixed_images !! k = Some d ∨ fixed_labels !! k = Some d →
               ds_shape d = fixed_image_shape L).
Proof.
  eexists. split; [vm_compute; reflexivity|].
  apply (init_shapes shuffle_reverse fs_paired
           "moving_images.h5" "fixed_images.h5"
           "moving_labels.h5" "fixed_labels.h5"
           moving_images fixed_images moving_labels fixed_labels 7 true 0 2);
    reflexivity.
Defined.

(** C4, as stated, fails: the loader is constructed on moving volumes of
    shape (1, 1, 2) and fixed volumes of shape (1, 2, 2). *)
Lemma init_shapes_differ :
  ∃ L, H5DataLoader___init__ shuffle_reverse fs_paired
         "moving_images.h5" "fixed_images.h5"
         "moving_labels.h5" "fixed_labels.h5" 7 true 0 2 = Ok L ∧
       moving_image_shape L = [1; 1; 2] ∧
       fixed_image_shape L = [1; 2; 2] ∧
       moving_image_shape L ≠ fixed_image_shape L ∧
       ¬ common_shape moving_images fixed_images moving_labels fixed_labels.
Proof.
  eexists. split; [vm_compute; reflexivity|]. simpl.
  split_and!; [done..|]. intros (sh & _ & Hsh).
  assert ([1; 1; 2] = sh) as <-.
  { apply (Hsh "case000000" (volume [1; 1; 2] [10; 11]%Z)); [compute_done|].
    left. reflexivity. }
  assert ([1; 2; 2] = [1; 1; 2]) as [=].
  apply (Hsh "case000000" (volume [1; 2; 2] [20; 21; 22; 23]%Z));
    [compute_done|].
  right. left. reflexivity.
Qed.

Lemma get_generator_yields_witness :
  ∃ L, H5DataLoader___init__ shuffle_reverse fs_paired
         "moving_images.h5" "fixed_images.h5"
         "moving_labels.h5" "fixed_labels.h5" 7 true 0 2 = Ok L ∧
    ∃ items g',
      get_generator nat draw_mod Q float32_Q fs_paired L 5 = (items, None, g') ∧
      length items = length (keys L) ∧
      yields nat draw_mod Q float32_Q L
        moving_images fixed_images moving_labels fixed_labels
        0 (keys L) 5 items g'.
Proof.
  eexists. split; [vm_compute; reflexivity|].
  apply (get_generator_yields shuffle_reverse shuffle_reverse_Permutation
           nat draw_mod draw_mod_lt Q float32_Q fs_paired
           "moving_images.h5" "fixed_images.h5"
           "moving_labels.h5" "fixed_labels.h5"
           moving_images fixed_images moving_labels fixed_labels 7 true 0 2);
    reflexivity.
Defined.

End LoaderH5Facts.

(** ** The data loader, continued *)

Module LoaderH5More.
Import LoaderH5 LoaderH5Spec Examples LoaderH5Facts.

Lemma StronglySorted_sublist {A} (R : relation A) (l1 l2 : list A) :
  l1 `sublist_of` l2 → StronglySorted R l2 → StronglySorted R l1.
Proof.
  induction 1 as [|x l1 l2 Hsub IH|x l1 l2 Hsub IH]; intros Hs.
  - constructor.
  - apply StronglySorted_inv in Hs as [Hs Hall]. constructor; [auto|].
    apply Forall_forall. intros y Hy. rewrite Forall_forall in Hall.
    apply Hall. by eapply elem_of_sublist.
  - apply StronglySorted_inv in Hs as [Hs _]. auto.
Qed.

Lemma sorted_of_StronglySorted l : StronglySorted str_le l → sorted l = l.
Proof.
  intros Hs. apply (StronglySorted_unique str_le);
    [apply sorted_StronglySorted|done|apply sorted_Permutation].
Qed.

(** X1.  [get_sorted_keys] raises [OSError] when the file does not exist;
    otherwise it returns the keys of the file, each once, in ascending
    order. *)
Theorem get_sorted_keys_spec fs filename :
  match fs !! filename with
  | None => get_sorted_keys fs filename = Raise OSError
  | Some hf =>
      ∃ ks, get_sorted_keys fs filename = Ok ks ∧
            StronglySorted str_le ks ∧ NoDup ks ∧
            (∀ k, k ∈ ks ↔ is_Some (hf !! k)) ∧
            length ks = size hf
  end.
Proof.
  unfold get_sorted_keys, h5py_File.
  destruct (fs !! filename) as [hf|]; simpl; [|done].
  eexists. split_and!; [done|apply sorted_StronglySorted| | |].
  - apply NoDup_sorted, NoDup_h5_keys.
  - intros k. by rewrite elem_of_sorted, elem_of_h5_keys.
  - rewrite length_sorted. unfold h5_keys.
    by rewrite length_fmap, length_map_to_list.
Qed.

(** The labels a key has in the dictionary after the loop: those it had,
    followed by the label keys of the loop that name it. *)
Lemma key_dict_loop_get image_keys label_keys : ∀ d d' k,
  key_dict_loop image_keys label_keys d = Ok d' →
  k ∉ SKIPPED_KEYS →
  dict_get d' k =
  match dict_get d k, filter (λ l, strip l = k) label_keys with
  | Some old, new => Some (old ++ new)
  | None, [] => None
  | None, new => Some new
  end.
Proof.
  induction label_keys as [|l ls IH]; intros d d' k Hrun Hk; simpl in Hrun.
  - injection Hrun as <-. rewrite filter_nil.
    destruct (dict_get d k); [by rewrite app_nil_r|done].
  - destruct (decide (strip l ∉ SKIPPED_KEYS)) as [Hskip|Hskip]; cycle 1.
    { rewrite filter_cons_False; [by apply IH|].
      intros Heq. subst k. by apply Hskip. }
    apply bind_Ok in Hrun as (_ & _ & Hrun).
    apply bind_Ok in Hrun as (labels & Hlabels%or_raise_Ok & Hrun).
    rewrite (IH _ _ _ Hrun Hk).
    destruct (decide (strip l = k)) as [Heq|Hne].
    + subst k. rewrite dict_get_set_eq, filter_cons_True by done.
      destruct (decide (strip l ∉ dict_keys d)) as [Hni|Hin].
      * rewrite dict_get_set_eq in Hlabels. injection Hlabels as <-.
        destruct (dict_get d (strip l)) eqn:Hd; [|done].
        destruct Hni. by eapply dict_get_Some_keys.
      * rewrite Hlabels. by rewrite <-app_assoc.
    + rewrite dict_get_set_ne, filter_cons_False by done.
      destruct (decide (strip l ∉ dict_keys d)); [|done].
      by rewrite dict_get_set_ne.
Qed.

Lemma strip_SKIPPED k : k ∈ SKIPPED_KEYS → strip k = k.
Proof.
  unfold SKIPPED_KEYS. rewrite !elem_of_cons, elem_of_nil.
  intros [->|[->|[]]]; reflexivity.
Qed.

(** The dictionary of a pair of files, key by key. *)
Lemma get_image_label_key_dict_get fs image_filename label_filename
    (img lbl : H5File) d k :
  fs !! image_filename = Some img →
  fs !! label_filename = Some lbl →
  get_image_label_key_dict fs image_filename label_filename = Ok d →
  dict_get d k = if decide (k ∈ h5_keys img) then Some (labels_of lbl k)
                 else None.
Proof.
  intros Himg Hlbl Hd.
  destruct (get_image_label_key_dict_Ok _ _ _ _ Hd)
    as (img' & lbl' & ? & ? & [_ Hsup] & _ & Hkeys & _). simplify_eq.
  unfold get_image_label_key_dict, get_sorted_keys, h5py_File in Hd.
  rewrite Himg, Hlbl in Hd. simpl in Hd.
  apply bind_Ok in Hd as (d' & Hloop & Hd).
  apply bind_Ok in Hd as (_ & _ & [= ->]).
  destruct (decide (k ∈ h5_keys img)) as [Hin|Hni].
  - destruct (Hsup k Hin) as (l & Hl & Hskip & <-).
    rewrite (key_dict_loop_get _ _ _ _ _ Hloop Hskip). simpl.
    unfold labels_of.
    destruct (filter _ _) eqn:Hf; [|done].
    assert (l ∈ filter (λ l0, strip l0 = strip l) (sorted (h5_keys lbl)))
      as Hin'.
    { apply list_elem_of_filter. split; [done|by apply elem_of_sorted_2]. }
    rewrite Hf in Hin'. by apply elem_of_nil in Hin'.
  - destruct (dict_get d k) eqn:Hget; [|done].
    destruct Hni. apply Hkeys. by eapply dict_get_Some_keys.
Qed.

Lemma labels_of_sorted (lbl : H5File) k :
  StronglySorted str_le (labels_of lbl k) ∧ NoDup (labels_of lbl k).
Proof.
  unfold labels_of. split.
  - eapply StronglySorted_sublist; [apply sublist_filter; apply _|].
    apply sorted_StronglySorted.
  - apply NoDup_filter, NoDup_sorted, NoDup_h5_keys.
Qed.

(** X2.  The dictionary [get_image_label_key_dict] returns maps every key of
    the image file, and nothing else, to the label keys whose part before
    [_bin] is that key: all of them, each once, in ascending order, and at
    least one; sorting such a list again, as [get_generator] does, returns
    it unchanged. *)
Theorem get_image_label_key_dict_labels fs image_filename label_filename
    (img lbl : H5File) d :
  fs !! image_filename = Some img →
  fs !! label_filename = Some lbl →
  get_image_label_key_dict fs image_filename label_filename = Ok d →
  (∀ k, k ∉ h5_keys img → dict_get d k = None) ∧
  (∀ k, k ∈ h5_keys img →
        ∃ v, dict_get d k = Some v ∧ v ≠ [] ∧
             StronglySorted str_le v ∧ NoDup v ∧ sorted v = v ∧
             ∀ l, l ∈ v ↔ l ∈ h5_keys lbl ∧ strip l = k).
Proof.
  intros Himg Hlbl Hd. split; intros k Hk.
  - rewrite (get_image_label_key_dict_get _ _ _ _ _ _ k Himg Hlbl Hd).
    by rewrite decide_False.
  - rewrite (get_image_label_key_dict_get _ _ _ _ _ _ k Himg Hlbl Hd).
    rewrite decide_True by done.
    destruct (labels_of_sorted lbl k) as [Hs Hnd].
    eexists. split_and!; [done| |done|done|by apply sorted_of_StronglySorted|].
    + destruct (get_image_label_key_dict_Ok _ _ _ _ Hd)
        as (img' & lbl' & ? & ? & [_ Hsup] & _). simplify_eq.
      destruct (Hsup k Hk) as (l & Hl & _ & Hlk). intros Hnil.
      assert (l ∈ labels_of lbl k) as Hin.
      { apply list_elem_of_filter. split; [done|by apply elem_of_sorted_2]. }
      rewrite Hnil in Hin. by apply elem_of_nil in Hin.
    + intros l. unfold labels_of.
      rewrite list_elem_of_filter, elem_of_sorted. tauto.
Qed.

Lemma shape_loop_all (hf : H5File) sh ks :
  (∀ k, k ∈ ks → ∃ d, hf !! k = Some d ∧ ds_shape d = sh) →
  shape_loop hf sh ks = Ok tt.
Proof.
  induction ks as [|k ks IH]; intros Hall; simpl; [done|].
  destruct (Hall k) as (d & Hd & Hsh); [by left|].
  unfold h5_shape. rewrite Hd. simpl. unfold assert.
  rewrite decide_True by done. simpl. apply IH.
  intros k' Hk'. apply Hall. by right.
Qed.

Lemma shape_loop_cases (hf : H5File) sh ks :
  (∀ k, k ∈ ks → is_Some (hf !! k)) →
  shape_loop hf sh ks = Ok tt ∨ shape_loop hf sh ks = Raise AssertionError.
Proof.
  induction ks as [|k ks IH]; intros Hall; simpl; [by left|].
  destruct (Hall k) as (d & Hd); [by left|].
  unfold h5_shape. rewrite Hd. simpl. unfold assert.
  destruct (decide (sh = ds_shape d)); simpl; [|by right].
  apply IH. intros k' Hk'. apply Hall. by right.
Qed.

Lemma get_image_shape_unfold fs filename (hf : H5File) k0 ks d0 :
  fs !! filename = Some hf →
  sorted (filter (λ k, k ∉ SKIPPED_KEYS) (h5_keys hf)) = k0 :: ks →
  hf !! k0 = Some d0 →
  get_image_shape fs filename =
  (_ ← assert (length (ds_shape d0) = 3);
   _ ← shape_loop hf (ds_shape d0) (k0 :: ks);
   Ok (ds_shape d0)).
Proof.
  intros Hhf Hks Hd0. unfold get_image_shape, h5py_File.
  rewrite Hhf. change (or_raise OSError (Some hf)) with (Ok hf).
  rewrite result_bind_Ok. cbv zeta. rewrite Hks.
  change (or_raise IndexError ((k0 :: ks) !! 0)) with (Ok k0).
  rewrite result_bind_Ok. unfold h5_shape. rewrite Hd0.
  change (ds_shape <$> or_raise AttributeError (Some d0))
    with (Ok (ds_shape d0)).
  by rewrite result_bind_Ok.
Qed.

(** X3.  [get_image_shape] raises [OSError] on a missing file and
    [IndexError] on a file without a dataset other than the bookkeeping
    entries; on any other file it returns [sh] exactly when [sh] has three
    dimensions and is the shape of every dataset other than the bookkeeping
    entries, and it raises [AssertionError] when there is no such shape. *)
Theorem get_image_shape_spec fs filename :
  match fs !! filename with
  | None => get_image_shape fs filename = Raise OSError
  | Some hf =>
      (¬ has_volume hf → get_image_shape fs filename = Raise IndexError) ∧
      (has_volume hf →
       (∀ sh, get_image_shape fs filename = Ok sh ↔ uniform_shape hf sh) ∧
       ((∀ sh, ¬ uniform_shape hf sh) →
        get_image_shape fs filename = Raise AssertionError))
  end.
Proof.
  destruct (fs !! filename) as [hf|] eqn:Hhf; cycle 1.
  { unfold get_image_shape, h5py_File. by rewrite Hhf. }
  pose proof (get_image_shape_Ok fs filename hf) as Hok.
  destruct (sorted (filter (λ k, k ∉ SKIPPED_KEYS) (h5_keys hf)))
    as [|k0 ks] eqn:Hks.
  - assert (¬ has_volume hf) as Hnone.
    { intros (k & Hk & Hskip).
      assert (k ∈ sorted (filter (λ k, k ∉ SKIPPED_KEYS) (h5_keys hf)))
        as Hin by (by apply elem_of_sorted_2, list_elem_of_filter).
      rewrite Hks in Hin. by apply elem_of_nil in Hin. }
    split; [|done]. intros _.
    unfold get_image_shape, h5py_File. rewrite Hhf.
    change (or_raise OSError (Some hf)) with (Ok hf).
    rewrite result_bind_Ok. cbv zeta. by rewrite Hks.
  - assert (∀ k, k ∈ k0 :: ks ↔ k ∈ h5_keys hf ∧ k ∉ SKIPPED_KEYS) as Hmem.
    { intros k. rewrite <-Hks, elem_of_sorted, list_elem_of_filter. tauto. }
    assert (k0 ∈ h5_keys hf ∧ k0 ∉ SKIPPED_KEYS) as [Hin0 Hskip0].
    { apply Hmem. by left. }
    apply elem_of_h5_keys in Hin0 as [d0 Hd0].
    pose proof (get_image_shape_unfold _ _ _ _ _ _ Hhf Hks Hd0) as Hrun.
    assert (∀ k, k ∈ k0 :: ks → is_Some (hf !! k)) as Hsome.
    { intros k Hk. apply elem_of_h5_keys. by apply Hmem. }
    split.
    { intros Hn. destruct Hn. exists k0.
      split; [apply elem_of_h5_keys; eauto|done]. }
    intros _. split.
    + intros sh. split; [by apply Hok|].
      intros [Hlen Hall]. rewrite Hrun, (Hall _ _ Hd0 Hskip0).
      unfold assert. rewrite decide_True by done. rewrite result_bind_Ok.
      rewrite shape_loop_all; [done|].
      intros k Hk. destruct (Hsome k Hk) as [d Hd]. exists d.
      split; [done|]. apply (Hall _ _ Hd). by apply Hmem.
    + intros Hnone. rewrite Hrun. unfold assert.
      destruct (decide (length (ds_shape d0) = 3)) as [Hlen|]; [|done].
      rewrite result_bind_Ok.
      destruct (shape_loop_cases hf (ds_shape d0) _ Hsome)
        as [Hl|Hl]; rewrite Hl; [|done].
      destruct (Hnone (ds_shape d0)). apply Hok; [done|].
      rewrite Hrun. unfold assert. rewrite decide_True by done.
      by rewrite result_bind_Ok, Hl.
Qed.

Lemma py_slice_sublist {A} (l : list A) start stop :
  py_slice l start stop `sublist_of` l.
Proof.
  unfold py_slice. etrans; [apply sublist_take|apply sublist_drop].
Qed.

Section loader_more.
Variable random_shuffle : Z → list string → list string.
Hypothesis random_shuffle_Permutation :
  ∀ seed l, random_shuffle seed l ≡ₚ l.

Variable rng : Type.
Variable randrange : nat → rng → nat * rng.
Hypothesis randrange_lt : ∀ n g, 0 < n → (randrange n g).1 < n.

Variable F32 : Type.
Variable float32 : nat → F32.

(** The list the keys of a loader are sliced from. *)
Lemma init_keys_slice fs mi fi ml fl (hmi : H5File)
    seed shuffle index_start index_end L :
  fs !! mi = Some hmi →
  H5DataLoader___init__ random_shuffle fs mi fi ml fl
    seed shuffle index_start index_end = Ok L →
  let base := if shuffle then random_shuffle seed (sorted (h5_keys hmi))
              else sorted (h5_keys hmi) in
  keys L = py_slice base index_start index_end ∧
  base ≡ₚ h5_keys hmi ∧
  (0 ≤ index_start)%Z ∧ (index_end ≤ Z.of_nat (length base))%Z.
Proof.
  intros Hmi.
  intros (d & shm & shf & (Hd & _)%sanity_checks_Ok & ? & ? & ->)%init_Ok.
  pose proof (dict_keys_cases _ _ _ _ _ Hd Hmi) as Hp.
  pose proof (Permutation_length Hp) as Hlen.
  simpl. unfold take_keys. rewrite (sorted_perm_eq _ _ Hp).
  assert ((if shuffle then random_shuffle seed (sorted (h5_keys hmi))
           else sorted (h5_keys hmi)) ≡ₚ h5_keys hmi) as Hbase.
  { destruct shuffle; [rewrite random_shuffle_Permutation|];
      apply sorted_Permutation. }
  split_and!; [done|done|done|]. rewrite Hbase. lia.
Qed.

(** The dictionary of a loader, case by case. *)
Lemma init_cases_labels fs mi fi ml fl (hmi hfi hml hfl : H5File)
    seed shuffle index_start index_end L :
  fs !! mi = Some hmi → fs !! fi = Some hfi →
  fs !! ml = Some hml → fs !! fl = Some hfl →
  H5DataLoader___init__ random_shuffle fs mi fi ml fl
    seed shuffle index_start index_end = Ok L →
  ∀ k, k ∈ h5_keys hmi →
       k ∈ h5_keys hfi ∧ labels_of hml k = labels_of hfl k ∧
       dict_get (key_dict L) k = Some (labels_of hml k).
Proof.
  intros Hmi Hfi Hml Hfl.
  intros (d & shm & shf & Hc & _ & _ & ->)%init_Ok k Hk. simpl.
  apply sanity_checks_Ok in Hc as (Hd & (fd & Hfd & Hsame) & _).
  pose proof (get_image_label_key_dict_get _ _ _ _ _ _ k Hmi Hml Hd) as Hdk.
  pose proof (get_image_label_key_dict_get _ _ _ _ _ _ k Hfi Hfl Hfd) as Hfk.
  rewrite decide_True in Hdk by done.
  destruct (same_dict_loop_Ok _ _ _ Hsame k) as (v & Hv & Hv').
  { by eapply dict_get_Some_keys. }
  rewrite Hv in Hdk. rewrite Hv' in Hfk.
  destruct (decide (k ∈ h5_keys hfi)); [|done].
  split_and!; [done|congruence|congruence].
Qed.

(** X4.  After a successful construction every case of the moving files is
    a case of the fixed files, with the same label keys in both label files,
    and the dictionary of the loader maps the case to these label keys. *)
Theorem init_moving_cases_in_fixed fs mi fi ml fl (hmi hfi hml hfl : H5File)
    seed shuffle index_start index_end L :
  fs !! mi = Some hmi → fs !! fi = Some hfi →
  fs !! ml = Some hml → fs !! fl = Some hfl →
  H5DataLoader___init__ random_shuffle fs mi fi ml fl
    seed shuffle index_start index_end = Ok L →
  ∀ k, k ∈ h5_keys hmi →
       k ∈ h5_keys hfi ∧ labels_of hml k = labels_of hfl k ∧
       dict_get (key_dict L) k = Some (labels_of hml k).
Proof. apply init_cases_labels. Qed.

(** X5.  The keys of a loader that was constructed are cases of the moving
    image file, none of them twice, and for an [index_end] that is not
    negative there are [index_end - index_start] of them (none when that is
    negative). *)
Theorem init_keys_cases fs mi fi ml fl (hmi : H5File)
    seed shuffle index_start index_end L :
  fs !! mi = Some hmi →
  H5DataLoader___init__ random_shuffle fs mi fi ml fl
    seed shuffle index_start index_end = Ok L →
  NoDup (keys L) ∧
  (∀ k, k ∈ keys L → k ∈ h5_keys hmi) ∧
  ((0 ≤ index_end)%Z →
   length (keys L) = Z.to_nat (index_end - index_start)).
Proof.
  intros Hmi HL.
  destruct (init_keys_slice _ _ _ _ _ _ _ _ _ _ _ Hmi HL)
    as (-> & Hbase & Hs & He).
  split_and!.
  - eapply sublist_NoDup; [|apply py_slice_sublist].
    rewrite Hbase. apply NoDup_h5_keys.
  - intros k Hk. rewrite <-Hbase. by eapply elem_of_py_slice.
  - intros ?. rewrite py_slice_half_open by lia.
    rewrite length_take, length_drop. lia.
Qed.

(** X6.  Two loaders on the same files with the same seed and shuffle flag,
    one for the range [0:k] and one for the range from [k] to the number of
    cases, split the cases: their key lists, one after the other, are the
    whole (shuffled) list of cases, every case is in one of them and no case
    is in both. *)
Theorem init_split fs mi fi ml fl (hmi : H5File) seed shuffle k L1 L2 :
  fs !! mi = Some hmi →
  H5DataLoader___init__ random_shuffle fs mi fi ml fl
    seed shuffle 0 k = Ok L1 →
  H5DataLoader___init__ random_shuffle fs mi fi ml fl
    seed shuffle k (Z.of_nat (length (h5_keys hmi))) = Ok L2 →
  keys L1 ++ keys L2
  = (if shuffle then random_shuffle seed (sorted (h5_keys hmi))
     else sorted (h5_keys hmi)) ∧
  (∀ key, key ∈ h5_keys hmi ↔ key ∈ keys L1 ∨ key ∈ keys L2) ∧
  (∀ key, key ∈ keys L1 → key ∉ keys L2).
Proof.
  intros Hmi HL1 HL2.
  destruct (init_keys_slice _ _ _ _ _ _ _ _ _ _ _ Hmi HL1)
    as (E1 & Hbase & _ & Hk1).
  destruct (init_keys_slice _ _ _ _ _ _ _ _ _ _ _ Hmi HL2)
    as (E2 & _ & Hk2 & _).
  simpl in *.
  set (base := if shuffle then random_shuffle seed (sorted (h5_keys hmi))
               else sorted (h5_keys hmi)) in *.
  pose proof (Permutation_length Hbase) as Hlen.
  assert (keys L1 ++ keys L2 = base) as Happ.
  { rewrite E1, E2, !py_slice_half_open by lia.
    rewrite Z.sub_0_r. change (Z.to_nat 0) with 0. rewrite drop_0.
    rewrite (take_ge (drop _ _)) by (rewrite length_drop; lia).
    apply take_drop. }
  split_and!; [done| |].
  - intros key. by rewrite <-Hbase, <-Happ, elem_of_app.
  - assert (NoDup (keys L1 ++ keys L2)) as Hnd.
    { rewrite Happ, Hbase. apply NoDup_h5_keys. }
    apply NoDup_app in Hnd as (_ & Hdisj & _). done.
Qed.

(** X7.  Without shuffling the keys of a loader are in ascending order. *)
Theorem init_keys_unshuffled_sorted fs mi fi ml fl
    seed index_start index_end L :
  H5DataLoader___init__ random_shuffle fs mi fi ml fl
    seed false index_start index_end = Ok L →
  StronglySorted str_le (keys L).
Proof.
  intros (d & shm & shf & _ & _ & _ & ->)%init_Ok. simpl.
  unfold take_keys.
  eapply StronglySorted_sublist; [apply py_slice_sublist|].
  apply sorted_StronglySorted.
Qed.
End loader_more.

Section generator_more.
Variable random_shuffle : Z → list string → list string.
Hypothesis random_shuffle_Permutation :
  ∀ seed l, random_shuffle seed l ≡ₚ l.

Variable rng : Type.
Variable randrange : nat → rng → nat * rng.
Hypothesis randrange_lt : ∀ n g, 0 < n → (randrange n g).1 < n.

Variable F32 : Type.
Variable float32 : nat → F32.

(** Key by key, the datasets an item holds. *)
Lemma yields_Forall2 self (hmi hfi hml hfl : H5File) i ks g items g' :
  yields rng randrange F32 float32 self hmi hfi hml hfl i ks g items g' →
  Forall2 (λ k it,
             ∃ lks lk, dict_get (key_dict self) k = Some lks ∧ lk ∈ lks ∧
                       hmi !! k = Some (moving_image it) ∧
                       hfi !! k = Some (fixed_image it) ∧
                       hml !! lk = Some (moving_label it) ∧
                       hfl !! lk = Some (fixed_label it))
    ks items.
Proof.
  induction 1 as [|i k ks g lks li g1 lk dmi dfi dml dfl items g'
                    Hget _ _ Hlk Hmi Hfi Hml Hfl _ IH]; constructor; [|done].
  exists lks, lk. simpl. split_and!; try done.
  apply elem_of_sorted_1. by eapply list_elem_of_lookup_2.
Qed.

(** The items of the generator of a loader that was constructed. *)
Lemma get_generator_items fs mi fi ml fl (hmi hfi hml hfl : H5File)
    seed shuffle index_start index_end L g :
  fs !! mi = Some hmi → fs !! fi = Some hfi →
  fs !! ml = Some hml → fs !! fl = Some hfl →
  H5DataLoader___init__ random_shuffle fs mi fi ml fl
    seed shuffle index_start index_end = Ok L →
  Forall2 (λ k it,
             ∃ lk, k ∈ h5_keys hmi ∧ lk ∈ labels_of hml k ∧
                   hmi !! k = Some (moving_image it) ∧
                   hfi !! k = Some (fixed_image it) ∧
                   hml !! lk = Some (moving_label it) ∧
                   hfl !! lk = Some (fixed_label it))
    (keys L) (get_generator rng randrange F32 float32 fs L g).1.1.
Proof.
  intros Hmi Hfi Hml Hfl HL.
  pose proof (init_keys_ready random_shuffle random_shuffle_Permutation
                _ _ _ _ _ _ _ _ _ _ _ _ _ _ Hmi Hfi Hml Hfl HL) as Hready.
  destruct (generator_loop_yields rng randrange randrange_lt F32 float32
              _ _ _ _ _ _ 0 g Hready) as (items & g' & Hrun & Hy).
  pose proof (init_cases_labels random_shuffle
                _ _ _ _ _ _ _ _ _ _ _ _ _ _ Hmi Hfi Hml Hfl HL) as Hcases.
  assert ((get_generator rng randrange F32 float32 fs L g).1.1 = items)
    as ->.
  { apply init_Ok in HL as (d & shm & shf & _ & _ & _ & ->).
    unfold get_generator, h5py_File. simpl in *.
    rewrite Hmi, Hml, Hfi, Hfl. simpl. by rewrite Hrun. }
  eapply Forall2_impl; [by apply yields_Forall2 in Hy|].
  intros k it (lks & lk & Hget & Hin & ? & ? & ? & ?). simpl.
  assert (k ∈ h5_keys hmi) as Hk by (apply elem_of_h5_keys; eauto).
  destruct (Hcases k Hk) as (_ & _ & Hget').
  exists lk. split_and!; try done. congruence.
Qed.

Lemma not_SKIPPED_of_strip l : strip l ∉ SKIPPED_KEYS → l ∉ SKIPPED_KEYS.
Proof. intros Hs Hl. apply Hs. by rewrite strip_SKIPPED. Qed.

(** X8.  Every item the generator of a constructed loader yields has the
    shapes the loader stores: its moving image and moving label have the
    shape [moving_image_shape], its fixed image and fixed label the shape
    [fixed_image_shape]. *)
Theorem get_generator_shapes fs mi fi ml fl (hmi hfi hml hfl : H5File)
    seed shuffle index_start index_end L g :
  fs !! mi = Some hmi → fs !! fi = Some hfi →
  fs !! ml = Some hml → fs !! fl = Some hfl →
  H5DataLoader___init__ random_shuffle fs mi fi ml fl
    seed shuffle index_start index_end = Ok L →
  Forall (λ it,
            ds_shape (moving_image it) = moving_image_shape L ∧
            ds_shape (moving_label it) = moving_image_shape L ∧
            ds_shape (fixed_image it) = fixed_image_shape L ∧
            ds_shape (fixed_label it) = fixed_image_shape L)
    (get_generator rng randrange F32 float32 fs L g).1.1.
Proof.
  intros Hmi Hfi Hml Hfl HL.
  pose proof (get_generator_items _ _ _ _ _ _ _ _ _ _ _ _ _ _ g
                Hmi Hfi Hml Hfl HL) as Hitems.
  apply init_Ok in HL as (d & shm & shf & Hc & _ & _ & ->).
  apply sanity_checks_Ok in Hc as (Hd & _ & Hsmi & Hsml & Hsfi & Hsfl).
  destruct (get_image_label_key_dict_Ok _ _ _ _ Hd)
    as (? & ? & ? & ? & [_ Hsup] & _). simplify_eq.
  destruct (get_image_shape_Ok _ _ _ _ Hmi Hsmi) as [_ Hmi_all].
  destruct (get_image_shape_Ok _ _ _ _ Hml Hsml) as [_ Hml_all].
  destruct (get_image_shape_Ok _ _ _ _ Hfi Hsfi) as [_ Hfi_all].
  destruct (get_image_shape_Ok _ _ _ _ Hfl Hsfl) as [_ Hfl_all].
  simpl in *.
  induction Hitems as [|k it ks items (lk & Hk & Hlk & ? & ? & ? & ?) _ IH];
    constructor; [|done].
  destruct (Hsup k Hk) as (l & _ & Hskip & <-).
  apply list_elem_of_filter in Hlk as [Hstrip _].
  assert (lk ∉ SKIPPED_KEYS).
  { apply not_SKIPPED_of_strip. by rewrite Hstrip. }
  split_and!; eauto.
Qed.

(** X9.  The generator of a constructed loader yields one item per key, in
    the order of the keys, and the labels of an item are those of its own
    case: both are read under one label key of the label files whose part
    before [_bin] is the case key the two images are read under. *)
Theorem get_generator_labels_of_case fs mi fi ml fl (hmi hfi hml hfl : H5File)
    seed shuffle index_start index_end L g :
  fs !! mi = Some hmi → fs !! fi = Some hfi →
  fs !! ml = Some hml → fs !! fl = Some hfl →
  H5DataLoader___init__ random_shuffle fs mi fi ml fl
    seed shuffle index_start index_end = Ok L →
  Forall2 (λ k it,
             ∃ lk, strip lk = k ∧
                   hmi !! k = Some (moving_image it) ∧
                   hfi !! k = Some (fixed_image it) ∧
                   hml !! lk = Some (moving_label it) ∧
                   hfl !! lk = Some (fixed_label it))
    (keys L) (get_generator rng randrange F32 float32 fs L g).1.1.
Proof.
  intros Hmi Hfi Hml Hfl HL.
  eapply Forall2_impl;
    [exact (get_generator_items _ _ _ _ _ _ _ _ _ _ _ _ _ _ g
              Hmi Hfi Hml Hfl HL)|].
  intros k it (lk & _ & Hlk & ? & ? & ? & ?). simpl.
  apply list_elem_of_filter in Hlk as [Hstrip _]. by exists lk.
Qed.
End generator_more.

(** *** On the concrete files *)

Lemma get_image_label_key_dict_labels_witness :
  ∃ d, get_image_label_key_dict fs_paired
         "moving_images.h5" "moving_labels.h5" = Ok d ∧
       (∀ k, k ∉ h5_keys moving_images → dict_get d k = None) ∧
       (∀ k, k ∈ h5_keys moving_images →
             ∃ v, dict_get d k = Some v ∧ v ≠ [] ∧
                  StronglySorted str_le v ∧ NoDup v ∧ sorted v = v ∧
                  ∀ l, l ∈ v ↔ l ∈ h5_keys moving_labels ∧ strip l = k).
Proof.
  eexists. split; [vm_compute; reflexivity|].
  apply (get_image_label_key_dict_labels fs_paired
           "moving_images.h5" "moving_labels.h5"
           moving_images moving_labels); reflexivity.
Defined.

Lemma init_moving_cases_in_fixed_witness :
  ∃ L, H5DataLoader___init__ shuffle_reverse fs_paired
         "moving_images.h5" "fixed_images.h5"
         "moving_labels.h5" "fixed_labels.h5" 7 true 0 2 = Ok L ∧
       ∀ k, k ∈ h5_keys moving_images →
            k ∈ h5_keys fixed_images ∧
            labels_of moving_labels k = labels_of fixed_labels k ∧
            dict_get (key_dict L) k = Some (labels_of moving_labels k).
Proof.
  eexists. split; [vm_compute; reflexivity|].
  apply (init_moving_cases_in_fixed shuffle_reverse fs_paired
           "moving_images.h5" "fixed_images.h5"
           "moving_labels.h5" "fixed_labels.h5"
           moving_images fixed_images moving_labels fixed_labels 7 true 0 2);
    reflexivity.
Defined.

Lemma init_keys_cases_witness :
  ∃ L, H5DataLoader___init__ shuffle_reverse fs_paired
         "moving_images.h5" "fixed_images.h5"
         "moving_labels.h5" "fixed_labels.h5" 7 true 1 2 = Ok L ∧
       NoDup (keys L) ∧
       (∀ k, k ∈ keys L → k ∈ h5_keys moving_images) ∧
       ((0 ≤ 2)%Z → length (keys L) = Z.to_nat (2 - 1)).
Proof.
  eexists. split; [vm_compute; reflexivity|].
  apply (init_keys_cases shuffle_reverse shuffle_reverse_Permutation fs_paired
           "moving_images.h5" "fixed_images.h5"
           "moving_labels.h5" "fixed_labels.h5"
           moving_images 7 true 1 2); reflexivity.
Defined.

Lemma init_split_witness :
  ∃ L1 L2,
    H5DataLoader___init__ shuffle_reverse fs_paired
      "moving_images.h5" "fixed_images.h5"
      "moving_labels.h5" "fixed_labels.h5" 7 true 0 1 = Ok L1 ∧
    H5DataLoader___init__ shuffle_reverse fs_paired
      "moving_images.h5" "fixed_images.h5"
      "moving_labels.h5" "fixed_labels.h5" 7 true 1
      (Z.of_nat (length (h5_keys moving_images))) = Ok L2 ∧
    keys L1 ++ keys L2 = shuffle_reverse 7 (sorted (h5_keys moving_images)) ∧
    (∀ key, key ∈ h5_keys moving_images ↔ key ∈ keys L1 ∨ key ∈ keys L2) ∧
    (∀ key, key ∈ keys L1 → key ∉ keys L2).
Proof.
  eexists _, _. split; [vm_compute; reflexivity|].
  split; [vm_compute; reflexivity|].
  apply (init_split shuffle_reverse shuffle_reverse_Permutation fs_paired
           "moving_images.h5" "fixed_images.h5"
           "moving_labels.h5" "fixed_labels.h5"
           moving_images 7 true 1); reflexivity.
Defined.

Lemma init_keys_unshuffled_sorted_witness :
  ∃ L, H5DataLoader___init__ shuffle_reverse fs_paired
         "moving_images.h5" "fixed_images.h5"
         "moving_labels.h5" "fixed_labels.h5" 7 false 0 2 = Ok L ∧
       StronglySorted str_le (keys L).
Proof.
  eexists. split; [vm_compute; reflexivity|].
  apply (init_keys_unshuffled_sorted shuffle_reverse fs_paired
           "moving_images.h5" "fixed_images.h5"
           "moving_labels.h5" "fixed_labels.h5" 7 0 2); reflexivity.
Defined.

Lemma get_generator_shapes_witness :
  ∃ L, H5DataLoader___init__ shuffle_reverse fs_paired
         "moving_images.h5" "fixed_images.h5"
         "moving_labels.h5" "fixed_labels.h5" 7 true 0 2 = Ok L ∧
       Forall (λ it,
                 ds_shape (moving_image it) = moving_image_shape L ∧
                 ds_shape (moving_label it) = moving_image_shape L ∧
                 ds_shape (fixed_image it) = fixed_image_shape L ∧
                 ds_shape (fixed_label it) = fixed_image_shape L)
         (get_generator nat draw_mod Q float32_Q fs_paired L 5).1.1.
Proof.
  eexists. split; [vm_compute; reflexivity|].
  apply (get_generator_shapes shuffle_reverse shuffle_reverse_Permutation
           nat draw_mod draw_mod_lt Q float32_Q fs_paired
           "moving_images.h5" "fixed_images.h5"
           "moving_labels.h5" "fixed_labels.h5"
           moving_images fixed_images moving_labels fixed_labels 7 true 0 2);
    reflexivity.
Defined.

Lemma get_generator_labels_of_case_witness :
  ∃ L, H5DataLoader___init__ shuffle_reverse fs_paired
         "moving_images.h5" "fixed_images.h5"
         "moving_labels.h5" "fixed_labels.h5" 7 true 0 2 = Ok L ∧
       Forall2 (λ k it,
                  ∃ lk, strip lk = k ∧
                        moving_images !! k = Some (moving_image it) ∧
                        fixed_images !! k = Some (fixed_image it) ∧
                        moving_labels !! lk = Some (moving_label it) ∧
                        fixed_labels !! lk = Some (fixed_label it))
         (keys L) (get_generator nat draw_mod Q float32_Q fs_paired L 5).1.1.
Proof.
  eexists. split; [vm_compute; reflexivity|].
  apply (get_generator_labels_of_case
           shuffle_reverse shuffle_reverse_Permutation
           nat draw_mod draw_mod_lt Q float32_Q fs_paired
           "moving_images.h5" "fixed_images.h5"
           "moving_labels.h5" "fixed_labels.h5"
           moving_images fixed_images moving_labels fixed_labels 7 true 0 2);
    reflexivity.
Defined.

Lemma same_dict_loop_complete ks (md fd : dict (list string)) :
  (∀ k, k ∈ ks → ∃ v, dict_get md k = Some v ∧ dict_get fd k = Some v) →
  same_dict_loop ks md fd = Ok tt.
Proof.
  induction ks as [|k ks IH]; intros Hall; simpl; [done|].
  destruct (Hall k) as (v & -> & ->); [by left|]. simpl.
  unfold assert. rewrite decide_True by done. simpl.
  apply IH. intros k' Hk'. apply Hall. by right.
Qed.

Lemma get_image_shape_complete fs filename (hf : H5File) sh :
  fs !! filename = Some hf → has_volume hf → uniform_shape hf sh →
  get_image_shape fs filename = Ok sh.
Proof.
  intros Hhf (k & Hk & Hskip) [Hlen Hall].
  destruct (sorted (filter (λ k, k ∉ SKIPPED_KEYS) (h5_keys hf)))
    as [|k0 ks] eqn:Hks.
  { assert (k ∈ sorted (filter (λ k, k ∉ SKIPPED_KEYS) (h5_keys hf)))
      as Hin by (by apply elem_of_sorted_2, list_elem_of_filter).
    rewrite Hks in Hin. by apply elem_of_nil in Hin. }
  assert (∀ k, k ∈ k0 :: ks ↔ k ∈ h5_keys hf ∧ k ∉ SKIPPED_KEYS) as Hmem.
  { intros k'. rewrite <-Hks, elem_of_sorted, list_elem_of_filter. tauto. }
  destruct (proj1 (Hmem k0)) as [Hin0 Hskip0]; [by left|].
  apply elem_of_h5_keys in Hin0 as [d0 Hd0].
  rewrite (get_image_shape_unfold _ _ _ _ _ _ Hhf Hks Hd0),
    (Hall _ _ Hd0 Hskip0).
  unfold assert. rewrite decide_True by done. rewrite result_bind_Ok.
  rewrite shape_loop_all; [done|].
  intros k' Hk'. apply Hmem in Hk' as [Hin' Hs].
  apply elem_of_h5_keys in Hin' as [d Hd]. exists d.
  split; [done|]. by apply (Hall _ _ Hd).
Qed.

Lemma get_image_shape_nonempty fs filename (hf : H5File) sh :
  fs !! filename = Some hf → get_image_shape fs filename = Ok sh →
  h5_keys hf ≠ [].
Proof.
  intros Hhf Hsh Hnil. unfold get_image_shape, h5py_File in Hsh.
  rewrite Hhf in Hsh. change (or_raise OSError (Some hf)) with (Ok hf) in Hsh.
  rewrite result_bind_Ok in Hsh. cbv zeta in Hsh. rewrite Hnil in Hsh.
  discriminate Hsh.
Qed.

Lemma pair_matches_has_volume (img lbl : H5File) :
  pair_matches img lbl → h5_keys img ≠ [] → has_volume img ∧ has_volume lbl.
Proof.
  intros [_ Hsup] Hne.
  destruct (h5_keys img) as [|k ks] eqn:Hks; [done|].
  destruct (Hsup k) as (l & Hl & Hskip & Hlk); [by left|].
  split.
  - exists k. split; [rewrite Hks; by left|]. by rewrite <-Hlk.
  - exists l. split; [done|]. intros Hin. apply Hskip.
    by rewrite strip_SKIPPED.
Qed.

Section init_iff.
Variable random_shuffle : Z → list string → list string.

(** X19.  When [H5DataLoader] can be constructed.  On four files that
    exist, construction succeeds exactly when both pairs of files pass the
    key check, there is a case, every case of the moving files is a case of
    the fixed files with the same label keys, the moving files share one
    shape of three dimensions and so do the fixed files, and
    [0 <= index_start] and [index_end <=] the number of cases.  Neither the
    seed nor the shuffle flag matters, and [index_start] may exceed
    [index_end]. *)
Theorem init_succeeds_iff fs mi fi ml fl (hmi hfi hml hfl : H5File)
    seed shuffle index_start index_end :
  fs !! mi = Some hmi → fs !! fi = Some hfi →
  fs !! ml = Some hml → fs !! fl = Some hfl →
  (∃ L, H5DataLoader___init__ random_shuffle fs mi fi ml fl
          seed shuffle index_start index_end = Ok L) ↔
  pair_matches hmi hml ∧ pair_matches hfi hfl ∧
  h5_keys hmi ≠ [] ∧
  (∀ k, k ∈ h5_keys hmi →
        k ∈ h5_keys hfi ∧ labels_of hml k = labels_of hfl k) ∧
  (∃ shm, uniform_shape hmi shm ∧ uniform_shape hml shm) ∧
  (∃ shf, uniform_shape hfi shf ∧ uniform_shape hfl shf) ∧
  (0 ≤ index_start)%Z ∧ (index_end ≤ Z.of_nat (length (h5_keys hmi)))%Z.
Proof.
  intros Hmi Hfi Hml Hfl. split.
  - intros [L HL].
    apply init_Ok in HL as (d & shm & shf & Hc & Hs & He & ->).
    apply sanity_checks_Ok in Hc
      as (Hd & (fd & Hfd & Hsame) & Hsmi & Hsml & Hsfi & Hsfl).
    destruct (get_image_label_key_dict_Ok _ _ _ _ Hd)
      as (? & ? & ? & ? & Hpm & _). simplify_eq.
    destruct (get_image_label_key_dict_Ok _ _ _ _ Hfd)
      as (? & ? & ? & ? & Hpf & _). simplify_eq.
    pose proof (Permutation_length (dict_keys_cases _ _ _ _ _ Hd Hmi)) as Hlen.
    split_and!; [done|done|by eapply get_image_shape_nonempty| |
                 | |done|lia].
    + intros k Hk.
      pose proof (get_image_label_key_dict_get _ _ _ _ _ _ k Hmi Hml Hd)
        as Hdk.
      pose proof (get_image_label_key_dict_get _ _ _ _ _ _ k Hfi Hfl Hfd)
        as Hfk.
      rewrite decide_True in Hdk by done.
      destruct (same_dict_loop_Ok _ _ _ Hsame k) as (v & Hv & Hv').
      { by eapply dict_get_Some_keys. }
      rewrite Hv in Hdk. rewrite Hv' in Hfk.
      destruct (decide (k ∈ h5_keys hfi)); [|done].
      split; [done|congruence].
    + exists shm. split; by eapply get_image_shape_Ok.
    + exists shf. split; by eapply get_image_shape_Ok.
  - intros (Hpm & Hpf & Hne & Hcases & (shm & Hum & Huml)
            & (shf & Huf & Hufl) & Hs & He).
    destruct (get_image_label_key_dict_spec _ _ _ _ _ Hmi Hml)
      as [(_ & d & Hd & _)|[Hn _]]; [|done].
    destruct (get_image_label_key_dict_spec _ _ _ _ _ Hfi Hfl)
      as [(_ & fd & Hfd & _)|[Hn _]]; [|done].
    pose proof (dict_keys_cases _ _ _ _ _ Hd Hmi) as Hperm.
    destruct (pair_matches_has_volume _ _ Hpm Hne) as [Hvmi Hvml].
    assert (h5_keys hfi ≠ []) as Hnef.
    { destruct (h5_keys hmi) as [|k ks] eqn:Hks; [done|].
      destruct (Hcases k) as [Hin _]; [by left|].
      intros Hnil. rewrite Hnil in Hin. by apply elem_of_nil in Hin. }
    destruct (pair_matches_has_volume _ _ Hpf Hnef) as [Hvfi Hvfl].
    eexists. apply init_Ok. exists d, shm, shf.
    split_and!; [|done|by rewrite (Permutation_length Hperm)|done].
    apply sanity_checks_Ok.
    split_and!; [done| |by eapply get_image_shape_complete..].
    exists fd. split; [done|]. apply same_dict_loop_complete.
    intros k Hk. rewrite Hperm in Hk. destruct (Hcases k Hk) as [Hkf Heq].
    exists (labels_of hml k).
    rewrite (get_image_label_key_dict_get _ _ _ _ _ _ k Hmi Hml Hd),
      (get_image_label_key_dict_get _ _ _ _ _ _ k Hfi Hfl Hfd).
    rewrite !decide_True by done. by rewrite Heq.
Qed.
End init_iff.

Lemma init_succeeds_iff_witness :
  fs_paired !! "moving_images.h5" = Some moving_images ∧
  fs_paired !! "fixed_images.h5" = Some fixed_images ∧
  fs_paired !! "moving_labels.h5" = Some moving_labels ∧
  fs_paired !! "fixed_labels.h5" = Some fixed_labels ∧
  (∃ L, H5DataLoader___init__ shuffle_reverse fs_paired
          "moving_images.h5" "fixed_images.h5"
          "moving_labels.h5" "fixed_labels.h5" 7 true 0 2 = Ok L) ∧
  pair_matches moving_images moving_labels ∧
  pair_matches fixed_images fixed_labels ∧
  h5_keys moving_images ≠ [] ∧
  (∀ k, k ∈ h5_keys moving_images →
        k ∈ h5_keys fixed_images ∧
        labels_of moving_labels k = labels_of fixed_labels k) ∧
  (∃ shm, uniform_shape moving_images shm ∧ uniform_shape moving_labels shm) ∧
  (∃ shf, uniform_shape fixed_images shf ∧ uniform_shape fixed_labels shf) ∧
  (0 ≤ 0)%Z ∧ (2 ≤ Z.of_nat (length (h5_keys moving_images)))%Z.
Proof.
  do 4 (split; [reflexivity|]).
  split; [eexists; vm_compute; reflexivity|].
  apply (init_succeeds_iff shuffle_reverse fs_paired
           "moving_images.h5" "fixed_images.h5"
           "moving_labels.h5" "fixed_labels.h5"
           moving_images fixed_images moving_labels fixed_labels 7 true 0 2);
    [reflexivity..|].
  eexists; vm_compute; reflexivity.
Defined.

End LoaderH5More.

(** ** Tensors *)

Module TensorFacts.
Import tf TensorSpec.

Lemma numel_cons d sh : numel (d :: sh) = d * numel sh.
Proof. done. Qed.

Lemma length_unravel sh k : length (unravel sh k) = length sh.
Proof. revert k. induction sh as [|d sh IH]; intros k; simpl; auto. Qed.

Lemma ravel_lt idx sh : in_range idx sh → ravel sh idx < numel sh.
Proof.
  induction 1 as [|i d idx sh Hi _ IH]; simpl; [lia|].
  fold (numel sh). nia.
Qed.

Lemma unravel_ravel idx sh : in_range idx sh → unravel sh (ravel sh idx) = idx.
Proof.
  induction 1 as [|i d idx sh Hi Hr IH]; simpl; [done|].
  fold (numel sh). pose proof (ravel_lt _ _ Hr) as Hlt.
  rewrite Nat.div_add_l, Nat.div_small, Nat.add_0_r by lia.
  rewrite Nat.add_comm, Nat.Div0.mod_add, Nat.mod_small by lia.
  by rewrite IH.
Qed.

Lemma unravel_in_range sh k : k < numel sh → in_range (unravel sh k) sh.
Proof.
  revert k. induction sh as [|d sh IH]; intros k Hk; simpl; [constructor|].
  rewrite numel_cons in Hk.
  assert (numel sh ≠ 0) by (intros Hz; rewrite Hz in Hk; lia).
  constructor.
  - apply Nat.Div0.div_lt_upper_bound. lia.
  - apply IH. by apply Nat.mod_upper_bound.
Qed.

Lemma ravel_unravel sh k : k < numel sh → ravel sh (unravel sh k) = k.
Proof.
  revert k. induction sh as [|d sh IH]; intros k Hk; simpl.
  - simpl in Hk. lia.
  - fold (numel sh). rewrite numel_cons in Hk.
    assert (numel sh ≠ 0) by (intros Hz; rewrite Hz in Hk; lia).
    rewrite IH by (by apply Nat.mod_upper_bound).
    pose proof (Nat.div_mod_eq k (numel sh)). lia.
Qed.

Lemma lookup_indices sh k : k < numel sh → indices sh !! k = Some (unravel sh k).
Proof.
  intros Hk. unfold indices.
  by rewrite list_lookup_fmap, lookup_seq_lt.
Qed.

Lemma length_indices sh : length (indices sh) = numel sh.
Proof. unfold indices. by rewrite length_map, length_seq. Qed.

Lemma indices_in_range sh : Forall (λ idx, in_range idx sh) (indices sh).
Proof.
  unfold indices. apply Forall_fmap, Forall_forall.
  intros k [_ Hk]%elem_of_seq. apply unravel_in_range. simpl in Hk. lia.
Qed.

Lemma numel_ones n : numel (replicate n 1) = 1.
Proof.
  induction n as [|n IH]; simpl; [done|].
  fold (numel (replicate n 1)). lia.
Qed.

Lemma unravel_ones n : unravel (replicate n 1) 0 = replicate n 0.
Proof.
  induction n as [|n IH]; simpl; [done|].
  fold (numel (replicate n 1)). rewrite numel_ones. simpl. by rewrite IH.
Qed.

Lemma ravel_zeros sh n : ravel sh (replicate n 0) = 0.
Proof.
  revert n. induction sh as [|d sh IH]; intros [|n]; simpl; done.
Qed.

Lemma zip_with_add_zeros idx :
  zip_with Nat.add (replicate (length idx) 0) idx = idx.
Proof. induction idx as [|i idx IH]; simpl; [done|]. by rewrite IH. Qed.

Lemma nth_fmap_seq {A} (f : nat → A) n i d :
  i < n → nth i (f <$> seq 0 n) d = f i.
Proof.
  intros Hi. apply nth_lookup_Some.
  by rewrite list_lookup_fmap, lookup_seq_lt.
Qed.

(** The shapes of a reduction over all axes but the first. *)
Lemma kept_shape_nonbatch b rest :
  kept_shape (seq 1 (length rest)) (b :: rest) = b :: replicate (length rest) 1.
Proof.
  unfold kept_shape. simpl. rewrite decide_False; cycle 1.
  { intros [? _]%elem_of_seq. lia. }
  f_equal. apply list_eq. intros j.
  rewrite list_lookup_imap.
  destruct (rest !! j) as [d|] eqn:Hj; simpl.
  - pose proof (lookup_lt_Some _ _ _ Hj).
    rewrite decide_True by (apply elem_of_seq; lia).
    symmetry. by apply lookup_replicate_2.
  - apply lookup_ge_None in Hj. symmetry. apply lookup_replicate_None. lia.
Qed.

Lemma reduced_shape_nonbatch b rest :
  reduced_shape (seq 1 (length rest)) (b :: rest) = 1 :: rest.
Proof.
  unfold reduced_shape. simpl. rewrite decide_False; cycle 1.
  { intros [? _]%elem_of_seq. lia. }
  f_equal. apply list_eq. intros j. rewrite list_lookup_imap.
  destruct (rest !! j) as [d|] eqn:Hj; simpl; [|done].
  pose proof (lookup_lt_Some _ _ _ Hj).
  by rewrite decide_True by (apply elem_of_seq; lia).
Qed.

Lemma filter_none {A} (P : A → Prop) `{∀ x, Decision (P x)} (l : list A) :
  Forall (λ x, ¬ P x) l → filter P l = [].
Proof. induction 1; [done|]. by rewrite filter_cons_False. Qed.

Lemma squeezed_shape_nonbatch b rest :
  squeezed_shape (seq 1 (length rest)) (b :: rest) = [b].
Proof.
  unfold squeezed_shape. simpl. rewrite filter_cons_True; cycle 1.
  { simpl. intros [? _]%elem_of_seq. lia. }
  simpl. f_equal.
  rewrite filter_none; [done|].
  apply Forall_forall. intros [j d] Hin Hni.
  apply list_elem_of_lookup in Hin as [i Hi].
  rewrite list_lookup_imap in Hi.
  destruct (rest !! i) eqn:Hri; simpl in Hi; [|done].
  injection Hi as <- <-. apply Hni. simpl.
  pose proof (lookup_lt_Some _ _ _ Hri). apply elem_of_seq. lia.
Qed.

Lemma normalize_axes_nat rank (axes : list nat) :
  Forall (λ a, a < rank) axes →
  normalize_axes rank (Z.of_nat <$> axes) = Ok axes.
Proof.
  induction 1 as [|a axes Ha _ IH]; [done|].
  rewrite fmap_cons. cbn [normalize_axes].
  unfold normalize_axis. rewrite decide_True by lia.
  rewrite IH. simpl. by rewrite Nat2Z.id.
Qed.

Section tensor_facts.
Context {F : Type} `{FloatOps F}.
Implicit Types (t a c : Tensor F) (sh rest idx : list nat) (G : nat → F).

Lemma get_init sh (f : list nat → F) idx :
  in_range idx sh → get (init sh f) idx = f idx.
Proof.
  intros Hr. unfold get, init. simpl. apply nth_lookup_Some.
  rewrite list_lookup_fmap, lookup_indices by (by apply ravel_lt).
  simpl. by rewrite unravel_ravel.
Qed.

Lemma wf_init sh (f : list nat → F) : wf (init sh f).
Proof. unfold wf, init. simpl. by rewrite length_map, length_indices. Qed.

Lemma length_item t i : length (item t i) = numel (tail (shape t)).
Proof. unfold item. by rewrite length_map, length_indices. Qed.

Lemma item_init b rest (f : list nat → F) i :
  i < b →
  item (init (b :: rest) f) i = map (λ idx, f (i :: idx)) (indices rest).
Proof.
  intros Hi. unfold item. simpl. apply Forall_fmap_ext.
  eapply Forall_impl; [apply indices_in_range|].
  intros idx Hr. simpl. apply get_init. by constructor.
Qed.

Lemma vec_ext b G G' : (∀ i, i < b → G i = G' i) → vec b G = vec b G'.
Proof.
  intros Hext. unfold vec. f_equal. apply Forall_fmap_ext, Forall_forall.
  intros i [_ Hi]%elem_of_seq. apply Hext. simpl in Hi. lia.
Qed.

Lemma col_ext b n G G' : (∀ i, i < b → G i = G' i) → col b n G = col b n G'.
Proof.
  intros Hext. unfold col. f_equal. apply Forall_fmap_ext, Forall_forall.
  intros i [_ Hi]%elem_of_seq. apply Hext. simpl in Hi. lia.
Qed.

Lemma get_vec b G i : i < b → get (vec b G) [i] = G i.
Proof.
  intros Hi. unfold get, vec. simpl.
  rewrite Nat.mul_1_r, Nat.add_0_r. by apply nth_fmap_seq.
Qed.

Lemma get_col_zeros b n G i :
  i < b → get (col b n G) (i :: replicate n 0) = G i.
Proof.
  intros Hi. unfold get, col. simpl. fold (numel (replicate n 1)).
  rewrite numel_ones, ravel_zeros, Nat.mul_1_r, Nat.add_0_r.
  by apply nth_fmap_seq.
Qed.

Lemma indices_vec b : indices [b] = (λ k, [k]) <$> seq 0 b.
Proof.
  unfold indices. change (numel [b]) with (b * 1). rewrite Nat.mul_1_r.
  apply Forall_fmap_ext, Forall_forall. intros k _.
  change (unravel [b] k) with [k / 1]. by rewrite Nat.div_1_r.
Qed.

Lemma indices_col b n :
  indices (b :: replicate n 1) = (λ k, k :: replicate n 0) <$> seq 0 b.
Proof.
  unfold indices. rewrite numel_cons, numel_ones, Nat.mul_1_r.
  apply Forall_fmap_ext, Forall_forall. intros k _.
  change (unravel (b :: replicate n 1) k)
    with (k / numel (replicate n 1)
          :: unravel (replicate n 1) (k mod numel (replicate n 1))).
  by rewrite numel_ones, Nat.div_1_r, Nat.mod_1_r, unravel_ones.
Qed.

Lemma indices_leading_one rest :
  indices (1 :: rest) = (λ idx, 0 :: idx) <$> indices rest.
Proof.
  unfold indices. rewrite numel_cons, Nat.mul_1_l, <-list_fmap_compose.
  apply Forall_fmap_ext, Forall_forall. intros k [_ Hk]%elem_of_seq.
  change (unravel (1 :: rest) k)
    with (k / numel rest :: unravel rest (k mod numel rest)).
  simpl in Hk. by rewrite Nat.div_small, Nat.mod_small by lia.
Qed.

(** A reduction over all axes but the first, item by item. *)
Lemma reduce_nonbatch (finish : F → nat → F) t b rest keepdims :
  shape t = b :: rest →
  reduce finish t (seq 1 (length rest)) keepdims =
  (if keepdims then col b (length rest) else vec b)
    (λ i, finish (fsum (item t i)) (numel rest)).
Proof.
  intros Hsh. unfold reduce. rewrite Hsh.
  rewrite kept_shape_nonbatch, reduced_shape_nonbatch,
    squeezed_shape_nonbatch.
  assert (data (init (b :: replicate (length rest) 1)
            (λ o, finish (fsum (map (λ r, get t (zip_with Nat.add o r))
                                  (indices (1 :: rest))))
                         (numel (1 :: rest))))
          = (λ i, finish (fsum (item t i)) (numel rest)) <$> seq 0 b) as Hdata.
  { unfold init. simpl data. rewrite indices_col, <-list_fmap_compose.
    apply Forall_fmap_ext, Forall_forall. intros i _. simpl.
    fold (numel rest). rewrite Nat.add_0_r. f_equal. f_equal.
    unfold item. rewrite Hsh. simpl tail.
    rewrite indices_leading_one, <-list_fmap_compose.
    apply Forall_fmap_ext. eapply Forall_impl; [apply indices_in_range|].
    intros idx Hr. simpl. rewrite Nat.add_0_r.
    rewrite <-(Forall2_length _ _ _ Hr). by rewrite zip_with_add_zeros. }
  destruct keepdims.
  - unfold col. rewrite <-Hdata. done.
  - unfold vec. rewrite <-Hdata. done.
Qed.

Lemma reduce_mean_nonbatch t b rest keepdims :
  shape t = b :: rest →
  reduce_mean t (Some (Z.of_nat <$> seq 1 (length rest))) keepdims =
  Ok ((if keepdims then col b (length rest) else vec b)
        (λ i, mean (item t i))).
Proof.
  intros Hsh. unfold reduce_mean, reduce_over.
  rewrite normalize_axes_nat; cycle 1.
  { apply Forall_forall. intros a [? ?]%elem_of_seq. rewrite Hsh. simpl. lia. }
  simpl. rewrite (reduce_nonbatch _ _ _ _ _ Hsh). f_equal.
  destruct keepdims; [apply col_ext|apply vec_ext]; intros i _;
    unfold mean; by rewrite length_item, Hsh.
Qed.
End tensor_facts.

Lemma broadcast_rev_same sh : broadcast_rev sh sh = Some sh.
Proof.
  induction sh as [|d sh IH]; simpl; [done|].
  rewrite decide_True by done. by rewrite IH.
Qed.

Lemma broadcast_rev_ones l b :
  broadcast_rev (l ++ [b]) (replicate (length l) 1 ++ [b]) = Some (l ++ [b]).
Proof.
  induction l as [|d l IH]; simpl.
  - by rewrite decide_True.
  - destruct (decide (d = 1)) as [->|Hd]; by rewrite IH.
Qed.

Lemma broadcast_shape_same sh : broadcast_shape sh sh = Some sh.
Proof.
  unfold broadcast_shape. rewrite broadcast_rev_same. simpl.
  by rewrite reverse_involutive.
Qed.

Lemma broadcast_shape_col b rest :
  broadcast_shape (b :: rest) (b :: replicate (length rest) 1)
  = Some (b :: rest).
Proof.
  unfold broadcast_shape. rewrite !reverse_cons, reverse_replicate.
  rewrite <-(length_reverse rest), broadcast_rev_ones. simpl.
  by rewrite reverse_app, reverse_involutive.
Qed.

Lemma broadcast_shape_scalar sh : broadcast_shape sh [] = Some sh.
Proof.
  unfold broadcast_shape. rewrite reverse_nil.
  destruct (reverse sh) eqn:Hr; simpl; rewrite <-Hr;
    by rewrite reverse_involutive.
Qed.

Lemma broadcast_index_same idx sh :
  in_range idx sh → broadcast_index sh idx = idx.
Proof.
  intros Hr. unfold broadcast_index.
  rewrite (Forall2_length _ _ _ Hr), Nat.sub_diag, drop_0.
  induction Hr as [|i d idx sh Hi _ IH]; simpl; [done|].
  rewrite IH. destruct (decide (d = 1)); [f_equal; lia|done].
Qed.

Lemma broadcast_index_col b rest i idx :
  in_range (i :: idx) (b :: rest) →
  broadcast_index (b :: replicate (length rest) 1) (i :: idx)
  = i :: replicate (length rest) 0.
Proof.
  intros Hr. apply Forall2_cons in Hr as [Hi Hr].
  unfold broadcast_index. simpl length.
  rewrite length_replicate, (Forall2_length _ _ _ Hr), Nat.sub_diag, drop_0.
  simpl.
  f_equal; [destruct (decide (b = 1)); [lia|done]|].
  clear Hi. induction Hr as [|j d idx rest _ _ IH]; simpl; [done|].
  by rewrite IH.
Qed.

Section broadcast_facts.
Context {F : Type} `{FloatOps F}.
Implicit Types (t a c : Tensor F) (sh rest idx : list nat) (G : nat → F).

Lemma get_constant (x : F) : get (constant x) [] = x.
Proof. done. Qed.

(** A tensor against one value per batch item. *)
Lemma broadcast2_col (op : F → F → F) a b rest G :
  shape a = b :: rest →
  ∃ r, broadcast2 op a (col b (length rest) G) = Ok r ∧
       shape r = b :: rest ∧ wf r ∧
       ∀ i, i < b → item r i = map (λ x, op x (G i)) (item a i).
Proof.
  intros Hsh. unfold broadcast2. rewrite Hsh. simpl shape.
  rewrite broadcast_shape_col. simpl.
  eexists. split_and!; [done|done|apply wf_init|].
  intros i Hi. rewrite item_init by done.
  unfold item. rewrite Hsh. simpl tail. rewrite <-list_fmap_compose.
  apply Forall_fmap_ext. eapply Forall_impl; [apply indices_in_range|].
  intros idx Hr. simpl.
  assert (in_range (i :: idx) (b :: rest)) as Hr' by (by constructor).
  rewrite (broadcast_index_same _ _ Hr'), (broadcast_index_col _ _ _ _ Hr').
  by rewrite get_col_zeros.
Qed.

(** Two tensors of one shape. *)
Lemma broadcast2_same (op : F → F → F) a c b rest :
  shape a = b :: rest → shape c = b :: rest →
  ∃ r, broadcast2 op a c = Ok r ∧
       shape r = b :: rest ∧ wf r ∧
       ∀ i, i < b → item r i = zip_with op (item a i) (item c i).
Proof.
  intros Ha Hc. unfold broadcast2. rewrite Ha, Hc.
  rewrite broadcast_shape_same. simpl.
  eexists. split_and!; [done|done|apply wf_init|].
  intros i Hi. rewrite item_init by done.
  unfold item. rewrite Ha, Hc. simpl tail.
  rewrite zip_with_fmap_l, zip_with_fmap_r, zip_with_diag.
  apply Forall_fmap_ext. eapply Forall_impl; [apply indices_in_range|].
  intros idx Hr. simpl.
  assert (in_range (i :: idx) (b :: rest)) as Hr' by (by constructor).
  by rewrite (broadcast_index_same _ _ Hr').
Qed.

Lemma item_map_elements (f : F → F) t b rest i :
  wf t → shape t = b :: rest → i < b →
  item (map_elements f t) i = map f (item t i).
Proof.
  intros Hwf Hsh Hi. unfold item. simpl shape. rewrite Hsh. simpl tail.
  rewrite <-list_fmap_compose.
  apply Forall_fmap_ext. eapply Forall_impl; [apply indices_in_range|].
  intros idx Hr. simpl. unfold get. simpl shape. simpl data.
  assert (ravel (shape t) (i :: idx) < length (data t)) as Hlt.
  { rewrite Hwf, Hsh. apply ravel_lt. by constructor. }
  rewrite (nth_indep _ _ (f (of_Q 0))) by (by rewrite length_map).
  apply map_nth.
Qed.

Lemma map_elements_vec (f : F → F) b G :
  map_elements f (vec b G) = vec b (λ i, f (G i)).
Proof. unfold map_elements, vec. simpl. by rewrite <-list_fmap_compose. Qed.

Lemma broadcast2_vec (op : F → F → F) b G1 G2 :
  broadcast2 op (vec b G1) (vec b G2) = Ok (vec b (λ i, op (G1 i) (G2 i))).
Proof.
  unfold broadcast2. simpl shape. rewrite broadcast_shape_same. simpl.
  f_equal. unfold init, vec. f_equal.
  rewrite indices_vec, <-list_fmap_compose.
  apply Forall_fmap_ext, Forall_forall. intros i [_ Hi]%elem_of_seq.
  simpl in Hi. simpl.
  assert (in_range [i] [b]) as Hr by (repeat constructor; lia).
  rewrite (broadcast_index_same _ _ Hr).
  pose proof (get_vec b G1 i Hi) as E1. pose proof (get_vec b G2 i Hi) as E2.
  unfold vec in E1, E2. by rewrite E1, E2.
Qed.

Lemma broadcast2_vec_constant (op : F → F → F) b G x :
  broadcast2 op (vec b G) (constant x) = Ok (vec b (λ i, op (G i) x)).
Proof.
  unfold broadcast2. simpl shape. rewrite broadcast_shape_scalar. simpl.
  f_equal. unfold init, vec. f_equal.
  rewrite indices_vec, <-list_fmap_compose.
  apply Forall_fmap_ext, Forall_forall. intros i [_ Hi]%elem_of_seq.
  simpl in Hi. simpl.
  assert (in_range [i] [b]) as Hr by (repeat constructor; lia).
  rewrite (broadcast_index_same _ _ Hr).
  pose proof (get_vec b G i Hi) as E. unfold vec in E. by rewrite E.
Qed.

(** Flattening keeps the elements of every item. *)
Lemma item_Flatten t b rest :
  shape t = b :: rest →
  ∃ r, Flatten t = Ok r ∧ shape r = [b; numel rest] ∧
       ∀ i, item r i = item t i.
Proof.
  intros Hsh. unfold Flatten. rewrite Hsh.
  eexists. split_and!; [done|done|].
  intros i. unfold item. simpl shape. rewrite Hsh. simpl tail.
  rewrite indices_vec. unfold indices. rewrite <-!list_fmap_compose.
  apply Forall_fmap_ext, Forall_forall. intros k [_ Hk]%elem_of_seq.
  simpl in Hk. simpl. unfold get. simpl shape. simpl data. rewrite Hsh.
  f_equal. simpl. fold (numel rest).
  rewrite ravel_unravel by lia. lia.
Qed.
End broadcast_facts.

End TensorFacts.
(** ** The losses *)

Module ImageFacts.
Import tf Image TensorSpec ImageSpec TensorFacts Examples.

Section loss_facts.
Context {F : Type} `{FloatOps F}.
Implicit Types (y_true y_pred t : Tensor F) (rest : list nat).

(** What [SumSquaredDifference.call] computes: for every batch item the
    mean, not the sum, of the squared differences. *)
Lemma SumSquaredDifference_call_mean y_true y_pred b rest :
  shape y_true = b :: rest → shape y_pred = b :: rest →
  SumSquaredDifference_call y_true y_pred =
  Ok (vec b (λ i, ssd_mean (item y_true i) (item y_pred i))).
Proof.
  intros Ht Hp. unfold SumSquaredDifference_call, math_squared_difference.
  destruct (broadcast2_same (λ x y, fmul (fsub x y) (fsub x y))
              _ _ _ _ Ht Hp) as (r & -> & Hr & _ & Hitem).
  rewrite result_bind_Ok.
  destruct (item_Flatten _ _ _ Hr) as (r' & -> & Hr' & Hitem').
  rewrite result_bind_Ok.
  change (Some [1%Z]) with (Some (Z.of_nat <$> seq 1 (length [numel rest]))).
  rewrite (reduce_mean_nonbatch r' b [numel rest] false Hr'). f_equal.
  apply vec_ext. intros i Hi. by rewrite Hitem', Hitem.
Qed.

Lemma math_reduce_variance_nonbatch t b rest :
  shape t = b :: rest →
  math_reduce_variance t (Some (Z.of_nat <$> seq 1 (length rest))) =
  Ok (vec b (λ i, variance (item t i))).
Proof.
  intros Ht. unfold math_reduce_variance.
  rewrite (reduce_mean_nonbatch _ _ _ true Ht), result_bind_Ok.
  destruct (broadcast2_col fsub t b rest (λ i, mean (item t i)) Ht)
    as (r & Hr & Hsh & Hwf & Hitem).
  unfold subtract. rewrite Hr, result_bind_Ok.
  rewrite (reduce_mean_nonbatch (math_square r) b rest false Hsh). f_equal.
  apply vec_ext. intros i Hi. unfold variance, math_square.
  rewrite (item_map_elements _ _ _ _ _ Hwf Hsh Hi), Hitem by done.
  by rewrite <-list_fmap_compose.
Qed.

(** C8.  On two tensors of one shape [(batch, ...)],
    [GlobalNormalizedCrossCorrelation.call] returns a tensor of shape
    [(batch,)] that holds, for every batch item,
    [(|mean((y_pred - mu_pred) * (y_true - mu_true))|^2 + eps) /
     (Var(y_pred) * Var(y_true) + eps)],
    the means and variances taken over all elements of the item and [eps]
    being the literal [1.0e-5]. *)
Theorem GlobalNormalizedCrossCorrelation_call_formula y_true y_pred b rest :
  shape y_true = b :: rest → shape y_pred = b :: rest →
  ∃ r, GlobalNormalizedCrossCorrelation_call y_true y_pred = Ok r ∧
       shape r = [b] ∧
       ∀ i, i < b → get r [i] = gncc (item y_true i) (item y_pred i).
Proof.
  intros Ht Hp. unfold GlobalNormalizedCrossCorrelation_call.
  rewrite Ht. replace (length (b :: rest) - 1) with (length rest)
    by (simpl; lia).
  rewrite (reduce_mean_nonbatch _ _ _ true Hp),
    (reduce_mean_nonbatch _ _ _ true Ht), !result_bind_Ok.
  rewrite (math_reduce_variance_nonbatch _ _ _ Hp),
    (math_reduce_variance_nonbatch _ _ _ Ht), !result_bind_Ok.
  destruct (broadcast2_col fsub y_pred b rest (λ i, mean (item y_pred i)) Hp)
    as (dp & Hdp & Hshp & _ & Hip).
  destruct (broadcast2_col fsub y_true b rest (λ i, mean (item y_true i)) Ht)
    as (dt & Hdt & Hsht & _ & Hit).
  unfold subtract. rewrite Hdp, Hdt, !result_bind_Ok.
  destruct (broadcast2_same fmul dp dt b rest Hshp Hsht)
    as (pr & Hpr & Hshpr & _ & Hipr).
  change (broadcast2 fmul dp dt) with (multiply dp dt) in Hpr.
  rewrite Hpr, result_bind_Ok.
  rewrite (reduce_mean_nonbatch _ _ _ false Hshpr), result_bind_Ok.
  unfold abs, multiply, add, divide.
  repeat rewrite ?map_elements_vec, ?broadcast2_vec,
    ?broadcast2_vec_constant, ?result_bind_Ok.
  eexists. split_and!; [done|done|].
  intros i Hi. rewrite get_vec by done. unfold gncc, EPS.
  assert (mean (item pr i) = covariance (item y_pred i) (item y_true i))
    as ->; [|done].
  unfold covariance. rewrite Hipr, Hip, Hit by done.
  by rewrite zip_with_fmap_l, zip_with_fmap_r.
Qed.
End loss_facts.

Section clip_facts.
Context {F : Type} `{FloatOps F, Transcendental F}.

(** Zero is at most one in the order of the floating-point type. *)
Hypothesis fleb_0_1 : fleb (of_Q 0) (of_Q 1) = true.

Lemma clip_value_idemp (x : F) :
  fmax (fmin (fmax (fmin x (of_Q 1)) (of_Q 0)) (of_Q 1)) (of_Q 0)
  = fmax (fmin x (of_Q 1)) (of_Q 0).
Proof.
  unfold fmax, fmin.
  destruct (fleb x (of_Q 1)) eqn:Hx1.
  - destruct (fleb x (of_Q 0)) eqn:Hx0.
    + by rewrite fleb_0_1, Tauto.if_same.
    + by rewrite Hx1, Hx0.
  - destruct (fleb (of_Q 1) (of_Q 0)) eqn:H10.
    + by rewrite fleb_0_1, Tauto.if_same.
    + by rewrite Tauto.if_same, H10.
Qed.

Lemma clip_idemp t : clip (clip t) = clip t.
Proof.
  unfold clip, clip_by_value, map_elements. simpl. f_equal.
  rewrite <-list_fmap_compose. apply Forall_fmap_ext, Forall_forall.
  intros x _. apply clip_value_idemp.
Qed.

Lemma shape_clip t : shape (clip t) = shape t.
Proof. done. Qed.

Lemma expand_dims_clip t axis :
  expand_dims (clip t) axis = clip <$> expand_dims t axis.
Proof. unfold expand_dims. simpl. by destruct (decide _). Qed.

Lemma adjust_clip y_true y_pred :
  adjust (clip y_true) (clip y_pred)
  = (λ p, (clip p.1, clip p.2)) <$> adjust y_true y_pred.
Proof.
  unfold adjust. rewrite shape_clip.
  destruct (decide (length (shape y_true) = 4)); [|done].
  rewrite !expand_dims_clip.
  destruct (expand_dims y_true 4); [|done].
  by destruct (expand_dims y_pred 4).
Qed.

(** C7.  [GlobalMutualInformation.call] clips both inputs to the interval
    from 0 to 1 before anything else looks at their elements, so its result,
    a tensor or an exception, is the same on the clipped inputs as on the
    inputs themselves. *)
Theorem GlobalMutualInformation_call_clip
    (self : GlobalMutualInformation F) (y_true y_pred : Tensor F) :
  GlobalMutualInformation_call self (clip y_true) (clip y_pred)
  = GlobalMutualInformation_call self y_true y_pred.
Proof.
  unfold GlobalMutualInformation_call. rewrite adjust_clip.
  destruct (adjust y_true y_pred) as [[a c]|e]; [|done].
  change ((λ p, (clip p.1, clip p.2)) <$> Ok (a, c))
    with (Ok (clip a, clip c)).
  rewrite !result_bind_Ok. cbv beta iota zeta.
  fold (clip (clip a)) (clip (clip c)) (clip a) (clip c).
  rewrite !clip_idemp. done.
Qed.
End clip_facts.

Section negation_facts.
Context {F : Type} `{FloatOps F, Transcendental F}.
Variable Loss_class : obj F.
Variable nn_conv3d :
  Tensor F → Tensor F → list Z → string → result (Tensor F).

(** C5.  Each registered loss is the negation of its metric: on every pair
    of inputs the loss raises what the metric raises, and when the metric
    returns a tensor the loss returns the tensor of the same shape whose
    elements are the negated elements. *)
Theorem loss_negates_metric :
  (∀ self y_true y_pred,
      GlobalMutualInformationLoss_call self y_true y_pred
      = negative <$> GlobalMutualInformation_call self y_true y_pred) ∧
  (∀ self y_true y_pred,
      LocalNormalizedCrossCorrelationLoss_call Loss_class nn_conv3d
        self y_true y_pred
      = negative <$> LocalNormalizedCrossCorrelation_call Loss_class nn_conv3d
                       self y_true y_pred) ∧
  (∀ y_true y_pred,
      GlobalNormalizedCrossCorrelationLoss_call y_true y_pred
      = negative <$> GlobalNormalizedCrossCorrelation_call y_true y_pred) ∧
  (∀ t : Tensor F,
      shape (negative t) = shape t ∧ data (negative t) = fneg <$> data t).
Proof.
  split_and!; [intros self y_true y_pred..|intros y_true y_pred|done].
  - unfold GlobalMutualInformationLoss_call, NegativeLossMixin_call.
    by destruct (GlobalMutualInformation_call _ _ _).
  - unfold LocalNormalizedCrossCorrelationLoss_call, NegativeLossMixin_call.
    by destruct (LocalNormalizedCrossCorrelation_call _ _ _ _ _).
  - unfold GlobalNormalizedCrossCorrelationLoss_call, NegativeLossMixin_call.
    by destruct (GlobalNormalizedCrossCorrelation_call _ _).
Qed.
End negation_facts.

Section lncc_facts.
Context {F : Type} `{FloatOps F}.
Variable Loss_class : obj F.
Variable Loss___init__ : string → string → obj F.

(** Neither the class [Loss] nor its initializer knows of [kernel_size],
    and the initializer leaves [kernel_fn_dict] to the class. *)
Hypothesis Loss_class_kernel_size : Loss_class !! "kernel_size" = None.
Hypothesis Loss_init_kernel_size :
  ∀ reduction name, Loss___init__ reduction name !! "kernel_size" = None.
Hypothesis Loss_init_kernel_fn_dict :
  ∀ reduction name, Loss___init__ reduction name !! "kernel_fn_dict" = None.

Lemma getattr_kernel_fn_dict reduction name :
  getattr (LocalNormalizedCrossCorrelation_class Loss_class)
    (Loss___init__ reduction name) "kernel_fn_dict"
  = Ok (VKernelFnDict kernel_fn_dict).
Proof.
  unfold getattr. rewrite Loss_init_kernel_fn_dict.
  unfold LocalNormalizedCrossCorrelation_class.
  by erewrite lookup_union_Some_l.
Qed.

Lemma getattr_kernel_size reduction name v1 v2 :
  getattr (LocalNormalizedCrossCorrelation_class Loss_class)
    (setattr (setattr (Loss___init__ reduction name) "kernel_fn" v1)
       "kernel_type" v2) "kernel_size"
  = Raise AttributeError.
Proof.
  unfold getattr, setattr.
  rewrite !lookup_insert_ne, Loss_init_kernel_size by done.
  unfold LocalNormalizedCrossCorrelation_class.
  rewrite (proj2 (lookup_union_None _ _ _)); [done|].
  split; [by vm_compute|done].
Qed.

(** C10.  Constructing [LocalNormalizedCrossCorrelation] never gives an
    instance: it raises [ValueError] when [kernel_type] is none of
    rectangular, triangular and gaussian, and otherwise [AttributeError],
    because [self.kernel_size] is read and nothing has assigned it; the same
    holds for the registered loss, which has the same initializer. *)
Theorem LocalNormalizedCrossCorrelation_init_raises
    (kernel_size : Z) (kernel_type reduction name : string) :
  LocalNormalizedCrossCorrelation___init__ Loss_class Loss___init__
    kernel_size kernel_type reduction name
  = Raise (if decide (kernel_type ∈ ["rectangular"; "triangular"; "gaussian"])
           then AttributeError else ValueError) ∧
  LocalNormalizedCrossCorrelationLoss___init__ Loss_class Loss___init__
    kernel_size kernel_type reduction name
  = Raise (if decide (kernel_type ∈ ["rectangular"; "triangular"; "gaussian"])
           then AttributeError else ValueError).
Proof.
  unfold LocalNormalizedCrossCorrelationLoss___init__.
  apply and_wlog_r; [|done].
  unfold LocalNormalizedCrossCorrelation___init__.
  rewrite getattr_kernel_fn_dict, !result_bind_Ok.
  change (as_kernel_fn_dict (VKernelFnDict kernel_fn_dict))
    with (Ok kernel_fn_dict : result (dict kernel_fn)).
  rewrite !result_bind_Ok.
  destruct (decide (kernel_type ∉ dict_keys kernel_fn_dict)) as [Hni|Hin].
  - rewrite decide_False; [done|]. intros Hin. apply Hni.
    unfold kernel_fn_dict. simpl.
    rewrite !elem_of_cons, elem_of_nil in Hin |- *. tauto.
  - apply dec_stable in Hin. rewrite decide_True; cycle 1.
    { unfold kernel_fn_dict in Hin. simpl in Hin.
      rewrite !elem_of_cons, elem_of_nil in Hin |- *. tauto. }
    apply dict_get_keys in Hin as [fn ->]. simpl or_raise.
    rewrite result_bind_Ok. cbv zeta.
    by rewrite getattr_kernel_size.
Qed.
End lncc_facts.

(** *** Running the losses on rationals *)

(** C1 fails on the code: on one batch item with the squared differences 4
    and 0, [SumSquaredDifference.call] returns their mean 2 and not their
    sum 4. *)
Theorem SumSquaredDifference_call_not_sum :
  ∃ r, SumSquaredDifference_call row_true row_pred = Ok r ∧
       shape r = [1] ∧
       Qeq (get r [0]) 2 ∧
       Qeq (ssd_sum (item row_true 0) (item row_pred 0)) 4 ∧
       ¬ Qeq (get r [0]) (ssd_sum (item row_true 0) (item row_pred 0)).
Proof.
  eexists. split; [vm_compute; reflexivity|].
  split_and!; [done|by vm_compute|by vm_compute|by vm_compute].
Qed.

(** C6 fails on the code: constructing the class with its default
    arguments raises [AttributeError]. *)
Theorem LocalNormalizedCrossCorrelation_default_raises :
  LocalNormalizedCrossCorrelation___init__ keras_Loss_class keras_Loss___init__
    9 "rectangular" "sum" "LocalNormalizedCrossCorrelation"
  = Raise AttributeError.
Proof. by vm_compute. Qed.

Lemma GlobalNormalizedCrossCorrelation_call_formula_witness :
  shape pair_true = [2; 1; 2] ∧ shape pair_pred = [2; 1; 2] ∧
  ∃ r, GlobalNormalizedCrossCorrelation_call pair_true pair_pred = Ok r ∧
       shape r = [2] ∧
       ∀ i, i < 2 → get r [i] = gncc (item pair_true i) (item pair_pred i).
Proof.
  do 2 (split; [reflexivity|]).
  apply (GlobalNormalizedCrossCorrelation_call_formula
           pair_true pair_pred 2 [1; 2]); reflexivity.
Defined.

Lemma GlobalMutualInformation_call_clip_witness :
  fleb (of_Q 0) (of_Q 1 : Q) = true ∧
  GlobalMutualInformation_call (mkGlobalMutualInformation 3 (1 # 2)%Q)
    (clip volume_true) (clip volume_pred)
  = GlobalMutualInformation_call (mkGlobalMutualInformation 3 (1 # 2)%Q)
      volume_true volume_pred.
Proof.
  split; [reflexivity|].
  apply (GlobalMutualInformation_call_clip (F := Q)). reflexivity.
Defined.

Lemma LocalNormalizedCrossCorrelation_init_raises_witness :
  keras_Loss_class !! "kernel_size" = None ∧
  (∀ reduction name,
     keras_Loss___init__ reduction name !! "kernel_size" = None) ∧
  (∀ reduction name,
     keras_Loss___init__ reduction name !! "kernel_fn_dict" = None) ∧
  LocalNormalizedCrossCorrelation___init__ keras_Loss_class keras_Loss___init__
    3 "gaussian" "sum" "lncc" = Raise AttributeError ∧
  LocalNormalizedCrossCorrelationLoss___init__ keras_Loss_class
    keras_Loss___init__ 3 "gaussian" "sum" "lncc" = Raise AttributeError.
Proof.
  do 3 (split; [reflexivity|]).
  apply (LocalNormalizedCrossCorrelation_init_raises
           keras_Loss_class keras_Loss___init__); reflexivity.
Defined.

End ImageFacts.

(** ** More on the losses *)

Module ImageMore.
Import tf Image TensorSpec ImageSpec TensorFacts ImageFacts Examples.

Lemma broadcast_rev_comm a b : broadcast_rev a b = broadcast_rev b a.
Proof.
  revert b. induction a as [|x a IH]; intros [|y b]; simpl; try done.
  rewrite IH.
  destruct (decide (x = y)) as [->|Hxy].
  - by rewrite decide_True.
  - rewrite (decide_False (P := y = x)) by congruence.
    destruct (decide (x = 1)) as [->|]; destruct (decide (y = 1)) as [->|];
      done.
Qed.

Lemma broadcast_shape_comm a b : broadcast_shape a b = broadcast_shape b a.
Proof. unfold broadcast_shape. by rewrite broadcast_rev_comm. Qed.

Lemma Q_squared_difference_sym (x y : Q) :
  fmul (fsub x y) (fsub x y) = fmul (fsub y x) (fsub y x).
Proof.
  destruct x as [a b], y as [c d]. simpl.
  unfold Qmult, Qminus, Qplus, Qopp. simpl. f_equal; [ring|].
  by rewrite (Pos.mul_comm b d).
Qed.

Lemma Q_fmul_comm (x y : Q) : fmul x y = fmul y x.
Proof.
  destruct x as [a b], y as [c d]. simpl. unfold Qmult. simpl.
  by rewrite Z.mul_comm, Pos.mul_comm.
Qed.

Section ssd_more.
Context {F : Type} `{FloatOps F}.
Implicit Types (y_true y_pred t : Tensor F) (rest : list nat).

Lemma init_ext sh (f g : list nat → F) :
  (∀ idx, f idx = g idx) → init sh f = init sh g.
Proof.
  intros Hext. unfold init. f_equal.
  apply Forall_fmap_ext, Forall_forall. intros idx _. apply Hext.
Qed.

Lemma broadcast2_flip (op : F → F → F) a c :
  broadcast2 op a c = broadcast2 (λ x y, op y x) c a.
Proof. unfold broadcast2. by rewrite broadcast_shape_comm. Qed.

Lemma broadcast2_ext (op op' : F → F → F) a c :
  (∀ x y, op x y = op' x y) → broadcast2 op a c = broadcast2 op' a c.
Proof.
  intros Hext. unfold broadcast2.
  destruct (broadcast_shape (shape a) (shape c)) as [sh|]; [|done].
  simpl. f_equal. apply init_ext. intros idx. apply Hext.
Qed.

(** X10.  On two tensors of one shape [(batch, ...)],
    [SumSquaredDifference.call] returns a tensor of shape [(batch,)] with
    [batch] elements, the one of batch item [i] being the mean over the item
    of the squared differences: their sum divided by the number of elements
    of the item. *)
Theorem SumSquaredDifference_call_item_mean y_true y_pred b rest :
  shape y_true = b :: rest → shape y_pred = b :: rest →
  ∃ r, SumSquaredDifference_call y_true y_pred = Ok r ∧
       shape r = [b] ∧ length (data r) = b ∧
       ∀ i, i < b →
            get r [i] =
            fdiv (ssd_sum (item y_true i) (item y_pred i))
                 (of_nat (numel rest)).
Proof.
  intros Ht Hp. rewrite (SumSquaredDifference_call_mean _ _ _ _ Ht Hp).
  eexists. split_and!; [done|done|..].
  - unfold vec. simpl. by rewrite length_fmap, length_seq.
  - intros i Hi. rewrite get_vec by done.
    unfold ssd_mean, mean, ssd_sum.
    by rewrite length_zip_with, !length_item, Ht, Hp, Nat.min_id.
Qed.

(** X11.  [SumSquaredDifference.call] does not tell [y_true] from
    [y_pred]: where the squared difference of two numbers is that of the
    two in the other order, exchanging the inputs gives the same result,
    tensor or exception, whatever their shapes. *)
Theorem SumSquaredDifference_call_sym y_true y_pred :
  (∀ x y : F, fmul (fsub x y) (fsub x y) = fmul (fsub y x) (fsub y x)) →
  SumSquaredDifference_call y_true y_pred
  = SumSquaredDifference_call y_pred y_true.
Proof.
  intros Hsym. unfold SumSquaredDifference_call, math_squared_difference.
  rewrite (broadcast2_flip _ y_true y_pred).
  by rewrite (broadcast2_ext _ (λ x y, fmul (fsub x y) (fsub x y))
                y_pred y_true).
Qed.
End ssd_more.

Lemma SumSquaredDifference_call_item_mean_witness :
  shape pair_true = [2; 1; 2] ∧ shape pair_pred = [2; 1; 2] ∧
  ∃ r, SumSquaredDifference_call pair_true pair_pred = Ok r ∧
       shape r = [2] ∧ length (data r) = 2 ∧
       ∀ i, i < 2 →
            get r [i] =
            fdiv (ssd_sum (item pair_true i) (item pair_pred i))
                 (of_nat (numel [1; 2])).
Proof.
  do 2 (split; [reflexivity|]).
  apply (SumSquaredDifference_call_item_mean pair_true pair_pred 2 [1; 2]);
    reflexivity.
Defined.

Lemma SumSquaredDifference_call_sym_witness :
  (∀ x y : Q, fmul (fsub x y) (fsub x y) = fmul (fsub y x) (fsub y x)) ∧
  SumSquaredDifference_call pair_true row_pred
  = SumSquaredDifference_call row_pred pair_true.
Proof.
  split; [exact Q_squared_difference_sym|].
  apply (SumSquaredDifference_call_sym pair_true row_pred).
  exact Q_squared_difference_sym.
Defined.

Section gncc_more.
Context {F : Type} `{FloatOps F}.
Implicit Types (y_true y_pred t : Tensor F) (rest : list nat).

(** The result of [GlobalNormalizedCrossCorrelation.call] as one tensor. *)
Lemma GlobalNormalizedCrossCorrelation_call_vec y_true y_pred b rest :
  shape y_true = b :: rest → shape y_pred = b :: rest →
  GlobalNormalizedCrossCorrelation_call y_true y_pred
  = Ok (vec b (λ i, gncc (item y_true i) (item y_pred i))).
Proof.
  intros Ht Hp. unfold GlobalNormalizedCrossCorrelation_call.
  rewrite Ht. replace (length (b :: rest) - 1) with (length rest)
    by (simpl; lia).
  rewrite (reduce_mean_nonbatch _ _ _ true Hp),
    (reduce_mean_nonbatch _ _ _ true Ht), !result_bind_Ok.
  rewrite (math_reduce_variance_nonbatch _ _ _ Hp),
    (math_reduce_variance_nonbatch _ _ _ Ht), !result_bind_Ok.
  destruct (broadcast2_col fsub y_pred b rest (λ i, mean (item y_pred i)) Hp)
    as (dp & Hdp & Hshp & _ & Hip).
  destruct (broadcast2_col fsub y_true b rest (λ i, mean (item y_true i)) Ht)
    as (dt & Hdt & Hsht & _ & Hit).
  unfold subtract. rewrite Hdp, Hdt, !result_bind_Ok.
  destruct (broadcast2_same fmul dp dt b rest Hshp Hsht)
    as (pr & Hpr & Hshpr & _ & Hipr).
  change (broadcast2 fmul dp dt) with (multiply dp dt) in Hpr.
  rewrite Hpr, result_bind_Ok.
  rewrite (reduce_mean_nonbatch _ _ _ false Hshpr), result_bind_Ok.
  unfold abs, multiply, add, divide.
  repeat rewrite ?map_elements_vec, ?broadcast2_vec,
    ?broadcast2_vec_constant, ?result_bind_Ok.
  f_equal. apply vec_ext. intros i Hi. unfold gncc, EPS.
  assert (mean (item pr i) = covariance (item y_pred i) (item y_true i))
    as ->; [|done].
  unfold covariance. rewrite Hipr, Hip, Hit by done.
  by rewrite zip_with_fmap_l, zip_with_fmap_r.
Qed.

Lemma zip_with_exchange {A B C} (f : A → B → C) (g : B → A → C)
    (p : list A) (t : list B) :
  (∀ x y, f x y = g y x) → zip_with f p t = zip_with g t p.
Proof.
  intros Hfg. revert t.
  induction p as [|x p IH]; intros [|y t]; simpl; try done.
  by rewrite IH, Hfg.
Qed.

Lemma covariance_sym (p t : list F) :
  (∀ x y : F, fmul x y = fmul y x) → covariance p t = covariance t p.
Proof.
  intros Hcomm. unfold covariance.
  by rewrite (zip_with_exchange _
                (λ x y, fmul (fsub x (mean t)) (fsub y (mean p))) p t).
Qed.

(** X12.  [GlobalNormalizedCrossCorrelation.call] does not tell [y_true]
    from [y_pred]: on two tensors of one shape, where the multiplication of
    the arithmetic is commutative, exchanging the inputs gives the same
    tensor. *)
Theorem GlobalNormalizedCrossCorrelation_call_sym y_true y_pred b rest :
  (∀ x y : F, fmul x y = fmul y x) →
  shape y_true = b :: rest → shape y_pred = b :: rest →
  GlobalNormalizedCrossCorrelation_call y_true y_pred
  = GlobalNormalizedCrossCorrelation_call y_pred y_true.
Proof.
  intros Hcomm Ht Hp.
  rewrite (GlobalNormalizedCrossCorrelation_call_vec _ _ _ _ Ht Hp),
    (GlobalNormalizedCrossCorrelation_call_vec _ _ _ _ Hp Ht).
  f_equal. apply vec_ext. intros i _. unfold gncc.
  rewrite (covariance_sym _ _ Hcomm).
  by rewrite (Hcomm (variance (item y_pred i))).
Qed.
End gncc_more.

Lemma GlobalNormalizedCrossCorrelation_call_sym_witness :
  (∀ x y : Q, fmul x y = fmul y x) ∧
  shape pair_true = [2; 1; 2] ∧ shape pair_pred = [2; 1; 2] ∧
  GlobalNormalizedCrossCorrelation_call pair_true pair_pred
  = GlobalNormalizedCrossCorrelation_call pair_pred pair_true.
Proof.
  split; [exact Q_fmul_comm|]. do 2 (split; [reflexivity|]).
  apply (GlobalNormalizedCrossCorrelation_call_sym
           pair_true pair_pred 2 [1; 2] Q_fmul_comm); reflexivity.
Defined.

Section rank_more.
Context {F : Type} `{FloatOps F, Transcendental F}.
Variable Loss_class Layer_class : obj F.
Variable nn_conv3d :
  Tensor F → Tensor F → list Z → string → result (Tensor F).
Implicit Types (y_true y_pred t : Tensor F) (self : obj F).

(** What the rank adjustment gives: an exception, or two tensors the rank
    assertion refuses. *)
Lemma adjust_rank_error y_true y_pred e :
  rank_error y_true y_pred = Some e →
  adjust y_true y_pred = Raise e ∨
  ∃ a c, adjust y_true y_pred = Ok (a, c) ∧ e = AssertionError ∧
         ¬ (length (shape a) = length (shape c) ∧ length (shape c) = 5).
Proof.
  unfold rank_error, adjust, expand_dims. cbv zeta.
  destruct (decide (length (shape y_true) = 4)) as [Ht|Ht].
  - rewrite (decide_True (P := 4 ≤ length (shape y_true))) by lia.
    rewrite result_bind_Ok.
    destruct (decide (length (shape y_pred) < 4)) as [Hp|Hp].
    + intros [= <-]. left. by rewrite decide_False by lia.
    + rewrite (decide_True (P := 4 ≤ length (shape y_pred))) by lia.
      destruct (decide (length (shape y_pred) = 4)) as [|Hp4]; [done|].
      intros [= <-]. right. eexists _, _. split_and!; [done..|].
      simpl. rewrite !length_app. simpl.
      rewrite !length_take, !length_drop. lia.
  - destruct (decide (length (shape y_true) = 5 ∧ length (shape y_pred) = 5))
      as [|Hn]; [done|].
    intros [= <-]. right. eexists _, _. split_and!; [done..|]. lia.
Qed.

Lemma adjust_rank_four y_true y_pred :
  length (shape y_true) = 4 → length (shape y_pred) = 4 →
  adjust y_true y_pred = Ok (with_channel y_true, with_channel y_pred) ∧
  adjust (with_channel y_true) (with_channel y_pred)
  = Ok (with_channel y_true, with_channel y_pred).
Proof.
  intros Ht Hp. unfold adjust, expand_dims. split.
  - rewrite (decide_True (P := length (shape y_true) = 4)) by done.
    rewrite (decide_True (P := 4 ≤ length (shape y_true))) by lia.
    rewrite (decide_True (P := 4 ≤ length (shape y_pred))) by lia.
    rewrite !result_bind_Ok. unfold with_channel.
    by rewrite !take_ge, !drop_ge by lia.
  - rewrite decide_False; [done|].
    unfold with_channel. simpl. rewrite length_app. simpl. lia.
Qed.

Lemma getattr_ext (class self self' : obj F) name :
  self !! name = self' !! name →
  getattr class self name = getattr class self' name.
Proof. unfold getattr. by intros ->. Qed.

(** X13.  The rank check at the start of [call]: when the ranks of the
    inputs are not both four or both five, the [call] of
    [GlobalMutualInformation], of [LocalNormalizedCrossCorrelation] and of
    its two debugging layers raises, whatever the instance holds:
    [InvalidArgumentError], from [tf.expand_dims], for a [y_true] of rank
    four with a [y_pred] of a rank below four, and [AssertionError] in
    every other case. *)
Theorem call_rank_error (gmi : GlobalMutualInformation F) self
    y_true y_pred e :
  rank_error y_true y_pred = Some e →
  GlobalMutualInformation_call gmi y_true y_pred = Raise e ∧
  LocalNormalizedCrossCorrelation_call Loss_class nn_conv3d self
    y_true y_pred = Raise e ∧
  LocalNormalizedCrossCorrelationDEBUG1_call Layer_class nn_conv3d self
    y_true y_pred = Raise e ∧
  LocalNormalizedCrossCorrelationDEBUG2_call Layer_class nn_conv3d self
    y_true y_pred = Raise e.
Proof.
  intros He.
  unfold GlobalMutualInformation_call, LocalNormalizedCrossCorrelation_call,
    LocalNormalizedCrossCorrelationDEBUG1_call,
    LocalNormalizedCrossCorrelationDEBUG2_call.
  destruct (adjust_rank_error _ _ _ He) as [->|(a & c & -> & -> & Hn)];
    [done|].
  rewrite !result_bind_Ok. cbv beta iota zeta.
  unfold assert. by rewrite decide_False by done.
Qed.

(** X14.  The channel axis is optional: on two inputs of rank four each of
    the four [call]s gives what it gives on the same elements in the shape
    with a channel axis of size one at the end. *)
Theorem call_channel_axis (gmi : GlobalMutualInformation F) self
    y_true y_pred :
  length (shape y_true) = 4 → length (shape y_pred) = 4 →
  GlobalMutualInformation_call gmi y_true y_pred
  = GlobalMutualInformation_call gmi
      (with_channel y_true) (with_channel y_pred) ∧
  LocalNormalizedCrossCorrelation_call Loss_class nn_conv3d self
    y_true y_pred
  = LocalNormalizedCrossCorrelation_call Loss_class nn_conv3d self
      (with_channel y_true) (with_channel y_pred) ∧
  LocalNormalizedCrossCorrelationDEBUG1_call Layer_class nn_conv3d self
    y_true y_pred
  = LocalNormalizedCrossCorrelationDEBUG1_call Layer_class nn_conv3d self
      (with_channel y_true) (with_channel y_pred) ∧
  LocalNormalizedCrossCorrelationDEBUG2_call Layer_class nn_conv3d self
    y_true y_pred
  = LocalNormalizedCrossCorrelationDEBUG2_call Layer_class nn_conv3d self
      (with_channel y_true) (with_channel y_pred).
Proof.
  intros Ht Hp.
  unfold GlobalMutualInformation_call, LocalNormalizedCrossCorrelation_call,
    LocalNormalizedCrossCorrelationDEBUG1_call,
    LocalNormalizedCrossCorrelationDEBUG2_call.
  destruct (adjust_rank_four _ _ Ht Hp) as [-> ->]. done.
Qed.

(** X15.  [call] reads four attributes of the instance, [filters],
    [strides], [padding] and [kernel_vol], and no other: two instances that
    agree on these give the same result on every pair of inputs, so
    [kernel_type], [kernel_fn] and [kernel_size] have no influence on the
    value computed. *)
Theorem LocalNormalizedCrossCorrelation_call_attributes self self'
    y_true y_pred :
  (∀ name, name ∈ ["filters"; "strides"; "padding"; "kernel_vol"] →
           self !! name = self' !! name) →
  LocalNormalizedCrossCorrelation_call Loss_class nn_conv3d self
    y_true y_pred
  = LocalNormalizedCrossCorrelation_call Loss_class nn_conv3d self'
      y_true y_pred ∧
  LocalNormalizedCrossCorrelationDEBUG1_call Layer_class nn_conv3d self
    y_true y_pred
  = LocalNormalizedCrossCorrelationDEBUG1_call Layer_class nn_conv3d self'
      y_true y_pred ∧
  LocalNormalizedCrossCorrelationDEBUG2_call Layer_class nn_conv3d self
    y_true y_pred
  = LocalNormalizedCrossCorrelationDEBUG2_call Layer_class nn_conv3d self'
      y_true y_pred.
Proof.
  intros Hattrs.
  assert (∀ class name,
            name ∈ ["filters"; "strides"; "padding"; "kernel_vol"] →
            getattr class self name = getattr class self' name) as Hget.
  { intros class name Hin. by apply getattr_ext, Hattrs. }
  unfold LocalNormalizedCrossCorrelation_call,
    LocalNormalizedCrossCorrelationDEBUG1_call,
    LocalNormalizedCrossCorrelationDEBUG2_call. cbv zeta.
  split_and!.
  - rewrite (Hget _ "filters"), (Hget _ "strides"), (Hget _ "padding"),
      (Hget _ "kernel_vol");
      [done|rewrite !elem_of_cons; tauto..].
  - rewrite (Hget _ "filters"), (Hget _ "strides"), (Hget _ "padding"),
      (Hget _ "kernel_vol");
      [done|rewrite !elem_of_cons; tauto..].
  - rewrite (Hget _ "filters"), (Hget _ "strides"), (Hget _ "padding"),
      (Hget _ "kernel_vol");
      [done|rewrite !elem_of_cons; tauto..].
Qed.
End rank_more.

Lemma call_rank_error_witness :
  rank_error volume_true slab_pred = Some InvalidArgumentError ∧
  GlobalMutualInformation_call (mkGlobalMutualInformation 3 (1 # 2)%Q)
    volume_true slab_pred = Raise InvalidArgumentError ∧
  LocalNormalizedCrossCorrelation_call keras_Loss_class conv3d_one_voxel
    (lncc_instance "rectangular") volume_true slab_pred
  = Raise InvalidArgumentError ∧
  LocalNormalizedCrossCorrelationDEBUG1_call keras_Layer_class conv3d_one_voxel
    (lncc_instance "rectangular") volume_true slab_pred
  = Raise InvalidArgumentError ∧
  LocalNormalizedCrossCorrelationDEBUG2_call keras_Layer_class conv3d_one_voxel
    (lncc_instance "rectangular") volume_true slab_pred
  = Raise InvalidArgumentError.
Proof.
  split; [reflexivity|].
  apply (call_rank_error keras_Loss_class keras_Layer_class conv3d_one_voxel
           (mkGlobalMutualInformation 3 (1 # 2)%Q)
           (lncc_instance "rectangular") volume_true slab_pred
           InvalidArgumentError).
  reflexivity.
Defined.

Lemma call_channel_axis_witness :
  length (shape volume_true) = 4 ∧ length (shape volume_pred) = 4 ∧
  GlobalMutualInformation_call (mkGlobalMutualInformation 3 (1 # 2)%Q)
    volume_true volume_pred
  = GlobalMutualInformation_call (mkGlobalMutualInformation 3 (1 # 2)%Q)
      (with_channel volume_true) (with_channel volume_pred) ∧
  LocalNormalizedCrossCorrelation_call keras_Loss_class conv3d_one_voxel
    (lncc_instance "rectangular") volume_true volume_pred
  = LocalNormalizedCrossCorrelation_call keras_Loss_class conv3d_one_voxel
      (lncc_instance "rectangular")
      (with_channel volume_true) (with_channel volume_pred) ∧
  LocalNormalizedCrossCorrelationDEBUG1_call keras_Layer_class conv3d_one_voxel
    (lncc_instance "rectangular") volume_true volume_pred
  = LocalNormalizedCrossCorrelationDEBUG1_call keras_Layer_class
      conv3d_one_voxel (lncc_instance "rectangular")
      (with_channel volume_true) (with_channel volume_pred) ∧
  LocalNormalizedCrossCorrelationDEBUG2_call keras_Layer_class conv3d_one_voxel
    (lncc_instance "rectangular") volume_true volume_pred
  = LocalNormalizedCrossCorrelationDEBUG2_call keras_Layer_class
      conv3d_one_voxel (lncc_instance "rectangular")
      (with_channel volume_true) (with_channel volume_pred).
Proof.
  do 2 (split; [reflexivity|]).
  apply (call_channel_axis keras_Loss_class keras_Layer_class conv3d_one_voxel
           (mkGlobalMutualInformation 3 (1 # 2)%Q)
           (lncc_instance "rectangular") volume_true volume_pred);
    reflexivity.
Defined.

Lemma lncc_instance_attributes kernel_type kernel_type' name :
  name ∈ ["filters"; "strides"; "padding"; "kernel_vol"] →
  lncc_instance kernel_type !! name = lncc_instance kernel_type' !! name.
Proof.
  rewrite !elem_of_cons, elem_of_nil.
  intros [->|[->|[->|[->|[]]]]]; reflexivity.
Qed.

Lemma LocalNormalizedCrossCorrelation_call_attributes_witness :
  (∀ name, name ∈ ["filters"; "strides"; "padding"; "kernel_vol"] →
           lncc_instance "rectangular" !! name
           = lncc_instance "gaussian" !! name) ∧
  LocalNormalizedCrossCorrelation_call keras_Loss_class conv3d_one_voxel
    (lncc_instance "rectangular") volume_true volume_pred
  = LocalNormalizedCrossCorrelation_call keras_Loss_class conv3d_one_voxel
      (lncc_instance "gaussian") volume_true volume_pred ∧
  LocalNormalizedCrossCorrelationDEBUG1_call keras_Layer_class conv3d_one_voxel
    (lncc_instance "rectangular") volume_true volume_pred
  = LocalNormalizedCrossCorrelationDEBUG1_call keras_Layer_class
      conv3d_one_voxel (lncc_instance "gaussian") volume_true volume_pred ∧
  LocalNormalizedCrossCorrelationDEBUG2_call keras_Layer_class conv3d_one_voxel
    (lncc_instance "rectangular") volume_true volume_pred
  = LocalNormalizedCrossCorrelationDEBUG2_call keras_Layer_class
      conv3d_one_voxel (lncc_instance "gaussian") volume_true volume_pred.
Proof.
  split; [apply lncc_instance_attributes|].
  apply (LocalNormalizedCrossCorrelation_call_attributes
           keras_Loss_class keras_Layer_class conv3d_one_voxel
           (lncc_instance "rectangular") (lncc_instance "gaussian")
           volume_true volume_pred).
  apply lncc_instance_attributes.
Defined.

Section debug_more.
Context {F : Type} `{FloatOps F}.
Implicit Types (y_true y_pred t : Tensor F) (self own base : obj F).

Lemma getattr_class_own own base self name v :
  self !! name = None → own !! name = Some v →
  getattr (own ∪ base) self name = Ok v.
Proof.
  intros Hself Hown. unfold getattr. rewrite Hself.
  by erewrite lookup_union_Some_l.
Qed.

Lemma getattr_class_missing own base self name :
  self !! name = None → own !! name = None → base !! name = None →
  getattr (own ∪ base) self name = Raise AttributeError.
Proof.
  intros Hself Hown Hbase. unfold getattr. rewrite Hself.
  by rewrite (proj2 (lookup_union_None _ _ _)).
Qed.

Lemma getattr_instance class self name v :
  self !! name = Some v → getattr class self name = Ok v.
Proof. unfold getattr. by intros ->. Qed.

Lemma kernel_type_known (kernel_type : string) :
  kernel_type ∈ dict_keys kernel_fn_dict ↔
  kernel_type ∈ ["rectangular"; "triangular"; "gaussian"].
Proof.
  unfold kernel_fn_dict. simpl. rewrite !elem_of_cons, elem_of_nil. tauto.
Qed.

Lemma debugging_check_numerics_Ok t t' :
  debugging_check_numerics t = Ok t' →
  t' = t ∧ forallb is_finite (data t) = true.
Proof.
  unfold debugging_check_numerics.
  destruct (forallb is_finite (data t)); [|done]. by intros [= <-].
Qed.

Section debug_init.
Variable Layer_class : obj F.
Variable Layer___init__ : string → obj F.

(** X16.  Constructing one of the two debugging layers never gives an
    instance either: where neither the class [Layer] nor its initializer
    defines [kernel_size], and the initializer leaves [kernel_fn_dict] to
    the class, [__init__] raises [ValueError] for a [kernel_type] that is
    none of rectangular, triangular and gaussian, and [AttributeError], from
    reading [self.kernel_size], for each of these three. *)
Theorem LocalNormalizedCrossCorrelationDEBUG_init_raises
    (kernel_size : Z) (kernel_type name : string) :
  Layer_class !! "kernel_size" = None →
  (∀ name, Layer___init__ name !! "kernel_size" = None) →
  (∀ name, Layer___init__ name !! "kernel_fn_dict" = None) →
  LocalNormalizedCrossCorrelationDEBUG1___init__ Layer_class Layer___init__
    kernel_size kernel_type name
  = Raise (if decide (kernel_type ∈ ["rectangular"; "triangular"; "gaussian"])
           then AttributeError else ValueError) ∧
  LocalNormalizedCrossCorrelationDEBUG2___init__ Layer_class Layer___init__
    kernel_size kernel_type name
  = Raise (if decide (kernel_type ∈ ["rectangular"; "triangular"; "gaussian"])
           then AttributeError else ValueError).
Proof.
  intros Hclass Hsize Hdict.
  unfold LocalNormalizedCrossCorrelationDEBUG1___init__,
    LocalNormalizedCrossCorrelationDEBUG2___init__,
    LocalNormalizedCrossCorrelationDEBUG1_class,
    LocalNormalizedCrossCorrelationDEBUG2_class.
  cbv zeta.
  rewrite !(getattr_class_own _ _ _ "kernel_fn_dict"
              (VKernelFnDict kernel_fn_dict)) by (done || by vm_compute).
  rewrite !result_bind_Ok.
  change (as_kernel_fn_dict (VKernelFnDict kernel_fn_dict))
    with (Ok kernel_fn_dict : result (dict kernel_fn)).
  rewrite !result_bind_Ok.
  destruct (decide (kernel_type ∉ dict_keys kernel_fn_dict)) as [Hni|Hin].
  - rewrite decide_False; [done|]. by rewrite <-kernel_type_known.
  - apply dec_stable in Hin.
    rewrite decide_True by (by rewrite <-kernel_type_known).
    apply dict_get_keys in Hin as [fn ->]. simpl or_raise.
    rewrite !result_bind_Ok. cbv zeta.
    rewrite !getattr_class_missing; [done|..]; try done; try (by vm_compute);
      unfold setattr; by rewrite !lookup_insert_ne.
Qed.
End debug_init.
End debug_more.

Lemma LocalNormalizedCrossCorrelationDEBUG_init_raises_witness :
  keras_Layer_class !! "kernel_size" = None ∧
  (∀ name, keras_Layer___init__ name !! "kernel_size" = None) ∧
  (∀ name, keras_Layer___init__ name !! "kernel_fn_dict" = None) ∧
  LocalNormalizedCrossCorrelationDEBUG1___init__ keras_Layer_class
    keras_Layer___init__ 9 "rectangular" "debug1" = Raise AttributeError ∧
  LocalNormalizedCrossCorrelationDEBUG2___init__ keras_Layer_class
    keras_Layer___init__ 9 "rectangular" "debug1" = Raise AttributeError.
Proof.
  do 3 (split; [reflexivity|]).
  apply (LocalNormalizedCrossCorrelationDEBUG_init_raises
           keras_Layer_class keras_Layer___init__ 9 "rectangular" "debug1");
    reflexivity.
Defined.

Lemma result_bind_Raise {A B} (e : exn) (f : A → result B) :
  Raise e ≫= f = Raise e.
Proof. done. Qed.

Section compose_more.
Context {F : Type} `{FloatOps F}.
Variable Loss_class Layer_class : obj F.
Variable nn_conv3d :
  Tensor F → Tensor F → list Z → string → result (Tensor F).
Implicit Types (y_true y_pred t : Tensor F) (self : obj F).

(** X17.  The two debugging layers give the two halves of the local
    cross-correlation.  On an instance that holds [filters], [strides],
    [padding] and [kernel_vol], when the first layer returns a numerator and
    the second a denominator, both hold finite elements only, and [call] of
    [LocalNormalizedCrossCorrelation] is the mean over the axes 1 to 4 of
    their quotient, once the quotient has passed the check for finite
    elements. *)
Theorem LocalNormalizedCrossCorrelation_call_debug self y_true y_pred
    num denom :
  (∀ name, name ∈ ["filters"; "strides"; "padding"; "kernel_vol"] →
           is_Some (self !! name)) →
  LocalNormalizedCrossCorrelationDEBUG1_call Layer_class nn_conv3d self
    y_true y_pred = Ok num →
  LocalNormalizedCrossCorrelationDEBUG2_call Layer_class nn_conv3d self
    y_true y_pred = Ok denom →
  forallb is_finite (data num) = true ∧
  forallb is_finite (data denom) = true ∧
  LocalNormalizedCrossCorrelation_call Loss_class nn_conv3d self
    y_true y_pred
  = (ncc ← divide num denom;
     ncc ← debugging_check_numerics ncc;
     reduce_mean ncc (Some [1; 2; 3; 4]%Z) false).
Proof.
  intros Hattrs H1 H2.
  destruct (Hattrs "filters") as [vf Hf]; [rewrite !elem_of_cons; tauto|].
  destruct (Hattrs "strides") as [vs Hs]; [rewrite !elem_of_cons; tauto|].
  destruct (Hattrs "padding") as [vp Hp]; [rewrite !elem_of_cons; tauto|].
  destruct (Hattrs "kernel_vol") as [vk Hk]; [rewrite !elem_of_cons; tauto|].
  clear Hattrs.
  unfold LocalNormalizedCrossCorrelationDEBUG1_call in H1.
  unfold LocalNormalizedCrossCorrelationDEBUG2_call in H2.
  unfold LocalNormalizedCrossCorrelation_call.
  cbv zeta in H1, H2 |- *.
  rewrite !(getattr_instance _ _ _ _ Hf), !(getattr_instance _ _ _ _ Hs),
    !(getattr_instance _ _ _ _ Hp), !(getattr_instance _ _ _ _ Hk) in H1.
  rewrite !(getattr_instance _ _ _ _ Hf), !(getattr_instance _ _ _ _ Hs),
    !(getattr_instance _ _ _ _ Hp), !(getattr_instance _ _ _ _ Hk) in H2.
  rewrite !(getattr_instance _ _ _ _ Hf), !(getattr_instance _ _ _ _ Hs),
    !(getattr_instance _ _ _ _ Hp), !(getattr_instance _ _ _ _ Hk).
  clear Hf Hs Hp Hk.
  repeat match type of H1 with
         | (?m ≫= _) = Ok _ =>
             destruct m as [?|?] eqn:?;
             [rewrite result_bind_Ok in H1, H2 |- *;
              cbv beta iota in H1, H2 |- *
             |rewrite result_bind_Raise in H1; discriminate H1]
         | (let '(_, _) := ?p in _) = Ok _ => destruct p
         end.
  match type of H1 with
  | (debugging_check_numerics ?d ≫= _) = _ =>
      destruct (debugging_check_numerics d) as [?|?] eqn:Hd;
      [|rewrite result_bind_Raise in H1; discriminate H1]
  end.
  match type of H2 with
  | (debugging_check_numerics ?n ≫= _) = _ =>
      destruct (debugging_check_numerics n) as [?|?] eqn:Hn;
      [|rewrite result_bind_Raise in H2; discriminate H2]
  end.
  rewrite result_bind_Ok in H1, H2. injection H1 as <-. injection H2 as <-.
  apply debugging_check_numerics_Ok in Hd as [_ Hd].
  apply debugging_check_numerics_Ok in Hn as [_ Hn].
  done.
Qed.
End compose_more.

Lemma lncc_instance_holds kernel_type name :
  name ∈ ["filters"; "strides"; "padding"; "kernel_vol"] →
  is_Some (lncc_instance kernel_type !! name).
Proof.
  rewrite !elem_of_cons, elem_of_nil.
  intros [->|[->|[->|[->|[]]]]]; by eexists.
Qed.

Lemma LocalNormalizedCrossCorrelation_call_debug_witness :
  ∃ num denom,
    (∀ name, name ∈ ["filters"; "strides"; "padding"; "kernel_vol"] →
             is_Some (lncc_instance "rectangular" !! name)) ∧
    LocalNormalizedCrossCorrelationDEBUG1_call keras_Layer_class
      conv3d_one_voxel (lncc_instance "rectangular") volume_true volume_pred
    = Ok num ∧
    LocalNormalizedCrossCorrelationDEBUG2_call keras_Layer_class
      conv3d_one_voxel (lncc_instance "rectangular") volume_true volume_pred
    = Ok denom ∧
    forallb is_finite (data num) = true ∧
    forallb is_finite (data denom) = true ∧
    LocalNormalizedCrossCorrelation_call keras_Loss_class conv3d_one_voxel
      (lncc_instance "rectangular") volume_true volume_pred
    = (ncc ← divide num denom;
       ncc ← debugging_check_numerics ncc;
       reduce_mean ncc (Some [1; 2; 3; 4]%Z) false).
Proof.
  eexists _, _. split; [apply lncc_instance_holds|].
  split; [vm_compute; reflexivity|]. split; [vm_compute; reflexivity|].
  apply (LocalNormalizedCrossCorrelation_call_debug
           keras_Loss_class keras_Layer_class conv3d_one_voxel
           (lncc_instance "rectangular") volume_true volume_pred);
    [apply lncc_instance_holds|reflexivity..].
Defined.

Section gmi_more.
Context {F : Type} `{FloatOps F, Transcendental F}.
Implicit Types (y_true y_pred t a c : Tensor F) (sh : list nat).

Lemma broadcast2_Ok_shape (op : F → F → F) a c sh :
  broadcast_shape (shape a) (shape c) = Some sh →
  ∃ r, broadcast2 op a c = Ok r ∧ shape r = sh.
Proof. intros Hsh. unfold broadcast2. rewrite Hsh. simpl. by eexists. Qed.

Lemma reduce_over_Ok_shape (finish : F → nat → F) t axes naxes keep :
  normalize_axes (length (shape t)) axes = Ok naxes →
  ∃ r, reduce_over finish t (Some axes) keep = Ok r ∧
       shape r = (if keep then kept_shape naxes (shape t)
                  else squeezed_shape naxes (shape t)) ∧
       length (data r) = numel (kept_shape naxes (shape t)).
Proof.
  intros Hn. unfold reduce_over. rewrite Hn, result_bind_Ok.
  eexists. split; [done|]. unfold reduce. cbv zeta.
  destruct keep; (split; [done|]); unfold init; cbn [data];
    by rewrite length_map, length_indices.
Qed.

Lemma reduce_all_Ok_shape (finish : F → nat → F) t :
  ∃ r, reduce_over finish t None false = Ok r ∧
       shape r = squeezed_shape (seq 0 (length (shape t))) (shape t).
Proof. unfold reduce_over. by eexists. Qed.

Lemma linspace_Ok_shape (start stop : F) (num : Z) :
  (0 ≤ num)%Z →
  ∃ t, linspace start stop num = Ok t ∧ shape t = [Z.to_nat num].
Proof.
  intros Hnum. unfold linspace. rewrite decide_False by lia.
  destruct (decide (num = 0)%Z) as [->|]; [by eexists|].
  destruct (decide (num = 1)%Z) as [->|]; by eexists.
Qed.

Lemma slice_last_Ok_shape t sh d start stop :
  shape t = sh ++ [d] →
  ∃ r, slice_last t start stop = Ok r ∧
       shape r = sh ++ [Z.to_nat (from_option (slice_bound (Z.of_nat d))
                                    (Z.of_nat d) stop
                                  - slice_bound (Z.of_nat d) start)].
Proof.
  intros Hsh. unfold slice_last. rewrite Hsh, reverse_snoc. cbv zeta.
  rewrite reverse_involutive. by eexists.
Qed.

Lemma transpose_Ok_shape t b n m :
  shape t = [b; n; m] →
  ∃ r, transpose t [0; 2; 1] = Ok r ∧ shape r = [b; m; n].
Proof.
  intros Hsh. unfold transpose. rewrite Hsh.
  rewrite decide_True by (simpl; apply perm_skip, perm_swap).
  by eexists.
Qed.

Lemma matmul_Ok_shape a c b m k n :
  shape a = [b; m; k] → shape c = [b; k; n] →
  ∃ r, matmul a c = Ok r ∧ shape r = [b; m; n].
Proof.
  intros Ha Hc. unfold matmul. rewrite Ha, Hc.
  rewrite decide_True by done. by eexists.
Qed.

Lemma broadcast_shape_scalar_l sh : broadcast_shape [] sh = Some sh.
Proof. by rewrite broadcast_shape_comm, broadcast_shape_scalar. Qed.

Lemma broadcast_shape_bins b n m :
  broadcast_shape [b; n; 1] [1; 1; m] = Some [b; n; m].
Proof.
  unfold broadcast_shape. cbn [reverse rev_append]. simpl.
  destruct (decide (1 = m)) as [<-|]; simpl;
    destruct (decide (n = 1)) as [->|]; simpl;
    destruct (decide (b = 1)) as [->|]; simpl; done.
Qed.

Lemma broadcast_shape_keep_last b n m :
  broadcast_shape [b; n; m] [b; n; 1] = Some [b; n; m].
Proof.
  unfold broadcast_shape. cbn [reverse rev_append]. simpl.
  rewrite !(decide_True (P := n = n)), !(decide_True (P := b = b)) by done.
  destruct (decide (m = 1)) as [->|]; simpl; done.
Qed.

Lemma reshape_Ok t sh :
  numel sh = numel (shape t) → reshape t sh = Ok (mkTensor sh (data t)).
Proof. intros Hn. unfold reshape. by rewrite decide_True. Qed.

Lemma reshape_Raise t sh :
  numel sh ≠ numel (shape t) → reshape t sh = Raise InvalidArgumentError.
Proof. intros Hn. unfold reshape. by rewrite decide_False. Qed.

Lemma slice_last_widths (n : nat) :
  Z.to_nat (from_option (slice_bound (Z.of_nat n)) (Z.of_nat n) None
            - slice_bound (Z.of_nat n) 1) = n - 1 ∧
  Z.to_nat (from_option (slice_bound (Z.of_nat n)) (Z.of_nat n)
              (Some (-1)%Z)
            - slice_bound (Z.of_nat n) 0) = n - 1.
Proof. unfold slice_bound. simpl. lia. Qed.

Ltac shapes :=
  cbn [shape math_square math_exp math_log negative clip_by_value
       map_elements constant];
  repeat match goal with
         | S : shape ?x = _ |- context [shape ?x] => rewrite S
         end.

Ltac broadcast_step :=
  match goal with
  | |- context [broadcast2 ?op ?a ?c] =>
      let x := fresh "x" in
      let E := fresh "E" in
      let S := fresh "S" in
      edestruct (broadcast2_Ok_shape op a c) as (x & E & S);
      [shapes;
       first [apply broadcast_shape_same | apply broadcast_shape_scalar
             | apply broadcast_shape_scalar_l | apply broadcast_shape_bins
             | apply broadcast_shape_keep_last]
      |rewrite E, ?result_bind_Ok; clear E; cbv beta]
  end.

Ltac reduce_step :=
  match goal with
  | |- context [reduce_over ?f ?t (Some ?axes) ?keep] =>
      let x := fresh "x" in
      let E := fresh "E" in
      let S := fresh "S" in
      let L := fresh "L" in
      edestruct (reduce_over_Ok_shape f t axes) as (x & E & S & L);
      [shapes; reflexivity
      |rewrite E, ?result_bind_Ok; clear E; cbv beta;
       revert S L; shapes; intros S L;
       match type of S with
       | _ = ?sh => let sh' := eval vm_compute in sh in change sh with sh' in S
       end;
       match type of L with
       | _ = numel ?sh =>
           let sh' := eval vm_compute in sh in change sh with sh' in L
       end]
  end.

Ltac transpose_step :=
  match goal with
  | |- context [transpose ?t [0; 2; 1]] =>
      let x := fresh "x" in
      let E := fresh "E" in
      let S := fresh "S" in
      edestruct (transpose_Ok_shape t) as (x & E & S);
      [shapes; reflexivity
      |rewrite E, ?result_bind_Ok; clear E; cbv beta]
  end.

Ltac matmul_step :=
  match goal with
  | |- context [matmul ?a ?c] =>
      let x := fresh "x" in
      let E := fresh "E" in
      let S := fresh "S" in
      edestruct (matmul_Ok_shape a c) as (x & E & S);
      [shapes; reflexivity|shapes; reflexivity
      |rewrite E, ?result_bind_Ok; clear E; cbv beta]
  end.

(** X18.  [GlobalMutualInformation.call] on two inputs of rank five, the
    first of shape [(batch, w, h, z, ch)], for a number of bins that is not
    negative.  [tf.reshape] raises [InvalidArgumentError] when [y_pred] does
    not hold as many elements as [y_true]; in every other case, no bin and
    one bin included, the call returns a tensor of shape [(batch,)] with
    [batch] elements: the shape of [y_pred] itself is never compared with
    that of [y_true]. *)
Theorem GlobalMutualInformation_call_shape
    (self : GlobalMutualInformation F) y_true y_pred
    (batch w h z ch : nat) :
  shape y_true = [batch; w; h; z; ch] →
  length (shape y_pred) = 5 →
  (0 ≤ num_bins self)%Z →
  if decide (numel (shape y_pred) = numel (shape y_true))
  then ∃ r, GlobalMutualInformation_call self y_true y_pred = Ok r ∧
            shape r = [batch] ∧ length (data r) = batch
  else GlobalMutualInformation_call self y_true y_pred
       = Raise InvalidArgumentError.
Proof.
  intros Ht Hp Hbins.
  unfold GlobalMutualInformation_call, adjust.
  rewrite (decide_False (P := length (shape y_true) = 4))
    by (rewrite Ht; simpl; lia).
  rewrite result_bind_Ok. cbv beta iota zeta.
  unfold assert.
  rewrite (decide_True (P := length (shape y_true) = length (shape y_pred)
                             ∧ length (shape y_pred) = 5))
    by (by rewrite Ht, Hp).
  rewrite result_bind_Ok.
  destruct (linspace_Ok_shape (of_Q 0) (of_Q 1) (num_bins self) Hbins)
    as (bc & -> & Hbc).
  rewrite result_bind_Ok.
  rewrite (reshape_Ok bc) by (rewrite Hbc; simpl; lia).
  rewrite result_bind_Ok, Hbc.
  set (n := Z.to_nat (num_bins self)) in *. clearbody n.
  change (shape (clip_by_value y_true (of_Q 0) (of_Q 1))) with (shape y_true).
  rewrite Ht. cbv beta iota.
  destruct (slice_last_widths n) as [Hupper Hlower].
  destruct (slice_last_Ok_shape {| shape := [1; 1; n]; data := data bc |}
              [1; 1] n 1 None eq_refl) as (upper & -> & Su).
  destruct (slice_last_Ok_shape {| shape := [1; 1; n]; data := data bc |}
              [1; 1] n 0 (Some (-1)%Z) eq_refl) as (lower & -> & Sl).
  rewrite Hupper in Su. rewrite Hlower in Sl. rewrite !result_bind_Ok.
  unfold subtract, multiply, divide, add, reduce_sum, reduce_mean.
  broadcast_step.
  destruct (reduce_all_Ok_shape (λ s k, fdiv s (of_nat k)) x)
    as (m & -> & Sm).
  rewrite S in Sm. change (squeezed_shape _ _) with (@nil nat) in Sm.
  rewrite result_bind_Ok.
  do 3 broadcast_step.
  rewrite (reshape_Ok (clip_by_value y_true (of_Q 0) (of_Q 1)))
    by (shapes; unfold numel; cbn [foldr]; lia).
  rewrite result_bind_Ok.
  destruct (decide (numel (shape y_pred) = numel [batch; w; h; z; ch]))
    as [Hnumel|Hnumel]; cbv beta iota; cycle 1.
  { rewrite (reshape_Raise (clip_by_value y_pred (of_Q 0) (of_Q 1))); [done|].
    cbn [shape clip_by_value map_elements]. intros Heq. apply Hnumel.
    rewrite <-Heq. unfold numel. cbn [foldr]. lia. }
  rewrite (reshape_Ok (clip_by_value y_pred (of_Q 0) (of_Q 1)))
    by (cbn [shape clip_by_value map_elements]; rewrite Hnumel;
        unfold numel; cbn [foldr]; lia).
  rewrite result_bind_Ok.
  set (N := w * h * z * ch) in *. clearbody N.
  repeat first [broadcast_step | reduce_step | transpose_step | matmul_step].
  eexists. split; [reflexivity|]. split; [assumption|].
  etransitivity; [eassumption|]. simpl. lia.
Qed.

End gmi_more.

Lemma GlobalMutualInformation_call_shape_witness :
  shape (with_channel volume_true) = [1; 1; 1; 2; 1] ∧
  length (shape (with_channel volume_pred_swapped)) = 5 ∧
  (0 ≤ 0)%Z ∧
  ∃ r, GlobalMutualInformation_call (mkGlobalMutualInformation 0 (1 # 2)%Q)
         (with_channel volume_true) (with_channel volume_pred_swapped) = Ok r ∧
       shape r = [1] ∧ length (data r) = 1.
Proof.
  do 2 (split; [reflexivity|]). split; [done|].
  apply (GlobalMutualInformation_call_shape
           (mkGlobalMutualInformation 0 (1 # 2)%Q)
           (with_channel volume_true) (with_channel volume_pred_swapped)
           1 1 1 2 1); [reflexivity..|done].
Defined.

End ImageMore.
